(** * TileDB Cloud Jupyter contents manager: path resolution, array
      lifecycle and synthetic directory listings.

    A shallow embedding of [tiledbcontents/tiledbcontents.py].  Python
    strings are [string]; a Python dict is an association list in
    insertion order; the TileDB store and the TileDB Cloud catalog are
    an explicit [World] threaded through a state-and-exception monad. *)

From Stdlib Require Import ZArith NArith Ascii String List Bool Lia.
From Stdlib Require Import DecimalString DecimalN.
From stdpp Require Import base option list gmap strings.

Set Warnings "-register-all".
Local Open Scope string_scope.
Local Open Scope Z_scope.

(** ** Python exceptions and results *)

Inductive exn : Type :=
| TileDBError (msg : string)
| TileDBCloudError (msg : string)
| HTTPError (code : Z) (msg : string)
| TypeError (msg : string)
| KeyError (key : string)
| AttributeError (msg : string)
| IndexError.

Inductive outcome (A : Type) : Type :=
| Ok (a : A)
| Raise (e : exn)
| OutOfFuel.

Arguments Ok {A} a.
Arguments Raise {A} e.
Arguments OutOfFuel {A}.

(** [tornado.web.HTTPError(status_code=500, log_message=None, *args,
    **kwargs)]: the status is the first positional argument or the
    keyword [status_code]; of the remaining keywords only [reason] is
    kept. *)
Definition tornado_HTTPError (status_code : option Z) (reason : string) : exn :=
  HTTPError (match status_code with Some c => c | None => 500 end) reason.

(** [http_error(code, message)] is
    [HTTPError(code=code, message=message, reason=message)].  The
    constructor has no parameter [code], so the keyword is swallowed by
    [**kwargs] and the status stays at its default. *)
Definition http_error (code : Z) (message : string) : exn :=
  tornado_HTTPError None message.

(** ** Python string primitives *)

Module PyStr.

(** [s.split(sep)] for a one-character separator (every call site
    passes ["/"], [os.sep] or ["-"]).  Never returns the empty list. *)
Fixpoint split (sep : ascii) (s : string) : list string :=
  match s with
  | EmptyString => [EmptyString]
  | String c s' =>
      match split sep s' with
      | [] => [String c EmptyString]
      | hd :: tl =>
          if Ascii.eqb c sep then EmptyString :: hd :: tl
          else String c hd :: tl
      end
  end.

(** [sep.join(parts)] *)
Fixpoint join (sep : string) (parts : list string) : string :=
  match parts with
  | [] => EmptyString
  | [p] => p
  | p :: rest => p +:+ sep +:+ join sep rest
  end.

(** [s.partition(sep)]: split at the first occurrence; [(s, "", "")]
    when [sep] does not occur. *)
Fixpoint partition (sep : ascii) (s : string) : string * string * string :=
  match s with
  | EmptyString => (EmptyString, EmptyString, EmptyString)
  | String c s' =>
      if Ascii.eqb c sep then (EmptyString, String sep EmptyString, s')
      else let '(h, d, t) := partition sep s' in (String c h, d, t)
  end.

(** [s.rpartition(sep)]: split at the last occurrence; [("", "", s)]
    when [sep] does not occur. *)
Fixpoint rpartition (sep : ascii) (s : string) : string * string * string :=
  match s with
  | EmptyString => (EmptyString, EmptyString, EmptyString)
  | String c s' =>
      let '(h, d, t) := rpartition sep s' in
      match d with
      | EmptyString =>
          if Ascii.eqb c sep then (EmptyString, String sep EmptyString, s')
          else (EmptyString, EmptyString, String c t)
      | _ => (String c h, d, t)
      end
  end.

Fixpoint lstrip (c : ascii) (s : string) : string :=
  match s with
  | EmptyString => EmptyString
  | String a s' => if Ascii.eqb a c then lstrip c s' else s
  end.

Fixpoint rstrip (c : ascii) (s : string) : string :=
  match s with
  | EmptyString => EmptyString
  | String a s' =>
      match rstrip c s' with
      | EmptyString => if Ascii.eqb a c then EmptyString else String a EmptyString
      | r => String a r
      end
  end.

(** [s.strip(c)] for a one-character set. *)
Definition strip (c : ascii) (s : string) : string := rstrip c (lstrip c s).

(** [s.endswith(suf)] *)
Definition endswith (suf s : string) : bool :=
  let n := String.length s in
  let m := String.length suf in
  (m <=? n)%nat && String.eqb (String.substring (n - m) m s) suf.

(** [s[: -k]] for [k > 0] *)
Definition drop_last (k : nat) (s : string) : string :=
  String.substring 0 (String.length s - k) s.

(** [needle in s] (substring test) *)
Fixpoint contains (needle s : string) : bool :=
  String.prefix needle s ||
  match s with
  | EmptyString => false
  | String _ s' => contains needle s'
  end.

Definition is_digit (c : ascii) : bool :=
  let n := nat_of_ascii c in ((48 <=? n) && (n <=? 57))%nat.

Fixpoint all_digits (s : string) : bool :=
  match s with
  | EmptyString => true
  | String c s' => is_digit c && all_digits s'
  end.

(** [s.isdigit()], for a string of ASCII characters: non-empty and only
    the digits ["0"] to ["9"].  (Python also counts other Unicode digits,
    such as superscripts, on which [int] raises; statements that depend
    on it are made for ASCII names.) *)
Definition isdigit (s : string) : bool :=
  match s with
  | EmptyString => false
  | _ => all_digits s
  end.

(** [int(s)] for a string of the digits ["0"] to ["9"], the only
    strings it is applied to on ASCII names. *)
Definition int (s : string) : N :=
  match NilEmpty.uint_of_string s with
  | Some d => N.of_uint d
  | None => 0%N
  end.

(** [str(n)] / ["{}".format(n)] for a non-negative integer. *)
Definition of_N (n : N) : string := NilZero.string_of_uint (N.to_uint n).

End PyStr.

(** Python list indexing [l[i]], negative indices counted from the end. *)
Definition py_index {A : Type} (l : list A) (i : Z) : outcome A :=
  let n := Z.of_nat (length l) in
  let j := if i <? 0 then i + n else i in
  if (j <? 0) || (n <=? j) then Raise IndexError
  else match l !! Z.to_nat j with
       | Some x => Ok x
       | None => Raise IndexError
       end.

(** [l[i] = x] with the same index convention. *)
Definition py_setitem {A : Type} (l : list A) (i : Z) (x : A) : outcome (list A) :=
  let n := Z.of_nat (length l) in
  let j := if i <? 0 then i + n else i in
  if (j <? 0) || (n <=? j) then Raise IndexError
  else Ok (<[Z.to_nat j := x]> l).

Definition NOTEBOOK_EXT : string := ".ipynb".
Definition NOTEBOOK_MIME : string := "application/x-ipynb+json".
Definition TAG_JUPYTER_NOTEBOOK : string := "__jupyter-notebook".
(** [datetime.datetime.fromtimestamp(86400)], kept as POSIX seconds. *)
Definition DUMMY_CREATED_DATE : Z := 86400.
Definition NBFORMAT_VERSION : Z := 4.

Section PathResolution.

(** [os.sep], the platform path separator. *)
Variable os_sep : ascii.

(** [TileDBContents.tiledb_uri_from_path] *)
Definition tiledb_uri_from_path (path : string) : outcome string :=
  let parts := PyStr.split os_sep path in
  let parts := if (length parts =? 1)%nat then PyStr.split "/" path else parts in
  let len := Z.of_nat (length parts) in
  match py_index parts (len - 2) with
  | Ok ns =>
      match py_index parts (len - 1) with
      | Ok name => Ok ("tiledb://" +:+ ns +:+ "/" +:+ name)
      | Raise e => Raise e
      | OutOfFuel => OutOfFuel
      end
  | Raise e => Raise e
  | OutOfFuel => OutOfFuel
  end.

(** [TileDBContents._is_remote_path] *)
Definition _is_remote_path (path : string) : bool :=
  match PyStr.split os_sep path, PyStr.split "/" path with
  | a :: _, b :: _ => String.eqb a "cloud" || String.eqb b "cloud"
  | _, _ => false
  end.

Definition remote_dir_splits (splits : list string) : bool :=
  match splits with
  | [a] => String.eqb a "cloud"
  | a :: b :: rest =>
      (length rest <=? 1)%nat && String.eqb a "cloud" &&
      (String.eqb b "owned" || String.eqb b "public" || String.eqb b "shared")
  | [] => false
  end.

(** [TileDBContents._is_remote_dir]: the loop over [[os.sep, "/"]]. *)
Definition _is_remote_dir (path : string) : bool :=
  existsb (fun sep => remote_dir_splits (PyStr.split sep path))
          [os_sep; "/"%char].

End PathResolution.

(** [TileDBContents._increment_filename]; [insert] defaults to ["-"]. *)
Definition _increment_filename (filename : string) (insert : ascii) : string :=
  let '(basename, dot, ext) := PyStr.rpartition "." filename in
  let '(basename, dot, ext) :=
    if negb (String.eqb ext "ipynb") then PyStr.partition "." filename
    else (basename, dot, ext) in
  let suffix := dot +:+ ext in
  let parts := PyStr.split insert basename in
  let '(start, basename) :=
    if (1 <? length parts)%nat then
      let start_str := List.last parts EmptyString in
      (if PyStr.isdigit start_str then PyStr.int start_str else 0%N,
       PyStr.join (String insert EmptyString) (take (length parts - 1) parts))
    else (0%N, basename) in
  let start := (start + 1)%N in
  let insert_i :=
    if negb (start =? 0)%N then String insert EmptyString +:+ PyStr.of_N start
    else EmptyString in
  basename +:+ insert_i +:+ suffix.

(** ** Python values

    The JSON-like values that flow through models, array metadata and
    notebook documents. *)

Inductive pyval : Type :=
| PNone
| PBool (b : bool)
| PInt (z : Z)
| PStr (s : string)
| PBytes (bs : list Byte.byte)
| PDate (t : Z)
| PList (l : list pyval)
| PDict (d : list (string * pyval)).

(** A dict with string keys, in insertion order. *)
Module Dict.

Section Ops.
Context {V : Type}.

Fixpoint get (k : string) (d : list (string * V)) : option V :=
  match d with
  | [] => None
  | (k', v) :: d' => if String.eqb k' k then Some v else get k d'
  end.

Definition has (k : string) (d : list (string * V)) : bool :=
  match get k d with Some _ => true | None => false end.

(** [d[k] = v]: an existing key keeps its position. *)
Fixpoint set (k : string) (v : V) (d : list (string * V)) : list (string * V) :=
  match d with
  | [] => [(k, v)]
  | (k', v') :: d' =>
      if String.eqb k' k then (k, v) :: d' else (k', v') :: set k v d'
  end.

Definition keys (d : list (string * V)) : list string := map fst d.
Definition values (d : list (string * V)) : list V := map snd d.
End Ops.

End Dict.

(** [v[k]] for a string key. *)
Definition py_getitem (v : pyval) (k : string) : outcome pyval :=
  match v with
  | PDict d =>
      match Dict.get k d with
      | Some x => Ok x
      | None => Raise (KeyError k)
      end
  | PStr _ => Raise (TypeError "string indices must be integers")
  | PBytes _ => Raise (TypeError "byte indices must be integers")
  | PList _ => Raise (TypeError "list indices must be integers or slices, not str")
  | PNone | PBool _ | PInt _ | PDate _ =>
      Raise (TypeError "object is not subscriptable")
  end.

(** [k in v] for a string [k]: key test on a dict, substring test on a
    string, element test on a list. *)
Definition py_contains (k : string) (v : pyval) : outcome bool :=
  match v with
  | PDict d => Ok (Dict.has k d)
  | PStr s => Ok (PyStr.contains k s)
  | PList l =>
      Ok (existsb (fun x => match x with PStr s => String.eqb s k | _ => false end) l)
  | PBytes _ => Raise (TypeError "a bytes-like object is required, not 'str'")
  | PNone | PBool _ | PInt _ | PDate _ =>
      Raise (TypeError "argument is not iterable")
  end.

(** [len(v)] *)
Definition py_len (v : pyval) : outcome Z :=
  match v with
  | PStr s => Ok (Z.of_nat (String.length s))
  | PBytes bs => Ok (Z.of_nat (length bs))
  | PList l => Ok (Z.of_nat (length l))
  | PDict d => Ok (Z.of_nat (length d))
  | PNone | PBool _ | PInt _ | PDate _ => Raise (TypeError "object has no len()")
  end.

(** [d.get(k)]: [None] for a missing key. *)
Definition dict_get_default (k : string) (d : list (string * pyval)) : pyval :=
  match Dict.get k d with Some v => v | None => PNone end.

(** ** Models *)

(** [base_model] *)
Definition base_model (path : string) : list (string * pyval) :=
  [ ("name", PStr (List.last (PyStr.split "/" path) EmptyString));
    ("path", PStr path);
    ("writable", PBool true);
    ("last_modified", PDate DUMMY_CREATED_DATE);
    ("created", PDate DUMMY_CREATED_DATE);
    ("content", PNone);
    ("format", PNone);
    ("mimetype", PNone) ].

(** [base_directory_model] *)
Definition base_directory_model (path : string) : list (string * pyval) :=
  let model := base_model path in
  Dict.set "format" (PStr "json")
    (Dict.set "created" (PDate DUMMY_CREATED_DATE)
       (Dict.set "last_modified" (PDate DUMMY_CREATED_DATE)
          (Dict.set "type" (PStr "directory") model))).

(** ** The environment: TileDB store and TileDB Cloud catalog *)

(** A catalog record (the fields the contents manager reads). *)
Record ArrayInfo : Type := mkArrayInfo {
  name : string;
  namespace : string;
  last_accessed : Z;
  allowed_actions : list string;
  tags : list string
}.

(** One backend array: the sparse [position -> contents] cells, the
    metadata dict, and its catalog record. *)
Record BackendArray : Type := mkBackendArray {
  cells : gmap N Byte.byte;
  meta : gmap string pyval;
  info : ArrayInfo
}.

Record NotebookSettings : Type := mkNotebookSettings {
  default_s3_path : option string
}.

Record Organization : Type := mkOrganization {
  organization_name : string
}.

Record UserProfile : Type := mkUserProfile {
  username : string;
  organizations : list Organization;
  notebook_settings : option NotebookSettings;
  enabled_features : list string
}.

Record OrganizationProfile : Type := mkOrganizationProfile {
  org_notebook_settings : option NotebookSettings
}.

(** A catalog reply: a value, or the message of a [TileDBCloudError]. *)
Inductive reply (A : Type) : Type :=
| Reply (a : A)
| CloudFailure (msg : string).

Arguments Reply {A} a.
Arguments CloudFailure {A} msg.

(** Calls issued to the collaborators, most recent first. *)
Inductive call : Type :=
| CallListArrays (ns : option string)
| CallListSharedArrays (ns : option string)
| CallListPublicArrays (ns : option string)
| CallUserProfile
| CallOrganization (ns : string)
| CallArrayInfo (uri : string)
| CallUpdateInfo (uri array_name : string)
| CallDeregisterArray (uri : string)
| CallRenameNotebook (uri notebook_name : string)
| CallSparseArrayCreate (uri : string)
| CallOpen (uri : string) (write_mode : bool)
| CallWriteCells (uri : string)
| CallSetMeta (uri key : string).

(** Modelled from the spec: the catalog service and the backend array
    store of section 6 (the [tiledb] and [tiledb.cloud] packages), which
    the repository only calls.  Arrays are addressed by
    [tiledb://<namespace>/<name>]; listings and profiles are whatever the
    catalog answers; [create_faults] are the messages of storage errors
    the engine raises on the next create calls. *)
Record World : Type := mkWorld {
  arrays : gmap string BackendArray;
  list_arrays : option string -> reply (option (list ArrayInfo));
  list_shared_arrays : option string -> reply (option (list ArrayInfo));
  list_public_arrays : option string -> reply (option (list ArrayInfo));
  user_profile : reply UserProfile;
  organization : string -> reply OrganizationProfile;
  create_faults : list string;
  calls : list call
}.

Definition set_arrays (f : gmap string BackendArray -> gmap string BackendArray)
    (w : World) : World :=
  mkWorld (f (arrays w)) (list_arrays w) (list_shared_arrays w)
          (list_public_arrays w) (user_profile w) (organization w)
          (create_faults w) (calls w).

Definition set_create_faults (fs : list string) (w : World) : World :=
  mkWorld (arrays w) (list_arrays w) (list_shared_arrays w)
          (list_public_arrays w) (user_profile w) (organization w)
          fs (calls w).

Definition log_call (c : call) (w : World) : World :=
  mkWorld (arrays w) (list_arrays w) (list_shared_arrays w)
          (list_public_arrays w) (user_profile w) (organization w)
          (create_faults w) (c :: calls w).

(** ** State-and-exception monad

    A raised exception keeps the world reached so far, as in Python. *)

Definition M (A : Type) : Type := World -> outcome A * World.

Definition ret {A} (a : A) : M A := fun w => (Ok a, w).
Definition raise {A} (e : exn) : M A := fun w => (Raise e, w).
Definition out_of_fuel {A} : M A := fun w => (OutOfFuel, w).

Definition bind {A B} (m : M A) (k : A -> M B) : M B :=
  fun w =>
    match m w with
    | (Ok a, w') => k a w'
    | (Raise e, w') => (Raise e, w')
    | (OutOfFuel, w') => (OutOfFuel, w')
    end.

(** [try: m  except ... as e: handler(e)] *)
Definition try_except {A} (m : M A) (handler : exn -> M A) : M A :=
  fun w =>
    match m w with
    | (Raise e, w') => handler e w'
    | r => r
    end.

Definition lift {A} (o : outcome A) : M A := fun w => (o, w).

Definition ask_reply {A} (c : call) (f : World -> reply A) : M A :=
  fun w =>
    match f w with
    | Reply a => (Ok a, log_call c w)
    | CloudFailure msg => (Raise (TileDBCloudError msg), log_call c w)
    end.

Declare Scope py_scope.
Delimit Scope py_scope with py.
Notation "x <- m ;; k" := (bind m (fun x => k))
  (at level 100, m at next level, right associativity) : py_scope.
Notation "m ;;; k" := (bind m (fun _ => k))
  (at level 100, right associativity) : py_scope.
Local Open Scope py_scope.

(** [str(e)] *)
Definition exn_str (e : exn) : string :=
  match e with
  | TileDBError msg => msg
  | TileDBCloudError msg => msg
  | HTTPError code msg => "HTTP " +:+ PyStr.of_N (Z.to_N code) +:+ ": " +:+ msg
  | TypeError msg => msg
  | KeyError k => "'" +:+ k +:+ "'"
  | AttributeError msg => msg
  | IndexError => "list index out of range"
  end.

(** [isinstance(e, tiledb.TileDBError)]: [TileDBCloudError] derives from
    [tiledb.TileDBError] in [tiledb.cloud.tiledb_cloud_error]. *)
Definition is_TileDBError (e : exn) : bool :=
  match e with
  | TileDBError _ | TileDBCloudError _ => true
  | _ => false
  end.

(** *** Catalog calls

    The [tiledb.cloud] client functions, acting on the [World]. *)

Module Cloud.

Definition client_user_profile : M UserProfile :=
  ask_reply CallUserProfile user_profile.

Definition client_organization (ns : string) : M OrganizationProfile :=
  ask_reply (CallOrganization ns) (fun w => organization w ns).

Definition client_list_arrays (ns : option string) : M (option (list ArrayInfo)) :=
  ask_reply (CallListArrays ns) (fun w => list_arrays w ns).

Definition client_list_shared_arrays (ns : option string)
  : M (option (list ArrayInfo)) :=
  ask_reply (CallListSharedArrays ns) (fun w => list_shared_arrays w ns).

Definition client_list_public_arrays (ns : option string)
  : M (option (list ArrayInfo)) :=
  ask_reply (CallListPublicArrays ns) (fun w => list_public_arrays w ns).

Definition not_found : string := "Array or Namespace Not found".

(** [tiledb.cloud.array.info(uri)] *)
Definition array_info (uri : string) : M ArrayInfo :=
  ask_reply (CallArrayInfo uri)
    (fun w => match arrays w !! uri with
              | Some a => Reply (info a)
              | None => CloudFailure not_found
              end).

(** [tiledb.cloud.array.update_info(uri, array_name, tags)] *)
Definition array_update_info (uri array_name : string) (tgs : list string)
  : M unit :=
  fun w =>
    let w := log_call (CallUpdateInfo uri array_name) w in
    match arrays w !! uri with
    | Some a =>
        let i := mkArrayInfo array_name (namespace (info a))
                   (last_accessed (info a)) (allowed_actions (info a)) tgs in
        (Ok tt, set_arrays (insert uri (mkBackendArray (cells a) (meta a) i)) w)
    | None => (Raise (TileDBCloudError not_found), w)
    end.

(** [tiledb.cloud.array.deregister_array(uri)] *)
Definition array_deregister_array (uri : string) : M unit :=
  fun w =>
    let w := log_call (CallDeregisterArray uri) w in
    match arrays w !! uri with
    | Some _ => (Ok tt, set_arrays (delete uri) w)
    | None => (Raise (TileDBCloudError not_found), w)
    end.

End Cloud.

(** *** Storage engine calls

    The [tiledb] array functions, acting on the [World]: writing
    [A[range(n)]] sets the cells [0 .. n-1], reading [A[slice(0, n)]]
    returns the non-empty cells of [[0, n)] in order. *)

Module Tiledb.

(** Cells [pos, pos+1, ...] receive the bytes of [bs]. *)
Fixpoint write_from (pos : N) (bs : list Byte.byte) (c : gmap N Byte.byte)
  : gmap N Byte.byte :=
  match bs with
  | [] => c
  | b :: bs' => write_from (N.succ pos) bs' (<[pos := b]> c)
  end.

(** The non-empty cells among [pos, ..., pos + count - 1], in order. *)
Fixpoint read_from (pos : N) (count : nat) (c : gmap N Byte.byte)
  : list Byte.byte :=
  match count with
  | O => []
  | S count' =>
      match c !! pos with
      | Some b => b :: read_from (N.succ pos) count' c
      | None => read_from (N.succ pos) count' c
      end
  end.

(** The half-open range [[start, stop)] of a sparse read. *)
Definition read_range (start stop : Z) (c : gmap N Byte.byte) : list Byte.byte :=
  read_from (Z.to_N start) (Z.to_nat (stop - start)) c.

Definition no_such_array (uri : string) : string :=
  "Array " +:+ uri +:+ " does not exist".

Definition new_array (ns nm : string) : BackendArray :=
  mkBackendArray ∅ ∅ (mkArrayInfo nm ns 0 ["read"; "write"] []).

(** [tiledb.SparseArray.create(uri, schema)] with
    [uri = tiledb://<namespace>/<s3 prefix><name>]: the array becomes
    addressable as [tiledb://<namespace>/<last segment>]. *)
Definition SparseArray_create (uri : string) : M unit :=
  fun w =>
    let w := log_call (CallSparseArrayCreate uri) w in
    match create_faults w with
    | msg :: rest => (Raise (TileDBError msg), set_create_faults rest w)
    | [] =>
        let parts := PyStr.split "/" uri in
        let ns := nth 2 parts EmptyString in
        let nm := List.last parts EmptyString in
        let key := "tiledb://" +:+ ns +:+ "/" +:+ nm in
        match arrays w !! key with
        | Some _ =>
            (Raise (TileDBError ("Array " +:+ key +:+ " already exists")), w)
        | None => (Ok tt, set_arrays (insert key (new_array ns nm)) w)
        end
    end.

(** [tiledb.open(uri, mode=..., ctx=...)] *)
Definition open (uri : string) (write_mode : bool) : M BackendArray :=
  fun w =>
    let w := log_call (CallOpen uri write_mode) w in
    match arrays w !! uri with
    | Some a => (Ok a, w)
    | None => (Raise (TileDBError (no_such_array uri)), w)
    end.

(** [A[range(n)] = {"contents": contents}] on the array opened at [uri]. *)
Definition write_cells (uri : string) (contents : pyval) : M unit :=
  fun w =>
    let w := log_call (CallWriteCells uri) w in
    match arrays w !! uri, contents with
    | Some a, PBytes bs =>
        (Ok tt,
         set_arrays
           (insert uri (mkBackendArray (write_from 0 bs (cells a)) (meta a) (info a)))
           w)
    | Some _, _ => (Raise (TypeError "contents must be a uint8 array"), w)
    | None, _ => (Raise (TileDBError (no_such_array uri)), w)
    end.

(** [A.meta[key] = v] *)
Definition set_meta (uri key : string) (v : pyval) : M unit :=
  fun w =>
    let w := log_call (CallSetMeta uri key) w in
    match arrays w !! uri with
    | Some a =>
        (Ok tt,
         set_arrays
           (insert uri (mkBackendArray (cells a) (<[key := v]> (meta a)) (info a)))
           w)
    | None => (Raise (TileDBError (no_such_array uri)), w)
    end.

(** [A[slice(0, stop)]["contents"]] *)
Definition read_contents (a : BackendArray) (stop : pyval) : outcome (list Byte.byte) :=
  match stop with
  | PInt n => Ok (read_range 0 n (cells a))
  | _ => Raise (TypeError "slice indices must be integers")
  end.

End Tiledb.

(** [tiledb.cloud.notebook.rename_notebook(uri, notebook_name)] *)
Definition notebook_rename_notebook (uri notebook_name : string) : M unit :=
  fun w =>
    let w := log_call (CallRenameNotebook uri notebook_name) w in
    match arrays w !! uri with
    | Some a =>
        let i := mkArrayInfo notebook_name (namespace (info a))
                   (last_accessed (info a)) (allowed_actions (info a))
                   (tags (info a)) in
        let key := "tiledb://" +:+ namespace (info a) +:+ "/" +:+ notebook_name in
        (Ok tt,
         set_arrays
           (fun m => <[key := mkBackendArray (cells a) (meta a) i]> (delete uri m)) w)
    | None => (Raise (TileDBCloudError Cloud.not_found), w)
    end.

(** ** Module-level helpers *)

Definition s3_path_of (s : option NotebookSettings) : option string :=
  match s with
  | Some ns => default_s3_path ns
  | None => None
  end.

(** [get_cloud_enabled] *)
Definition get_cloud_enabled : M bool :=
  try_except
    (profile <- Cloud.client_user_profile;;
     ret (existsb (String.eqb "notebook_sharing") (enabled_features profile)))
    (fun e =>
       match e with
       | TileDBCloudError msg =>
           raise (http_error 400
                    ("Error fetching user default s3 path for new notebooks " +:+ msg))
       | _ => raise e
       end).

(** [get_s3_prefix] *)
Definition get_s3_prefix (ns : string) : M (option string) :=
  try_except
    (profile <- Cloud.client_user_profile;;
     if String.eqb ns (username profile) then
       ret (s3_path_of (notebook_settings profile))
     else
       org <- Cloud.client_organization ns;;
       ret (s3_path_of (org_notebook_settings org)))
    (fun e =>
       match e with
       | TileDBCloudError msg =>
           raise (http_error 400
                    ("Error fetching user default s3 path for new notebooks " +:+ msg))
       | _ => raise e
       end).

(** ["%s" % v] for [None], booleans, integers and strings.  The [repr]
    of containers, bytes and dates is not modelled and stands
    abbreviated; statements expose the result for strings only. *)
Definition py_str (v : pyval) : string :=
  match v with
  | PNone => "None"
  | PBool true => "True"
  | PBool false => "False"
  | PInt z =>
      if z <? 0 then "-" +:+ PyStr.of_N (Z.to_N (- z)) else PyStr.of_N (Z.to_N z)
  | PStr s => s
  | PBytes _ => "b'...'"
  | PDate t => "datetime(" +:+ PyStr.of_N (Z.to_N t) +:+ ")"
  | PList _ => "[...]"
  | PDict _ => "{...}"
  end.

(** [v == s] for a string literal [s]. *)
Definition py_eq_str (v : pyval) (s : string) : bool :=
  match v with
  | PStr s' => String.eqb s' s
  | _ => false
  end.

(** [v is None] *)
Definition is_none (v : pyval) : bool :=
  match v with
  | PNone => true
  | _ => false
  end.

(** [self._is_new = True; if 'language_info' in
    model['content']['metadata']: self._is_new = False] of [save]. *)
Definition newness_flag (model : list (string * pyval)) : outcome bool :=
  match py_getitem (PDict model) "content" with
  | Ok content =>
      match py_getitem content "metadata" with
      | Ok metadata =>
          match py_contains "language_info" metadata with
          | Ok has_language_info => Ok (negb has_language_info)
          | Raise e => Raise e
          | OutOfFuel => OutOfFuel
          end
      | Raise e => Raise e
      | OutOfFuel => OutOfFuel
      end
  | Raise e => Raise e
  | OutOfFuel => OutOfFuel
  end.

(** ** class TileDBContents *)

Section Contents.

(** [os.sep] *)
Variable os_sep : ascii.

(** The notebook-format collaborator and the hooks inherited from
    [ContentsManager]; only their interface is known here. *)
Variable reads : list Byte.byte -> Z -> outcome pyval.
Variable mark_trusted_cells : pyval -> string -> pyval.
Variable validate_notebook_model : list (string * pyval) -> list (string * pyval).
Variable from_dict : pyval -> pyval.
Variable check_and_sign : pyval -> string -> outcome unit.
Variable json_dumps : pyval -> outcome (list Byte.byte).
Variable run_pre_save_hook :
  list (string * pyval) -> string -> outcome (list (string * pyval)).

(** The local delegate [FileContentsManager] reached through [super()]. *)
Variable super_get : string -> bool -> pyval -> pyval -> outcome (list (string * pyval)).
Variable super_save : list (string * pyval) -> string -> outcome (list (string * pyval)).
Variable super_dir_model : string -> bool -> outcome (list (string * pyval)).
Variable super_dir_exists : string -> bool.
Variable super_is_hidden : string -> bool.
Variable super_file_exists : string -> bool.
Variable super_delete_file : string -> outcome unit.
Variable super_rename : string -> string -> outcome unit.

(** [TileDBContents._create_array]; [fuel] bounds the recursion depth. *)
Fixpoint _create_array (fuel : nat) (uri : string) (retry : Z)
  : M (option (string * string)) :=
  match fuel with
  | O => out_of_fuel
  | S fuel' =>
      try_except
        (let parts := PyStr.split "/" uri in
         let parts_len := Z.of_nat (length parts) in
         ns <- lift (py_index parts (parts_len - 2));;
         array_name <- lift (py_index parts (parts_len - 1));;
         s3_prefix <- get_s3_prefix ns;;
         match s3_prefix with
         | None =>
             raise (http_error 400
                      ("You must set the default s3 prefix path for notebooks in "
                         +:+ ns +:+ " profile settings"))
         | Some s3_prefix =>
             let tiledb_uri_s3 :=
               "tiledb://" +:+ ns +:+ "/" +:+ (s3_prefix +:+ array_name) in
             Tiledb.SparseArray_create tiledb_uri_s3;;;
             let tiledb_uri := "tiledb://" +:+ ns +:+ "/" +:+ array_name in
             Cloud.array_update_info tiledb_uri array_name [TAG_JUPYTER_NOTEBOOK];;;
             ret (Some (tiledb_uri, array_name))
         end)
        (fun e =>
           if is_TileDBError e then
             if PyStr.contains "already exists" (exn_str e) then
               let parts := PyStr.split "/" uri in
               let parts_length := Z.of_nat (length parts) in
               array_name <- lift (py_index parts (parts_length - 1));;
               let array_name := _increment_filename array_name "-" in
               parts <- lift (py_setitem parts (parts_length - 1) array_name);;
               let uri := PyStr.join "/" parts in
               _create_array fuel' uri retry
             else if negb (retry =? 0) then
               _create_array fuel' uri (retry - 1)
             else ret None
           else
             match e with
             | HTTPError _ _ => raise e
             | _ => raise (http_error 400 ("Error creating file " +:+ exn_str e +:+ " "))
             end)
  end.

(** [TileDBContents._array_exists] *)
Definition _array_exists (path : string) : M bool :=
  tiledb_uri <- lift (tiledb_uri_from_path os_sep path);;
  try_except
    (Cloud.array_info tiledb_uri;;; ret true)
    (fun e =>
       match e with
       | TileDBCloudError _ => ret false
       | _ => raise e
       end).

(** [A.meta[key] = v] when [v is not None] *)
Definition set_meta_if_given (uri key : string) (v : pyval) : M unit :=
  if is_none v then ret tt else Tiledb.set_meta uri key v.

(** [TileDBContents._write_bytes_to_array]; [_is_new] is the instance
    flag [self._is_new] set by [save]. *)
Definition _write_bytes_to_array (fuel : nat) (_is_new : bool) (uri : string)
    (contents mimetype format type : pyval) : M (option string) :=
  tiledb_uri <- lift (tiledb_uri_from_path os_sep uri);;
  target <-
    (if _is_new then
       created <- _create_array fuel tiledb_uri 5;;
       match created with
       | Some (u, final_array_name) => ret (u, Some final_array_name)
       | None => raise (TypeError "cannot unpack non-iterable NoneType object")
       end
     else ret (tiledb_uri, None));;
  let tiledb_uri := fst target in
  let final_array_name := snd target in
  Tiledb.open tiledb_uri true;;;
  n <- lift (py_len contents);;
  Tiledb.write_cells tiledb_uri contents;;;
  Tiledb.set_meta tiledb_uri "file_size" (PInt n);;;
  set_meta_if_given tiledb_uri "mimetype" mimetype;;;
  set_meta_if_given tiledb_uri "format" format;;;
  set_meta_if_given tiledb_uri "type" type;;;
  ret final_array_name.

(** [TileDBContents._save_notebook_tiledb]; also returns the model as
    [validate_notebook_model] left it, since the caller shares it. *)
Definition _save_notebook_tiledb (fuel : nat) (_is_new : bool)
    (model : list (string * pyval)) (uri : string)
  : M (option string * pyval * list (string * pyval)) :=
  content <- lift (py_getitem (PDict model) "content");;
  let nb_contents := from_dict content in
  lift (check_and_sign nb_contents uri);;;
  file_contents <- lift (json_dumps content);;
  final_name <-
    _write_bytes_to_array fuel _is_new uri (PBytes file_contents)
      (dict_get_default "mimetype" model) (dict_get_default "format" model)
      (PStr "notebook");;
  let model := validate_notebook_model model in
  ret (final_name, dict_get_default "message" model, model).

(** [TileDBContents._save_file_tiledb] *)
Definition _save_file_tiledb (fuel : nat) (_is_new : bool)
    (model : list (string * pyval)) (uri : string) : M (option string) :=
  file_contents <- lift (py_getitem (PDict model) "content");;
  _write_bytes_to_array fuel _is_new uri file_contents
    (dict_get_default "mimetype" model) (dict_get_default "format" model)
    (PStr "file").

(** [TileDBContents._notebook_from_array].  The inherited
    [validate_notebook_model] reads the notebook's version with
    [content.get]: on a decoded notebook it returns, on the list [[]]
    that stands for the content of an array without [file_size] it
    raises [AttributeError]. *)
Definition _notebook_from_array (uri : string) (content : bool)
  : M (list (string * pyval)) :=
  let model := base_model uri in
  let model := Dict.set "type" (PStr "notebook") model in
  if content then
    tiledb_uri <- lift (tiledb_uri_from_path os_sep uri);;
    try_except
      (info <- Cloud.array_info tiledb_uri;;
       let model := Dict.set "last_modified" (PDate (last_accessed info)) model in
       let model :=
         if negb (existsb (String.eqb "write") (allowed_actions info))
         then Dict.set "writable" (PBool false) model else model in
       A <- Tiledb.open tiledb_uri false;;
       let meta := meta A in
       nb_content <-
         match meta !! "file_size" with
         | Some file_size =>
             file_content <- lift (Tiledb.read_contents A file_size);;
             nb_content <- lift (reads file_content NBFORMAT_VERSION);;
             ret (mark_trusted_cells nb_content uri)
         | None => ret (PList [])
         end;;
       let model := Dict.set "format" (PStr "json") model in
       let model := Dict.set "content" nb_content model in
       match meta !! "file_size" with
       | Some _ => ret (validate_notebook_model model)
       | None => raise (AttributeError "'list' object has no attribute 'get'")
       end)
      (fun e =>
         match e with
         | TileDBCloudError msg =>
             raise (http_error 400 ("Error fetching notebook info: " +:+ msg))
         | TileDBError msg => raise (http_error 500 msg)
         | _ => raise e
         end)
  else ret model.

(** [TileDBContents._file_from_array] *)
Definition _file_from_array (uri : string) (content : bool) (format : pyval)
  : M (list (string * pyval)) :=
  let model := base_model uri in
  let model := Dict.set "type" (PStr "file") model in
  if content then
    tiledb_uri <- lift (tiledb_uri_from_path os_sep uri);;
    try_except
      (info <- Cloud.array_info tiledb_uri;;
       let model := Dict.set "last_modified" (PDate (last_accessed info)) model in
       let model :=
         if negb (existsb (String.eqb "write") (allowed_actions info))
         then Dict.set "writable" (PBool false) model else model in
       A <- Tiledb.open tiledb_uri false;;
       let meta := meta A in
       let model :=
         match meta !! "mimetype" with
         | Some v => Dict.set "mimetype" v model
         | None => model
         end in
       let model :=
         match meta !! "format" with
         | Some v => Dict.set "format" v model
         | None => Dict.set "format" format model
         end in
       let model :=
         match meta !! "type" with
         | Some v => Dict.set "type" v model
         | None => model
         end in
       read <-
         match meta !! "file_size" with
         | Some file_size =>
             file_content <- lift (Tiledb.read_contents A file_size);;
             ret (Some file_content, Dict.set "content" (PBytes file_content) model)
         | None => ret (None, Dict.set "content" (PList []) model)
         end;;
       let file_content := fst read in
       let model := snd read in
       match meta !! "type", file_content with
       | Some ty, Some file_content =>
           if py_eq_str ty "notebook" then
             nb_content <- lift (reads file_content NBFORMAT_VERSION);;
             let nb_content := mark_trusted_cells nb_content uri in
             let model := Dict.set "format" (PStr "json") model in
             let model := Dict.set "content" nb_content model in
             ret (validate_notebook_model model)
           else ret model
       | _, _ => ret model
       end)
      (fun e =>
         match e with
         | TileDBCloudError msg =>
             raise (http_error 500 ("Error fetching file info: " +:+ msg))
         | TileDBError msg => raise (http_error 500 msg)
         | _ => raise e
         end)
  else ret model.

(** [TileDBContents._get_mimetype] *)
Definition _get_mimetype (uri : string) : M pyval :=
  try_except
    (A <- Tiledb.open uri false;;
     match meta A !! "mimetype" with
     | Some v => ret v
     | None => ret PNone
     end)
    (fun e =>
       match e with
       | TileDBCloudError msg =>
           raise (http_error 500 ("Error getting mimetype: " +:+ msg))
       | TileDBError msg => raise (http_error 500 msg)
       | _ => raise e
       end).

(** [TileDBContents._get_type] *)
Definition _get_type (uri : string) : M pyval :=
  try_except
    (A <- Tiledb.open uri false;;
     match meta A !! "type" with
     | Some v => ret v
     | None => ret PNone
     end)
    (fun e =>
       match e with
       | TileDBCloudError msg =>
           raise (http_error 500 ("Error getting type: " +:+ msg))
       | TileDBError msg => raise (http_error 500 msg)
       | _ => raise e
       end).

(** [if path.endswith(NOTEBOOK_EXT): path = path[: -1 * len(NOTEBOOK_EXT)]] *)
Definition strip_notebook_ext (path_fixed : string) : string :=
  if PyStr.endswith NOTEBOOK_EXT path_fixed
  then PyStr.drop_last (String.length NOTEBOOK_EXT) path_fixed
  else path_fixed.

(** [TileDBCloudContentsManager.dir_exists] *)
Definition dir_exists (path : string) : bool :=
  let path := if String.eqb path "" then "." else path in
  let path_fixed := PyStr.strip "/" path in
  if _is_remote_dir os_sep path_fixed then true
  else super_dir_exists path.

(** [TileDBContents.guess_type] *)
Definition guess_type (path : string) (allow_directory : bool) : M pyval :=
  let path_fixed := PyStr.strip "/" path in
  if _is_remote_path os_sep path_fixed then
    if _is_remote_dir os_sep path_fixed then ret (PStr "directory")
    else
      let path_fixed := strip_notebook_ext path_fixed in
      try_except
        (tiledb_uri <- lift (tiledb_uri_from_path os_sep path_fixed);;
         _get_type tiledb_uri)
        (fun e => ret (PStr "directory"))
  else if PyStr.endswith ".ipynb" path then ret (PStr "notebook")
  else if allow_directory && dir_exists path then ret (PStr "directory")
  else ret (PStr "file").

(** ** class TileDBCloudContentsManager *)

(** The leaf entry built for one catalog record in [__list_namespace]. *)
Definition namespace_entry (category ns : string) (notebook : ArrayInfo)
  : list (string * pyval) :=
  let nbmodel := base_model (name notebook) in
  let nbmodel :=
    Dict.set "path"
      (PStr ("cloud/" +:+ category +:+ "/" +:+ ns +:+ "/" +:+ name notebook
               +:+ NOTEBOOK_EXT)) nbmodel in
  let nbmodel := Dict.set "last_modified" (PDate (last_accessed notebook)) nbmodel in
  Dict.set "type" (PStr "notebook") nbmodel.

(** [TileDBCloudContentsManager.__list_namespace] *)
Definition __list_namespace (category ns : string) (content : bool)
  : M (list (string * pyval)) :=
  arrays <-
    try_except
      (if String.eqb category "owned" then Cloud.client_list_arrays (Some ns)
       else if String.eqb category "shared" then Cloud.client_list_shared_arrays (Some ns)
       else if String.eqb category "public" then Cloud.client_list_public_arrays (Some ns)
       else ret (Some []))
      (fun e =>
         match e with
         | TileDBCloudError msg =>
             raise (http_error 500 ("Error listing notebooks in " +:+ ns +:+ ": "))
         | TileDBError msg => raise (http_error 500 msg)
         | _ => raise e
         end);;
  let model := base_directory_model ns in
  let model := Dict.set "path" (PStr ("cloud/" +:+ category +:+ "/" +:+ ns)) model in
  if content then
    let model := Dict.set "format" (PStr "json") model in
    let model := Dict.set "content" (PList []) model in
    match arrays with
    | Some arrays =>
        let model :=
          if existsb (fun nb => negb (existsb (String.eqb "write") (allowed_actions nb)))
               arrays
          then Dict.set "writable" (PBool false) model else model in
        ret (Dict.set "content"
               (PList (map (fun nb => PDict (namespace_entry category ns nb)) arrays))
               model)
    | None => ret model
    end
  else ret model.

(** The synthetic node [__list_category] files under a namespace. *)
Definition namespace_node (category ns : string) (writable : bool)
  : list (string * pyval) :=
  let namespace_model := base_directory_model ns in
  let namespace_model :=
    if writable then namespace_model
    else Dict.set "writable" (PBool false) namespace_model in
  Dict.set "path" (PStr ("cloud/" +:+ category +:+ "/" +:+ ns)) namespace_model.

(** [for org in profile.organizations: ...] of [__list_category] *)
Fixpoint add_organizations (category : string) (orgs : list Organization)
    (namespaces : list (string * list (string * pyval)))
  : list (string * list (string * pyval)) :=
  match orgs with
  | [] => namespaces
  | org :: rest =>
      if String.eqb (organization_name org) "public"
      then add_organizations category rest namespaces
      else add_organizations category rest
             (Dict.set (organization_name org)
                (namespace_node category (organization_name org) true) namespaces)
  end.

(** [for notebook in arrays: ...] of [__list_category] *)
Fixpoint add_record_namespaces (category : string) (arrays : list ArrayInfo)
    (namespaces : list (string * list (string * pyval)))
  : list (string * list (string * pyval)) :=
  match arrays with
  | [] => namespaces
  | notebook :: rest =>
      add_record_namespaces category rest
        (Dict.set (namespace notebook)
           (namespace_node category (namespace notebook) false) namespaces)
  end.

(** [TileDBCloudContentsManager.__list_category] *)
Definition __list_category (category : string) (content : bool)
  : M (list (string * pyval)) :=
  arrays <-
    try_except
      (if String.eqb category "shared" then Cloud.client_list_shared_arrays None
       else if String.eqb category "public" then Cloud.client_list_public_arrays None
       else ret (Some []))
      (fun e =>
         match e with
         | TileDBCloudError msg =>
             raise (http_error 500
                      ("Error listing notebooks in " +:+ category +:+ ": " +:+ msg))
         | TileDBError msg => raise (http_error 500 msg)
         | _ => raise e
         end);;
  let model := base_directory_model category in
  let model := Dict.set "path" (PStr ("cloud/" +:+ category)) model in
  if content then
    let model := Dict.set "format" (PStr "json") model in
    let model := Dict.set "content" (PList []) model in
    let empty := match arrays with
                 | None => true
                 | Some l => (length l =? 0)%nat
                 end in
    namespaces <-
      (if empty && String.eqb category "owned" then
         try_except
           (profile <- Cloud.client_user_profile;;
            let namespaces :=
              Dict.set (username profile)
                (namespace_node category (username profile) true) [] in
            ret (add_organizations category (organizations profile) namespaces))
           (fun e =>
              match e with
              | TileDBCloudError msg =>
                  raise (http_error 500
                           ("Error listing notebooks in " +:+ category +:+ ": " +:+ msg))
              | TileDBError msg => raise (http_error 500 msg)
              | _ => raise e
              end)
       else
         match arrays with
         | Some arrays => ret (add_record_namespaces category arrays [])
         | None => raise (TypeError "'NoneType' object is not iterable")
         end);;
    ret (Dict.set "content" (PList (map PDict (Dict.values namespaces))) model)
  else ret model.

(** One category of [__build_cloud_notebook_lists]. *)
Definition category_listing (category : string) (notebooks : option (list ArrayInfo))
  : list (string * pyval) :=
  let dir := base_directory_model category in
  let dir := Dict.set "path" (PStr ("cloud/" +:+ category)) dir in
  match notebooks with
  | Some (nb :: rest) =>
      let dir := Dict.set "format" (PStr "json") dir in
      Dict.set "content"
        (PList
           (map (fun notebook =>
                   let model := base_model (name notebook) in
                   let model := Dict.set "type" (PStr "notebook") model in
                   let model :=
                     Dict.set "last_modified" (PDate (last_accessed notebook)) model in
                   PDict (Dict.set "path"
                            (PStr ("cloud/" +:+ category +:+ "/" +:+ name notebook
                                     +:+ NOTEBOOK_EXT)) model))
                (nb :: rest)))
        dir
  | _ => dir
  end.

(** [TileDBCloudContentsManager.__build_cloud_notebook_lists] *)
Definition __build_cloud_notebook_lists : M (list pyval) :=
  try_except
    (owned_notebooks <- Cloud.client_list_arrays None;;
     shared_notebooks <- Cloud.client_list_shared_arrays None;;
     public_notebooks <- Cloud.client_list_public_arrays None;;
     ret [ PDict (category_listing "owned" owned_notebooks);
           PDict (category_listing "public" public_notebooks);
           PDict (category_listing "shared" shared_notebooks) ])
    (fun e =>
       match e with
       | TileDBCloudError msg =>
           raise (http_error 500 ("Error building cloud notebook info: " +:+ msg))
       | TileDBError msg => raise (http_error 500 msg)
       | _ => raise e
       end).

(** [TileDBCloudContentsManager.__category_from_path] *)
Definition __category_from_path (path : string) : option string :=
  let parts := PyStr.split os_sep path in
  let parts := if (length parts =? 0)%nat then PyStr.split "/" path else parts in
  match parts with
  | p0 :: p1 :: _ => if String.eqb p0 "cloud" then Some p1 else None
  | _ => None
  end.

(** [TileDBCloudContentsManager.__namespace_from_path] *)
Definition __namespace_from_path (path : string) : option string :=
  let parts := PyStr.split os_sep path in
  let parts := if (length parts =? 1)%nat then PyStr.split "/" path else parts in
  match parts with
  | p0 :: _ :: p2 :: _ => if String.eqb p0 "cloud" then Some p2 else None
  | _ => None
  end.

(** [TileDBCloudContentsManager.__directory_model_from_path] *)
Definition __directory_model_from_path (path : string) (content : bool)
  : M (list (string * pyval)) :=
  let model := base_directory_model path in
  if negb (_is_remote_path os_sep path) && negb (_is_remote_dir os_sep path) then
    lift (super_dir_model path content)
  else if String.eqb path "cloud" then
    let cloud := base_directory_model "cloud" in
    let cloud := Dict.set "format" (PStr "json") cloud in
    lists <- __build_cloud_notebook_lists;;
    ret (Dict.set "content" (PList lists) cloud)
  else
    let category := __category_from_path path in
    let ns := __namespace_from_path path in
    match ns, category with
    | None, Some category => __list_category category content
    | None, None =>
        raise (AttributeError "'NoneType' object has no attribute 'rsplit'")
    | Some ns, Some category => __list_namespace category ns content
    | Some _, None => ret model
    end.

(** [path_fixed = path.strip("/")], then ["."] for the empty path. *)
Definition fix_path (path : string) : string :=
  let path_fixed := PyStr.strip "/" path in
  if String.eqb path_fixed "" then "." else path_fixed.

(** [TileDBCloudContentsManager.get]; [None] is Python's [None]. *)
Definition get (path : string) (content : bool) (type format : pyval)
  : M (option (list (string * pyval))) :=
  let path_fixed := fix_path path in
  if negb (_is_remote_path os_sep path_fixed) then
    model <- lift (super_get path content type format);;
    enabled <-
      (if String.eqb path_fixed "." && content then get_cloud_enabled
       else ret false);;
    if enabled then
      let cloud := base_directory_model "cloud" in
      lists <- __build_cloud_notebook_lists;;
      let cloud := Dict.set "content" (PList lists) cloud in
      match Dict.get "content" model with
      | Some (PList l) =>
          ret (Some (Dict.set "content" (PList (l ++ [PDict cloud])) model))
      | Some _ => raise (AttributeError "object has no attribute 'append'")
      | None => raise (KeyError "content")
      end
    else ret (Some model)
  else
    let path_fixed := strip_notebook_ext path_fixed in
    type <-
      (if is_none type then
         if _is_remote_dir os_sep path_fixed then ret (PStr "directory")
         else guess_type path true
       else ret type);;
    if py_eq_str type "notebook" then
      model <- _notebook_from_array path_fixed content;; ret (Some model)
    else if py_eq_str type "file" then
      model <- _file_from_array path_fixed content format;; ret (Some model)
    else if py_eq_str type "directory" then
      model <- __directory_model_from_path path_fixed content;; ret (Some model)
    else ret None.

(** The dispatch on [model["type"]] inside the [try] of [save]. *)
Definition save_dispatch (fuel : nat) (_is_new : bool)
    (model : list (string * pyval)) (type : pyval) (path path_fixed : string)
  : M (list (string * pyval) * string * pyval) :=
  if py_eq_str type "notebook" then
    saved <- _save_notebook_tiledb fuel _is_new model path_fixed;;
    let '(final_name, validation_message, model) := saved in
    match final_name with
    | Some final_name =>
        let parts := PyStr.split "/" path in
        let parts_length := Z.of_nat (length parts) in
        parts <- lift (py_setitem parts (parts_length - 1) final_name);;
        ret (model, PyStr.join "/" parts, validation_message)
    | None => ret (model, path, validation_message)
    end
  else if py_eq_str type "file" then
    final_name <- _save_file_tiledb fuel _is_new model path_fixed;;
    ret (model, path,
         match final_name with Some n => PStr n | None => PNone end)
  else if _is_remote_path os_sep path_fixed then
    raise (http_error 400
             ("Trying to create unsupported type: " +:+ py_str type +:+ " in cloud"))
  else ret (model, path, PNone).

(** The tail of [save]: re-read the model and attach the message. *)
Definition save_finish (saved : list (string * pyval) * string * pyval)
  : M (option (list (string * pyval))) :=
  let '(model, path, validation_message) := saved in
  type <- lift (py_getitem (PDict model) "type");;
  got <- get path false type PNone;;
  match got with
  | Some model =>
      if is_none validation_message then ret (Some model)
      else ret (Some (Dict.set "message" validation_message model))
  | None =>
      if is_none validation_message then ret None
      else raise (TypeError "'NoneType' object does not support item assignment")
  end.

(** [TileDBCloudContentsManager.save] *)
Definition save (fuel : nat) (model : list (string * pyval)) (path : string)
  : M (option (list (string * pyval))) :=
  model <- lift (run_pre_save_hook model path);;
  let path_fixed := fix_path path in
  if negb (Dict.has "type" model) then
    raise (http_error 400 "No file type provided")
  else
    let type := dict_get_default "type" model in
    if negb (Dict.has "content" model) && negb (py_eq_str type "directory") then
      raise (http_error 400 "No file content provided")
    else if negb (py_eq_str type "directory" || py_eq_str type "file"
                    || py_eq_str type "notebook") then
      raise (http_error 400 ("Unhandled contents type: " +:+ py_str type))
    else if negb (_is_remote_path os_sep path_fixed) then
      saved <- lift (super_save model path);; ret (Some saved)
    else
      let path_fixed := strip_notebook_ext path_fixed in
      _is_new <- lift (newness_flag model);;
      saved <- save_dispatch fuel _is_new model type path path_fixed;;
      save_finish saved.

(** [TileDBCloudContentsManager.delete_file] *)
Definition delete_file (path : string) : M unit :=
  let path_fixed := PyStr.strip "/" path in
  if _is_remote_path os_sep path_fixed then
    let path_fixed := strip_notebook_ext path_fixed in
    tiledb_uri <- lift (tiledb_uri_from_path os_sep path_fixed);;
    try_except
      (Cloud.array_deregister_array tiledb_uri)
      (fun e =>
         match e with
         | TileDBCloudError msg =>
             raise (http_error 500 ("Error deregistering " +:+ tiledb_uri +:+ ": "))
         | TileDBError msg => raise (http_error 500 msg)
         | _ => raise e
         end)
  else lift (super_delete_file path).

(** [TileDBCloudContentsManager.rename_file] *)
Definition rename_file (old_path new_path : string) : M unit :=
  let old_path_fixed := PyStr.strip "/" old_path in
  if _is_remote_path os_sep old_path_fixed then
    let old_path_fixed := strip_notebook_ext old_path_fixed in
    tiledb_uri <- lift (tiledb_uri_from_path os_sep old_path_fixed);;
    let parts_new := PyStr.split "/" new_path in
    let parts_new_length := Z.of_nat (length parts_new) in
    array_name_new <- lift (py_index parts_new (parts_new_length - 1));;
    try_except
      (notebook_rename_notebook tiledb_uri array_name_new)
      (fun e =>
         match e with
         | TileDBCloudError msg =>
             raise (http_error 500 ("Error renaming " +:+ tiledb_uri +:+ ": "))
         | TileDBError msg => raise (http_error 500 msg)
         | _ => raise e
         end)
  else lift (super_rename old_path new_path).

(** [TileDBCloudContentsManager.is_hidden] *)
Definition is_hidden (path : string) : bool :=
  let path_fixed := PyStr.strip "/" path in
  if _is_remote_path os_sep path_fixed then false
  else super_is_hidden path.

(** [TileDBCloudContentsManager.file_exists] *)
Definition file_exists (path : string) : M bool :=
  let path_fixed := PyStr.strip "/" path in
  if _is_remote_path os_sep path_fixed then
    _array_exists (strip_notebook_ext path_fixed)
  else ret (super_file_exists path).

End Contents.


(** ** Predicates used by the statements *)

(** [c] does not occur in [s]. *)
Fixpoint free_of (c : ascii) (s : string) : bool :=
  match s with
  | EmptyString => true
  | String a s' => negb (Ascii.eqb a c) && free_of c s'
  end.

(** The backend address [tiledb://<namespace>/<name>]. *)
Definition array_uri (ns nm : string) : string :=
  "tiledb://" +:+ ns +:+ "/" +:+ nm.

(** The list [parts] that [tiledb_uri_from_path] indexes: the
    [os.sep]-separated parts of the path, or its ["/"]-separated parts
    when [os.sep] does not split it. *)
Definition uri_parts (os_sep : ascii) (path : string) : list string :=
  let parts := PyStr.split os_sep path in
  if (length parts =? 1)%nat then PyStr.split "/" path else parts.



(** [model["content"]] of a returned model. *)
Definition content_of (r : outcome (list (string * pyval))) : option pyval :=
  match r with
  | Ok model => Dict.get "content" model
  | _ => None
  end.

(** [node["name"]] of a listed node. *)
Definition name_of (v : pyval) : string :=
  match v with
  | PDict d =>
      match Dict.get "name" d with
      | Some (PStr s) => s
      | _ => EmptyString
      end
  | _ => EmptyString
  end.

(** The names of the nodes in [model["content"]]. *)
Definition node_names (r : outcome (list (string * pyval))) : list string :=
  match content_of r with
  | Some (PList l) => map name_of l
  | _ => []
  end.

(** [seen] followed by the first occurrences in [l] of the strings not
    in [seen]. *)
Fixpoint distinct (seen l : list string) : list string :=
  match l with
  | [] => seen
  | x :: l' =>
      distinct (if existsb (String.eqb x) seen then seen else seen ++ [x]) l'
  end.

(** The content on which [model['content']['metadata']] or the
    membership test on it raises: not a dict, a dict without
    [metadata], or a [metadata] that is neither dict, string nor list. *)
Definition content_unfit (model : list (string * pyval)) : bool :=
  match Dict.get "content" model with
  | Some (PDict d) =>
      match Dict.get "metadata" d with
      | Some (PDict _) | Some (PStr _) | Some (PList _) => false
      | _ => true
      end
  | _ => true
  end.

(** [if v is not None: meta[key] = v] *)
Definition merge_meta (key : string) (v : pyval) (m : gmap string pyval)
  : gmap string pyval :=
  if is_none v then m else <[key := v]> m.

(** The catalog listing that belongs to a category name. *)
Definition listing_of (category : string) (w : World)
  : option string -> reply (option (list ArrayInfo)) :=
  if String.eqb category "owned" then list_arrays w
  else if String.eqb category "shared" then list_shared_arrays w
  else if String.eqb category "public" then list_public_arrays w
  else fun _ => Reply (Some []).

(** The number of [tiledb.SparseArray.create] calls in a call log. *)
Definition is_create_call (c : call) : bool :=
  match c with
  | CallSparseArrayCreate _ => true
  | _ => false
  end.

Definition create_calls (cs : list call) : nat :=
  length (List.filter is_create_call cs).

(** ** Sample environments *)

Module Sample.

Definition reads (bs : list Byte.byte) (version : Z) : outcome pyval :=
  Ok (PDict [("nbformat", PInt version); ("source", PBytes bs)]).
Definition mark_trusted_cells (nb : pyval) (path : string) : pyval := nb.
Definition validate_notebook_model (model : list (string * pyval))
  : list (string * pyval) := model.
Definition from_dict (content : pyval) : pyval := content.
Definition check_and_sign (nb : pyval) (path : string) : outcome unit := Ok tt.
Definition json_dumps (content : pyval) : outcome (list Byte.byte) :=
  Ok [Byte.x7b; Byte.x7d].
Definition run_pre_save_hook (model : list (string * pyval)) (path : string)
  : outcome (list (string * pyval)) := Ok model.
Definition super_get (path : string) (content : bool) (type format : pyval)
  : outcome (list (string * pyval)) := Ok (base_model path).
Definition super_save (model : list (string * pyval)) (path : string)
  : outcome (list (string * pyval)) := Ok model.
Definition super_dir_model (path : string) (content : bool)
  : outcome (list (string * pyval)) := Ok (base_directory_model path).
Definition super_exists (path : string) : bool := false.

Definition s3_settings (prefix : string) : option NotebookSettings :=
  Some (mkNotebookSettings (Some prefix)).

(** A user [alice] who belongs to [orgA] and [orgB]. *)
Definition alice : UserProfile :=
  mkUserProfile "alice" [mkOrganization "orgA"; mkOrganization "orgB"]
    (s3_settings "s3://bucket/notebooks/") ["notebook_sharing"].

Definition no_records (ns : option string) : reply (option (list ArrayInfo)) :=
  Reply (Some []).

Definition org_profile (ns : string) : reply OrganizationProfile :=
  Reply (mkOrganizationProfile (s3_settings "s3://orgs/")).

(** An array of [alice] holding [bs], written once. *)
Definition stored (nm : string) (bs : list Byte.byte) (type : string) : BackendArray :=
  mkBackendArray (Tiledb.write_from 0 bs ∅)
    (<["type" := PStr type]> (<["file_size" := PInt (Z.of_nat (length bs))]> ∅))
    (mkArrayInfo nm "alice" 1000 ["read"; "write"] [TAG_JUPYTER_NOTEBOOK]).

(** The world of [alice] with the given arrays and empty listings. *)
Definition world (arrs : list (string * BackendArray)) : World :=
  mkWorld (list_to_map arrs) no_records no_records no_records (Reply alice)
          org_profile [] [].

Definition taken (nm : string) : string * BackendArray :=
  (array_uri "alice" nm, stored nm [Byte.x01] "file").

(** [foo.ipynb] exists. *)
Definition one_collision : World := world [taken "foo.ipynb"].

(** [foo.ipynb] and [foo-1.ipynb] exist. *)
Definition two_collisions : World := world [taken "foo.ipynb"; taken "foo-1.ipynb"].


(** One array [nb] of [alice], created but never written: no metadata. *)
Definition blank_notebook : World :=
  world [(array_uri "alice" "nb", Tiledb.new_array "alice" "nb")].

Definition record (ns nm : string) : ArrayInfo :=
  mkArrayInfo nm ns 1000 ["read"] [TAG_JUPYTER_NOTEBOOK].

(** The owned listing holds one record, in namespace [alice]; the shared
    listing holds records of [bob], [carol] and [bob] again. *)
Definition listed : World :=
  mkWorld ∅
    (fun _ => Reply (Some [record "alice" "nb1"]))
    (fun _ => Reply (Some [record "bob" "a"; record "carol" "b"; record "bob" "c"]))
    no_records (Reply alice) org_profile [] [].

(** [alice] has no arrays yet and every listing is empty. *)
Definition fresh_user : World := world [].

(** A file model whose content is a plain string. *)
Definition text_file : list (string * pyval) :=
  [("type", PStr "file"); ("content", PStr "hello")].

(** A file model whose content is a dict with a list under [metadata]. *)
Definition file_with_list_metadata : list (string * pyval) :=
  [("type", PStr "file"); ("content", PDict [("metadata", PList [])])].

(** The storage engine fails the next two create calls. *)
Definition flaky : World :=
  mkWorld ∅ no_records no_records no_records (Reply alice) org_profile
          ["connection reset"; "connection reset"] [].

(** [alice] has not configured a default s3 path. *)
Definition no_prefix : World :=
  mkWorld ∅ no_records no_records no_records
          (Reply (mkUserProfile "alice" [] None [])) org_profile [] [].

(** The catalog is unreachable: every listing call fails. *)
Definition outage : World :=
  mkWorld ∅ (fun _ => CloudFailure "unreachable") (fun _ => CloudFailure "unreachable")
          (fun _ => CloudFailure "unreachable") (Reply alice) org_profile [] [].

(** Every listing call answers [None]. *)
Definition none_listed : World :=
  mkWorld ∅ (fun _ => Reply None) (fun _ => Reply None) (fun _ => Reply None)
          (Reply alice) org_profile [] [].

(** One array [x] of [alice], holding the single byte [01]. *)
Definition one_file : World := world [taken "x"].

End Sample.

(** * Properties *)

#[local] Arguments String.append : simpl nomatch.

(** ** Strings and paths *)

Lemma split_nonempty sep s : PyStr.split sep s <> [].
Proof.
  destruct s as [|c s]; simpl; [discriminate|].
  destruct (PyStr.split sep s); [discriminate|].
  destruct (Ascii.eqb c sep); discriminate.
Qed.

Lemma split_single sep s :
  length (PyStr.split sep s) = 1%nat -> PyStr.split sep s = [s].
Proof.
  induction s as [|c s IH]; simpl; [reflexivity|].
  destruct (PyStr.split sep s) as [|hd tl] eqn:E.
  - exfalso. exact (split_nonempty sep s E).
  - destruct (Ascii.eqb c sep); simpl; intros H; [discriminate|].
    destruct tl; [|discriminate].
    specialize (IH eq_refl). injection IH as ->. reflexivity.
Qed.

Lemma py_index_lookup {A} (l : list A) (i : Z) (x : A) :
  0 <= i -> l !! Z.to_nat i = Some x -> py_index l i = Ok x.
Proof.
  intros Hi Hl. unfold py_index. cbv zeta.
  pose proof (lookup_lt_Some _ _ _ Hl) as Hlt.
  assert (E1 : (i <? 0) = false) by (apply Z.ltb_ge; lia).
  assert (E2 : (Z.of_nat (length l) <=? i) = false) by (apply Z.leb_gt; lia).
  rewrite E1. rewrite E1, E2. simpl. rewrite Hl. reflexivity.
Qed.

Lemma py_index_last2 {A} (pre : list A) (a b : A) :
  py_index (pre ++ [a; b]) (Z.of_nat (length (pre ++ [a; b])) - 2) = Ok a /\
  py_index (pre ++ [a; b]) (Z.of_nat (length (pre ++ [a; b])) - 1) = Ok b.
Proof.
  rewrite length_app. simpl length. split.
  - apply py_index_lookup; [lia|].
    replace (Z.to_nat (Z.of_nat (length pre + 2) - 2)) with (length pre + 0)%nat by lia.
    rewrite lookup_app_r by lia.
    replace (length pre + 0 - length pre)%nat with 0%nat by lia. reflexivity.
  - apply py_index_lookup; [lia|].
    replace (Z.to_nat (Z.of_nat (length pre + 2) - 1)) with (length pre + 1)%nat by lia.
    rewrite lookup_app_r by lia.
    replace (length pre + 1 - length pre)%nat with 1%nat by lia. reflexivity.
Qed.

(** The parts [tiledb_uri_from_path] indexes are the ["/"]-segments when
    [os.sep] is ["/"] or does not occur in the path. *)
Lemma tiledb_uri_from_segments (os_sep : ascii) (path : string)
    (pre : list string) (ns nm : string) :
  PyStr.split "/" path = (pre ++ [ns; nm])%list ->
  os_sep = "/"%char \/ length (PyStr.split os_sep path) = 1%nat ->
  tiledb_uri_from_path os_sep path = Ok (array_uri ns nm).
Proof.
  intros Hs Hsep. unfold tiledb_uri_from_path.
  assert (Hp : (if (length (PyStr.split os_sep path) =? 1)%nat
                then PyStr.split "/" path else PyStr.split os_sep path)
               = (pre ++ [ns; nm])%list).
  { destruct Hsep as [-> | H1].
    - rewrite Hs. destruct (_ =? _)%nat; reflexivity.
    - rewrite H1. simpl. exact Hs. }
  rewrite Hp.
  destruct (py_index_last2 pre ns nm) as [-> ->]. reflexivity.
Qed.

Lemma tiledb_uri_from_path_total os_sep path :
  exists uri, tiledb_uri_from_path os_sep path = Ok uri.
Proof.
  unfold tiledb_uri_from_path.
  set (parts := if (length (PyStr.split os_sep path) =? 1)%nat
                then PyStr.split "/" path else PyStr.split os_sep path).
  assert (Hne : parts <> []).
  { subst parts. destruct (_ =? _)%nat; apply split_nonempty. }
  destruct (exists_last Hne) as [pre [b ->]].
  destruct pre as [|a0 pre0] using rev_ind.
  - simpl. eexists. reflexivity.
  - clear IHpre0. rewrite <- app_assoc. simpl app.
    destruct (py_index_last2 pre0 a0 b) as [-> ->]. eexists. reflexivity.
Qed.

(** C5, as amended: a virtual path with fewer than two segments does not
    make [tiledb_uri_from_path] fail.  The single segment [p] is the
    whole list of parts, the index [len - 2 = -1] wraps around to it, and
    the result is [tiledb://p/p]. *)
Theorem tiledb_uri_single_segment (os_sep : ascii) (path : string) :
  (length (PyStr.split "/" path) < 2)%nat ->
  (length (PyStr.split os_sep path) < 2)%nat ->
  tiledb_uri_from_path os_sep path = Ok (array_uri path path).
Proof.
  intros H1 H2.
  assert (L1 : length (PyStr.split "/" path) = 1%nat).
  { pose proof (split_nonempty "/" path).
    destruct (PyStr.split "/" path) as [|? [|? ?]]; simpl in *; [congruence|lia|lia]. }
  assert (L2 : length (PyStr.split os_sep path) = 1%nat).
  { pose proof (split_nonempty os_sep path).
    destruct (PyStr.split os_sep path) as [|? [|? ?]]; simpl in *; [congruence|lia|lia]. }
  unfold tiledb_uri_from_path. rewrite L2. simpl.
  rewrite (split_single _ _ L1). reflexivity.
Qed.

Lemma tiledb_uri_single_segment_witness :
  tiledb_uri_from_path "/" "notebook" = Ok "tiledb://notebook/notebook".
Proof.
  apply (tiledb_uri_single_segment "/" "notebook"); vm_compute; lia.
Defined.

(** C5, as stated, fails: the one-segment path [foo] resolves to
    [tiledb://foo/foo] and no exception is raised. *)
Lemma tiledb_uri_single_segment_returns :
  (length (PyStr.split "/" "foo") < 2)%nat /\
  tiledb_uri_from_path "/" "foo" = Ok "tiledb://foo/foo" /\
  forall e, tiledb_uri_from_path "/" "foo" <> Raise e.
Proof.
  split; [vm_compute; lia|]. split; [reflexivity|].
  intros e. vm_compute. discriminate.
Qed.

Lemma tiledb_uri_from_parts (os_sep : ascii) (path : string)
    (pre : list string) (ns nm : string) :
  uri_parts os_sep path = (pre ++ [ns; nm])%list ->
  tiledb_uri_from_path os_sep path = Ok (array_uri ns nm).
Proof.
  unfold uri_parts, tiledb_uri_from_path. cbv zeta. intros ->.
  destruct (py_index_last2 pre ns nm) as [-> ->]. reflexivity.
Qed.

Lemma uri_parts_segments (os_sep : ascii) (path : string) :
  os_sep = "/"%char \/ length (PyStr.split os_sep path) = 1%nat ->
  uri_parts os_sep path = PyStr.split "/" path.
Proof.
  unfold uri_parts. cbv zeta. intros [-> | ->].
  - destruct (_ =? _)%nat; reflexivity.
  - reflexivity.
Qed.

(** C10, as amended: the URI is decided by the last two of the parts
    the code indexes, which are the [os.sep]-separated parts of the
    path, or its ["/"]-separated ones when [os.sep] does not occur in it.
    Two paths whose parts end with the same pair [(namespace, name)]
    resolve to the same URI [tiledb://<namespace>/<name>], whatever
    precedes the pair.  Where [os.sep] is ["/"], or occurs in neither
    path, the parts are the ["/"]-segments, and the claim holds as
    stated. *)
Theorem tiledb_uri_trailing_pair (os_sep : ascii) (p1 p2 : string)
    (pre1 pre2 : list string) (ns nm : string) :
  uri_parts os_sep p1 = (pre1 ++ [ns; nm])%list ->
  uri_parts os_sep p2 = (pre2 ++ [ns; nm])%list ->
  tiledb_uri_from_path os_sep p1 = Ok (array_uri ns nm) /\
  tiledb_uri_from_path os_sep p2 = Ok (array_uri ns nm) /\
  (os_sep = "/"%char \/
   (length (PyStr.split os_sep p1) = 1%nat /\ length (PyStr.split os_sep p2) = 1%nat) ->
   PyStr.split "/" p1 = (pre1 ++ [ns; nm])%list /\
   PyStr.split "/" p2 = (pre2 ++ [ns; nm])%list).
Proof.
  intros H1 H2.
  split; [exact (tiledb_uri_from_parts os_sep p1 pre1 ns nm H1)|].
  split; [exact (tiledb_uri_from_parts os_sep p2 pre2 ns nm H2)|].
  intros Hsep. split.
  - rewrite <- H1. symmetry. apply uri_parts_segments.
    destruct Hsep as [?|[? ?]]; auto.
  - rewrite <- H2. symmetry. apply uri_parts_segments.
    destruct Hsep as [?|[? ?]]; auto.
Qed.

Lemma tiledb_uri_trailing_pair_witness :
  tiledb_uri_from_path "/" "cloud/owned/alice/x" = Ok "tiledb://alice/x" /\
  tiledb_uri_from_path "/" "x/y/alice/x" = Ok "tiledb://alice/x".
Proof.
  destruct (tiledb_uri_trailing_pair "/" "cloud/owned/alice/x" "x/y/alice/x"
              ["cloud"; "owned"] ["x"; "y"] "alice" "x") as (H1 & H2 & _);
    [reflexivity | reflexivity | split; [exact H1 | exact H2]].
Defined.

(** C10, as stated, fails where [os.sep] is not ["/"] and occurs in a
    path: with the backslash as [os.sep], two paths with the same last
    two ["/"]-segments resolve to different URIs, because the parts are
    then cut at the backslash. *)
Lemma tiledb_uri_trailing_pair_cut_at_os_sep :
  PyStr.split "/" "a\alice/x" = ["a\alice"; "x"] /\
  PyStr.split "/" "z/a\alice/x" = ["z"; "a\alice"; "x"] /\
  tiledb_uri_from_path "\" "a\alice/x" = Ok "tiledb://a/alice/x" /\
  tiledb_uri_from_path "\" "z/a\alice/x" = Ok "tiledb://z/a/alice/x" /\
  tiledb_uri_from_path "\" "a\alice/x" <> tiledb_uri_from_path "\" "z/a\alice/x".
Proof.
  split; [reflexivity|]. split; [reflexivity|].
  split; [reflexivity|]. split; [reflexivity|].
  vm_compute. discriminate.
Qed.

(** ** Facts about the string primitives *)

Lemma append_assoc (a b c : string) : (a +:+ b) +:+ c = a +:+ (b +:+ c).
Proof. induction a as [|x a IH]; simpl; [reflexivity|]. f_equal. exact IH. Qed.

Lemma free_of_app c (a b : string) :
  free_of c (a +:+ b) = free_of c a && free_of c b.
Proof.
  induction a as [|x a IH]; simpl; [reflexivity|].
  rewrite IH. now rewrite andb_assoc.
Qed.

Lemma split_free sep s : free_of sep s = true -> PyStr.split sep s = [s].
Proof.
  induction s as [|c s IH]; simpl; [reflexivity|].
  intros H. apply andb_prop in H as [Hc Hs].
  rewrite (IH Hs). destruct (Ascii.eqb c sep); [discriminate|reflexivity].
Qed.

Lemma split_app_sep sep (a b : string) :
  free_of sep a = true ->
  PyStr.split sep (a +:+ String sep b) = a :: PyStr.split sep b.
Proof.
  induction a as [|c a IH]; simpl.
  - intros _. destruct (PyStr.split sep b) as [|hd tl] eqn:E.
    + exfalso. exact (split_nonempty sep b E).
    + now rewrite Ascii.eqb_refl.
  - intros H. apply andb_prop in H as [Hc Ha].
    rewrite (IH Ha). destruct (Ascii.eqb c sep); [discriminate|reflexivity].
Qed.

Lemma split_app_last sep (a b : string) :
  free_of sep b = true ->
  PyStr.split sep (a +:+ String sep b) = (PyStr.split sep a ++ [b])%list.
Proof.
  intros Hb. induction a as [|c a IH]; simpl.
  - rewrite (split_free _ _ Hb). now rewrite Ascii.eqb_refl.
  - rewrite IH. destruct (PyStr.split sep a) as [|hd tl] eqn:E.
    + exfalso. exact (split_nonempty sep a E).
    + simpl. destruct (Ascii.eqb c sep); reflexivity.
Qed.

Lemma join_cons sep (p : string) (rest : list string) :
  rest <> [] -> PyStr.join sep (p :: rest) = p +:+ sep +:+ PyStr.join sep rest.
Proof. destruct rest; [congruence|reflexivity]. Qed.

Lemma join_split sep s :
  PyStr.join (String sep EmptyString) (PyStr.split sep s) = s.
Proof.
  induction s as [|c s IH]; [reflexivity|].
  simpl PyStr.split.
  destruct (PyStr.split sep s) as [|hd tl] eqn:E.
  - exfalso. exact (split_nonempty sep s E).
  - destruct (Ascii.eqb_spec c sep) as [->|Hne].
    + rewrite join_cons by discriminate. rewrite IH. reflexivity.
    + destruct tl as [|t tl].
      * simpl in *. now rewrite IH.
      * rewrite join_cons by discriminate.
        rewrite join_cons in IH by discriminate.
        simpl. f_equal. exact IH.
Qed.





Lemma rpartition_ipynb s :
  PyStr.rpartition "." (s +:+ ".ipynb") = (s, ".", "ipynb").
Proof.
  induction s as [|c s IH]; [reflexivity|].
  simpl. rewrite IH. reflexivity.
Qed.

(** ** Decimal numerals *)

Lemma is_digit_neq (x c : ascii) :
  PyStr.is_digit x = true -> PyStr.is_digit c = false -> Ascii.eqb x c = false.
Proof.
  intros Hx Hc. destruct (Ascii.eqb_spec x c) as [->|]; [congruence|reflexivity].
Qed.

Lemma all_digits_uint d : PyStr.all_digits (NilEmpty.string_of_uint d) = true.
Proof. induction d; simpl; auto. Qed.

Lemma free_of_uint c d :
  PyStr.is_digit c = false -> free_of c (NilEmpty.string_of_uint d) = true.
Proof.
  intros Hc.
  induction d; cbn [free_of NilEmpty.string_of_uint]; [reflexivity|..];
    (rewrite IHd, is_digit_neq; [reflexivity | reflexivity | exact Hc]).
Qed.

Lemma to_uint_nonnil (n : N) : N.to_uint n <> Decimal.Nil.
Proof.
  destruct n; simpl; [discriminate|].
  apply DecimalPos.Unsigned.to_uint_nonnil.
Qed.

Lemma of_N_digits (n : N) : PyStr.of_N n = NilEmpty.string_of_uint (N.to_uint n).
Proof.
  unfold PyStr.of_N, NilZero.string_of_uint.
  pose proof (to_uint_nonnil n).
  destruct (N.to_uint n); [congruence|reflexivity..].
Qed.

Lemma isdigit_of_N (n : N) : PyStr.isdigit (PyStr.of_N n) = true.
Proof.
  rewrite of_N_digits. unfold PyStr.isdigit.
  pose proof (to_uint_nonnil n) as Hn.
  pose proof (all_digits_uint (N.to_uint n)) as Hd.
  destruct (N.to_uint n); [congruence|exact Hd..].
Qed.

Lemma int_of_N (n : N) : PyStr.int (PyStr.of_N n) = n.
Proof.
  rewrite of_N_digits. unfold PyStr.int.
  rewrite NilEmpty.usu. apply DecimalN.Unsigned.of_to.
Qed.

Lemma free_of_of_N c (n : N) :
  PyStr.is_digit c = false -> free_of c (PyStr.of_N n) = true.
Proof. intros Hc. rewrite of_N_digits. now apply free_of_uint. Qed.

(** ** [_increment_filename] *)

Lemma increment_fresh (base : string) :
  free_of "-" base = true ->
  _increment_filename (base +:+ ".ipynb") "-" = base +:+ "-1.ipynb".
Proof.
  intros Hb. unfold _increment_filename.
  rewrite rpartition_ipynb.
  change (negb (String.eqb "ipynb" "ipynb")) with false. cbv beta iota zeta.
  rewrite (split_free _ _ Hb). reflexivity.
Qed.

Lemma increment_numbered (base : string) (n : N) :
  _increment_filename (base +:+ "-" +:+ PyStr.of_N n +:+ ".ipynb") "-"
  = base +:+ "-" +:+ PyStr.of_N (n + 1) +:+ ".ipynb".
Proof.
  unfold _increment_filename.
  replace (base +:+ "-" +:+ PyStr.of_N n +:+ ".ipynb")
    with ((base +:+ String "-" (PyStr.of_N n)) +:+ ".ipynb")
    by (rewrite append_assoc; reflexivity).
  rewrite rpartition_ipynb.
  change (negb (String.eqb "ipynb" "ipynb")) with false. cbv beta iota zeta.
  rewrite split_app_last by (apply free_of_of_N; reflexivity).
  pose proof (split_nonempty "-" base) as Hne.
  rewrite length_app. cbn [length].
  replace (1 <? length (PyStr.split "-" base) + 1)%nat with true.
  2:{ symmetry. apply Nat.ltb_lt.
      destruct (PyStr.split "-" base); [congruence|simpl; lia]. }
  rewrite last_last, isdigit_of_N, int_of_N.
  replace (length (PyStr.split "-" base) + 1 - 1)%nat
    with (length (PyStr.split "-" base)) by lia.
  rewrite take_app_length, join_split.
  replace (negb (n + 1 =? 0)%N) with true
    by (symmetry; apply negb_true_iff, N.eqb_neq; lia).
  rewrite !append_assoc. reflexivity.
Qed.

(** A basename that already contains ["-"] loses its last dash-part when
    that part is not a number. *)
Lemma increment_replaces_last_dash_part :
  _increment_filename "run-2-old.ipynb" "-" = "run-2-1.ipynb" /\
  _increment_filename "my-notes.ipynb" "-" = "my-1.ipynb".
Proof. split; reflexivity. Qed.





(** ** Creating an array *)

Lemma prefix_refl (s : string) : String.prefix s s = true.
Proof.
  induction s as [|a s IH]; [reflexivity|].
  simpl. destruct (ascii_dec a a); [exact IH|congruence].
Qed.

Lemma contains_suffix (a needle : string) :
  PyStr.contains needle (a +:+ needle) = true.
Proof.
  induction a as [|x a IH].
  - change ("" +:+ needle) with needle.
    destruct needle; simpl; [reflexivity|].
    destruct (ascii_dec a a); [|congruence]. now rewrite prefix_refl.
  - change (String x a +:+ needle) with (String x (a +:+ needle)).
    cbn [PyStr.contains]. rewrite IH. apply orb_true_r.
Qed.

Lemma split_array_uri (ns nm : string) :
  free_of "/" ns = true -> free_of "/" nm = true ->
  PyStr.split "/" (array_uri ns nm) = ["tiledb:"; ""; ns; nm].
Proof.
  intros Hns Hnm. unfold array_uri.
  change ("tiledb://" +:+ ns +:+ "/" +:+ nm)
    with ("tiledb:" +:+ String "/" ("" +:+ String "/" (ns +:+ String "/" nm))).
  rewrite split_app_sep by reflexivity.
  rewrite split_app_sep by reflexivity.
  rewrite split_app_sep by assumption.
  now rewrite split_free by assumption.
Qed.

Lemma split_s3_uri (ns pre nm : string) :
  free_of "/" ns = true -> free_of "/" nm = true ->
  PyStr.split "/" ("tiledb://" +:+ ns +:+ "/" +:+ ((pre +:+ "/") +:+ nm))
  = ("tiledb:" :: "" :: ns :: PyStr.split "/" pre ++ [nm])%list.
Proof.
  intros Hns Hnm.
  change ("tiledb://" +:+ ns +:+ "/" +:+ ((pre +:+ "/") +:+ nm))
    with ("tiledb:" +:+ String "/"
            ("" +:+ String "/" (ns +:+ String "/" ((pre +:+ "/") +:+ nm)))).
  rewrite split_app_sep by reflexivity.
  rewrite split_app_sep by reflexivity.
  rewrite split_app_sep by assumption.
  rewrite append_assoc. change ("/" +:+ nm) with (String "/" nm).
  now rewrite split_app_last by assumption.
Qed.

Lemma get_s3_prefix_user (ns pfx : string) (w : World) (p : UserProfile) :
  user_profile w = Reply p -> username p = ns ->
  s3_path_of (notebook_settings p) = Some pfx ->
  get_s3_prefix ns w = (Ok (Some pfx), log_call CallUserProfile w).
Proof.
  intros Hp Hu Hs. unfold get_s3_prefix, try_except, bind.
  unfold Cloud.client_user_profile, ask_reply. rewrite Hp.
  rewrite Hu, String.eqb_refl. unfold ret. now rewrite Hs.
Qed.

Lemma sparse_create_spec (ns pre nm : string) (w : World) :
  free_of "/" ns = true -> free_of "/" nm = true -> create_faults w = [] ->
  Tiledb.SparseArray_create ("tiledb://" +:+ ns +:+ "/" +:+ ((pre +:+ "/") +:+ nm)) w
  = let w1 := log_call (CallSparseArrayCreate
                          ("tiledb://" +:+ ns +:+ "/" +:+ ((pre +:+ "/") +:+ nm))) w in
    match arrays w !! array_uri ns nm with
    | Some _ =>
        (Raise (TileDBError ("Array " +:+ array_uri ns nm +:+ " already exists")), w1)
    | None => (Ok tt, set_arrays (insert (array_uri ns nm) (Tiledb.new_array ns nm)) w1)
    end.
Proof.
  intros Hns Hnm Hf. unfold Tiledb.SparseArray_create.
  cbn [create_faults log_call]. rewrite Hf.
  rewrite split_s3_uri by assumption.
  cbn [nth].
  change ("tiledb:" :: "" :: ns :: PyStr.split "/" pre ++ [nm])%list
    with ((["tiledb:"; ""; ns] ++ PyStr.split "/" pre) ++ [nm])%list.
  rewrite last_last. cbn [arrays log_call]. reflexivity.
Qed.

Lemma create_collides (fuel : nat) (ns nm pre : string) (retry : Z) (w : World)
    (p : UserProfile) :
  free_of "/" ns = true -> free_of "/" nm = true ->
  user_profile w = Reply p -> username p = ns ->
  s3_path_of (notebook_settings p) = Some (pre +:+ "/") ->
  create_faults w = [] ->
  is_Some (arrays w !! array_uri ns nm) ->
  _create_array (S fuel) (array_uri ns nm) retry w
  = _create_array fuel (array_uri ns (_increment_filename nm "-")) retry
      (log_call (CallSparseArrayCreate (array_uri ns ((pre +:+ "/") +:+ nm)))
         (log_call CallUserProfile w)).
Proof.
  intros Hns Hnm Hp Hu Hs Hf [a Ha].
  cbn [_create_array]. unfold try_except at 1.
  rewrite split_array_uri by assumption.
  cbn [length].
  unfold bind at 1. unfold lift at 1.
  change (py_index ["tiledb:"; ""; ns; nm] (Z.of_nat 4 - 2)) with (Ok ns).
  cbv beta iota.
  unfold bind at 1. unfold lift at 1.
  change (py_index ["tiledb:"; ""; ns; nm] (Z.of_nat 4 - 1)) with (Ok nm).
  cbv beta iota.
  unfold bind at 1. rewrite (get_s3_prefix_user ns _ w p Hp Hu Hs).
  cbv beta iota.
  unfold bind at 1.
  rewrite sparse_create_spec by assumption.
  cbv zeta. cbn [arrays log_call]. rewrite Ha.
  cbv beta iota. cbn [is_TileDBError exn_str].
  replace ("Array " +:+ array_uri ns nm +:+ " already exists")
    with (("Array " +:+ array_uri ns nm +:+ " ") +:+ "already exists")
    by (now rewrite !append_assoc).
  rewrite contains_suffix.
  unfold bind at 1. unfold lift at 1. cbv beta iota.
  unfold bind at 1. unfold lift at 1.
  change (py_setitem ["tiledb:"; ""; ns; nm] (Z.of_nat 4 - 1)
               (_increment_filename nm "-")) with (Ok ["tiledb:"; ""; ns; _increment_filename nm "-"]).
  cbv beta iota.
  reflexivity.
Qed.

Lemma create_succeeds (fuel : nat) (ns nm pre : string) (retry : Z) (w : World)
    (p : UserProfile) :
  free_of "/" ns = true -> free_of "/" nm = true ->
  user_profile w = Reply p -> username p = ns ->
  s3_path_of (notebook_settings p) = Some (pre +:+ "/") ->
  create_faults w = [] ->
  arrays w !! array_uri ns nm = None ->
  _create_array (S fuel) (array_uri ns nm) retry w
  = (Ok (Some (array_uri ns nm, nm)),
     set_arrays
       (insert (array_uri ns nm)
          (mkBackendArray ∅ ∅ (mkArrayInfo nm ns 0 ["read"; "write"] [TAG_JUPYTER_NOTEBOOK])))
       (log_call (CallUpdateInfo (array_uri ns nm) nm)
          (set_arrays (insert (array_uri ns nm) (Tiledb.new_array ns nm))
             (log_call (CallSparseArrayCreate (array_uri ns ((pre +:+ "/") +:+ nm)))
                (log_call CallUserProfile w))))).
Proof.
  intros Hns Hnm Hp Hu Hs Hf Ha.
  cbn [_create_array]. unfold try_except at 1.
  rewrite split_array_uri by assumption.
  cbn [length].
  unfold bind at 1. unfold lift at 1.
  change (py_index ["tiledb:"; ""; ns; nm] (Z.of_nat 4 - 2)) with (Ok ns).
  cbv beta iota.
  unfold bind at 1. unfold lift at 1.
  change (py_index ["tiledb:"; ""; ns; nm] (Z.of_nat 4 - 1)) with (Ok nm).
  cbv beta iota.
  unfold bind at 1. rewrite (get_s3_prefix_user ns _ w p Hp Hu Hs).
  cbv beta iota.
  unfold bind at 1.
  rewrite sparse_create_spec by assumption.
  cbv zeta. cbn [arrays log_call]. rewrite Ha.
  cbv beta iota.
  unfold bind at 1. unfold Cloud.array_update_info.
  cbn [arrays log_call set_arrays].
  fold (array_uri ns nm). rewrite lookup_insert_eq.
  cbv beta iota. unfold ret. cbn [Tiledb.new_array cells meta info namespace last_accessed allowed_actions].
  reflexivity.
Qed.

(** A storage error that is not a collision is what the budget pays for. *)
Lemma create_fault_spends_budget (fuel : nat) (ns nm pre msg : string)
    (rest : list string) (retry : Z) (w : World) (p : UserProfile) :
  free_of "/" ns = true -> free_of "/" nm = true ->
  user_profile w = Reply p -> username p = ns ->
  s3_path_of (notebook_settings p) = Some (pre +:+ "/") ->
  create_faults w = msg :: rest ->
  PyStr.contains "already exists" msg = false ->
  _create_array (S fuel) (array_uri ns nm) retry w
  = let w1 :=
      set_create_faults rest
        (log_call (CallSparseArrayCreate (array_uri ns ((pre +:+ "/") +:+ nm)))
           (log_call CallUserProfile w)) in
    if retry =? 0 then (Ok None, w1)
    else _create_array fuel (array_uri ns nm) (retry - 1) w1.
Proof.
  intros Hns Hnm Hp Hu Hs Hf Hmsg.
  cbn [_create_array]. unfold try_except at 1.
  rewrite split_array_uri by assumption.
  cbn [length].
  unfold bind at 1. unfold lift at 1.
  change (py_index ["tiledb:"; ""; ns; nm] (Z.of_nat 4 - 2)) with (Ok ns).
  cbv beta iota.
  unfold bind at 1. unfold lift at 1.
  change (py_index ["tiledb:"; ""; ns; nm] (Z.of_nat 4 - 1)) with (Ok nm).
  cbv beta iota.
  unfold bind at 1. rewrite (get_s3_prefix_user ns _ w p Hp Hu Hs).
  cbv beta iota.
  unfold bind at 1. unfold Tiledb.SparseArray_create.
  cbn [create_faults log_call]. rewrite Hf.
  cbv beta iota zeta. cbn [is_TileDBError exn_str]. rewrite Hmsg.
  destruct (retry =? 0); reflexivity.
Qed.








Lemma free_of_ipynb (base : string) :
  free_of "/" base = true -> free_of "/" (base +:+ ".ipynb") = true.
Proof. intros H. now rewrite free_of_app, H. Qed.

(** C9: the name derived on a collision carries a numeric suffix joined
    with ["-"] before the extension, and an existing numeric suffix is
    incremented: [base.ipynb] gives [base-1.ipynb], [base-n.ipynb] gives
    [base-(n+1).ipynb].  With [base.ipynb] taken, a create request for it
    yields [base-1.ipynb]; with [base-1.ipynb] taken as well, it yields
    [base-2.ipynb] (the claim's [foo] is one such [base]). *)
Theorem increment_inserts_numeric_suffix (base ns pre : string) (retry : Z)
    (w : World) (p : UserProfile) :
  free_of "-" base = true -> free_of "/" base = true -> free_of "/" ns = true ->
  user_profile w = Reply p -> username p = ns ->
  s3_path_of (notebook_settings p) = Some (pre +:+ "/") ->
  create_faults w = [] ->
  is_Some (arrays w !! array_uri ns (base +:+ ".ipynb")) ->
  _increment_filename (base +:+ ".ipynb") "-" = base +:+ "-1.ipynb" /\
  _increment_filename (base +:+ "-1.ipynb") "-" = base +:+ "-2.ipynb" /\
  (forall n : N,
      _increment_filename (base +:+ "-" +:+ PyStr.of_N n +:+ ".ipynb") "-"
      = base +:+ "-" +:+ PyStr.of_N (n + 1) +:+ ".ipynb") /\
  (arrays w !! array_uri ns (base +:+ "-1.ipynb") = None ->
   fst (_create_array 2 (array_uri ns (base +:+ ".ipynb")) retry w)
   = Ok (Some (array_uri ns (base +:+ "-1.ipynb"), base +:+ "-1.ipynb"))) /\
  (is_Some (arrays w !! array_uri ns (base +:+ "-1.ipynb")) ->
   arrays w !! array_uri ns (base +:+ "-2.ipynb") = None ->
   fst (_create_array 3 (array_uri ns (base +:+ ".ipynb")) retry w)
   = Ok (Some (array_uri ns (base +:+ "-2.ipynb"), base +:+ "-2.ipynb"))).
Proof.
  intros Hdash Hb Hns Hp Hu Hs Hf Htaken.
  pose proof (increment_fresh base Hdash) as Hinc1.
  pose proof (increment_numbered base 1) as Hinc2.
  change (base +:+ "-" +:+ PyStr.of_N 1 +:+ ".ipynb")
    with (base +:+ "-1.ipynb") in Hinc2.
  change (base +:+ "-" +:+ PyStr.of_N (1 + 1) +:+ ".ipynb")
    with (base +:+ "-2.ipynb") in Hinc2.
  assert (Hf0 : free_of "/" (base +:+ ".ipynb") = true) by now apply free_of_ipynb.
  assert (Hf1 : free_of "/" (base +:+ "-1.ipynb") = true)
    by now rewrite free_of_app, Hb.
  assert (Hf2 : free_of "/" (base +:+ "-2.ipynb") = true)
    by now rewrite free_of_app, Hb.
  repeat split.
  - exact Hinc1.
  - exact Hinc2.
  - intros n. apply increment_numbered.
  - intros Hfree.
    rewrite (create_collides 1 ns _ pre retry w p) by assumption.
    rewrite Hinc1.
    now rewrite (create_succeeds 0 ns _ pre retry _ p) by assumption.
  - intros Htaken1 Hfree.
    rewrite (create_collides 2 ns _ pre retry w p) by assumption.
    rewrite Hinc1.
    rewrite (create_collides 1 ns _ pre retry _ p) by assumption.
    rewrite Hinc2.
    now rewrite (create_succeeds 0 ns _ pre retry _ p) by assumption.
Qed.

Lemma increment_inserts_numeric_suffix_witness :
  _increment_filename "foo.ipynb" "-" = "foo-1.ipynb" /\
  _increment_filename "foo-1.ipynb" "-" = "foo-2.ipynb" /\
  fst (_create_array 3 "tiledb://alice/foo.ipynb" 5 Sample.two_collisions)
  = Ok (Some ("tiledb://alice/foo-2.ipynb", "foo-2.ipynb")).
Proof.
  destruct (increment_inserts_numeric_suffix "foo" "alice" "s3://bucket/notebooks" 5
              Sample.two_collisions Sample.alice) as (H1 & H2 & _ & _ & H5);
    try reflexivity.
  - vm_compute. eexists. reflexivity.
  - split; [exact H1 | split; [exact H2 |]].
    apply H5; [vm_compute; eexists; reflexivity | vm_compute; reflexivity].
Defined.

(** ** Writing and reading the cells *)

Lemma write_from_lookup_lt (bs : list Byte.byte) (q p : N) (c : gmap N Byte.byte) :
  (p < q)%N -> Tiledb.write_from q bs c !! p = c !! p.
Proof.
  revert q c. induction bs as [|b bs IH]; intros q c Hlt; [reflexivity|].
  simpl. rewrite IH by lia. apply lookup_insert_ne. lia.
Qed.

Lemma read_write_from (bs : list Byte.byte) (pos : N) (c : gmap N Byte.byte) :
  Tiledb.read_from pos (length bs) (Tiledb.write_from pos bs c) = bs.
Proof.
  revert pos c. induction bs as [|b bs IH]; intros pos c; [reflexivity|].
  simpl. rewrite write_from_lookup_lt by lia.
  rewrite lookup_insert_eq. f_equal. apply IH.
Qed.

Lemma read_range_write (bs : list Byte.byte) (c : gmap N Byte.byte) :
  Tiledb.read_range 0 (Z.of_nat (length bs)) (Tiledb.write_from 0 bs c) = bs.
Proof.
  unfold Tiledb.read_range.
  replace (Z.to_nat (Z.of_nat (length bs) - 0)) with (length bs) by lia.
  apply read_write_from.
Qed.

Lemma dict_get_set_eq {V} (k : string) (v : V) (d : list (string * V)) :
  Dict.get k (Dict.set k v d) = Some v.
Proof.
  induction d as [|[k' v'] d IH]; simpl.
  - now rewrite String.eqb_refl.
  - destruct (String.eqb k' k) eqn:E; simpl.
    + now rewrite String.eqb_refl.
    + now rewrite E.
Qed.

Lemma dict_get_set_ne {V} (k k' : string) (v : V) (d : list (string * V)) :
  String.eqb k' k = false -> Dict.get k (Dict.set k' v d) = Dict.get k d.
Proof.
  intros Hne. induction d as [|[k0 v0] d IH]; simpl.
  - now rewrite Hne.
  - destruct (String.eqb k0 k') eqn:E; simpl.
    + apply String.eqb_eq in E as ->. now rewrite Hne.
    + now rewrite IH.
Qed.

Lemma set_meta_spec (uri key : string) (v : pyval) (w : World) (a : BackendArray) :
  arrays w !! uri = Some a ->
  Tiledb.set_meta uri key v w
  = (Ok tt,
     set_arrays (insert uri (mkBackendArray (cells a) (<[key := v]> (meta a)) (info a)))
       (log_call (CallSetMeta uri key) w)).
Proof.
  intros Ha. unfold Tiledb.set_meta. cbn [arrays log_call]. now rewrite Ha.
Qed.

(** What an array looks like after [A.meta[key] = v] was or was not run. *)
Lemma set_meta_if_given_spec (uri key : string) (v : pyval) (w : World)
    (a : BackendArray) :
  arrays w !! uri = Some a ->
  exists w' a',
    set_meta_if_given uri key v w = (Ok tt, w') /\
    arrays w' !! uri = Some a' /\
    cells a' = cells a /\ info a' = info a /\
    (forall k, k <> key -> meta a' !! k = meta a !! k) /\
    meta a' !! key = (if is_none v then meta a !! key else Some v).
Proof.
  intros Ha. unfold set_meta_if_given. destruct (is_none v) eqn:Ev.
  - exists w, a. repeat split; auto.
  - rewrite (set_meta_spec _ _ _ _ _ Ha). eexists _, _.
    split; [reflexivity|]. cbn [arrays set_arrays log_call].
    rewrite lookup_insert_eq. split; [reflexivity|]. cbn [cells info meta].
    repeat split.
    + intros k Hk. now rewrite lookup_insert_ne by congruence.
    + apply lookup_insert_eq.
Qed.

Lemma write_existing_spec (os_sep : ascii) (fuel : nat) (path : string)
    (B : list Byte.byte) (mimetype format type : pyval) (w : World)
    (uri : string) (a : BackendArray) :
  tiledb_uri_from_path os_sep path = Ok uri ->
  arrays w !! uri = Some a ->
  exists w' a',
    _write_bytes_to_array os_sep fuel false path (PBytes B) mimetype format type w
    = (Ok None, w') /\
    arrays w' !! uri = Some a' /\
    cells a' = Tiledb.write_from 0 B (cells a) /\
    info a' = info a /\
    meta a' !! "file_size" = Some (PInt (Z.of_nat (length B))) /\
    meta a' !! "mimetype" = (if is_none mimetype then meta a !! "mimetype" else Some mimetype) /\
    meta a' !! "format" = (if is_none format then meta a !! "format" else Some format) /\
    meta a' !! "type" = (if is_none type then meta a !! "type" else Some type).
Proof.
  intros Huri Ha. unfold _write_bytes_to_array.
  unfold bind at 1. unfold lift at 1. rewrite Huri.
  unfold bind at 1. unfold ret at 1. cbn [fst snd].
  unfold bind at 1. unfold Tiledb.open. cbn [arrays log_call]. rewrite Ha.
  unfold bind at 1. unfold lift at 1. cbn [py_len].
  unfold bind at 1. unfold Tiledb.write_cells. cbn [arrays log_call]. rewrite Ha.
  set (w1 := set_arrays _ _).
  assert (H1 : arrays w1 !! uri = Some (mkBackendArray (Tiledb.write_from 0 B (cells a)) (meta a) (info a))).
  { subst w1. cbn [arrays set_arrays log_call]. apply lookup_insert_eq. }
  unfold bind at 1. rewrite (set_meta_spec _ _ _ _ _ H1).
  set (w2 := set_arrays _ _).
  assert (H2 : arrays w2 !! uri = Some (mkBackendArray (Tiledb.write_from 0 B (cells a)) (<["file_size" := PInt (Z.of_nat (length B))]> (meta a)) (info a))).
  { subst w2. cbn [arrays set_arrays log_call]. apply lookup_insert_eq. }
  destruct (set_meta_if_given_spec uri "mimetype" mimetype w2 _ H2)
    as (w3 & a3 & E3 & H3 & C3 & I3 & M3 & K3).
  destruct (set_meta_if_given_spec uri "format" format w3 _ H3)
    as (w4 & a4 & E4 & H4 & C4 & I4 & M4 & K4).
  destruct (set_meta_if_given_spec uri "type" type w4 _ H4)
    as (w5 & a5 & E5 & H5 & C5 & I5 & M5 & K5).
  unfold bind at 1. rewrite E3.
  unfold bind at 1. rewrite E4.
  unfold bind at 1. rewrite E5.
  exists w5, a5. split; [reflexivity|]. split; [exact H5|].
  cbn [cells meta info] in *.
  split; [congruence|]. split; [congruence|].
  split. { rewrite M5, M4, M3 by discriminate. apply lookup_insert_eq. }
  split. { rewrite M5, M4, K3 by discriminate. now rewrite lookup_insert_ne by discriminate. }
  split. { rewrite M5, K4 by discriminate. rewrite M3 by discriminate. now rewrite lookup_insert_ne by discriminate. }
  rewrite K5, M4, M3 by discriminate. now rewrite lookup_insert_ne by discriminate.
Qed.

Lemma file_from_array_bytes (os_sep : ascii)
    (reads : list Byte.byte -> Z -> outcome pyval)
    (mark_trusted_cells : pyval -> string -> pyval)
    (validate_notebook_model : list (string * pyval) -> list (string * pyval))
    (path : string) (format : pyval) (w : World) (uri : string)
    (a : BackendArray) (n : Z) :
  tiledb_uri_from_path os_sep path = Ok uri ->
  arrays w !! uri = Some a ->
  meta a !! "file_size" = Some (PInt n) ->
  exists w',
    (match meta a !! "type" with
     | Some ty => py_eq_str ty "notebook" = false
     | None => True
     end ->
     exists model,
       _file_from_array os_sep reads mark_trusted_cells validate_notebook_model
         path true format w = (Ok model, w') /\
       Dict.get "content" model = Some (PBytes (Tiledb.read_range 0 n (cells a)))) /\
    (forall ty nb,
        meta a !! "type" = Some ty -> py_eq_str ty "notebook" = true ->
        reads (Tiledb.read_range 0 n (cells a)) NBFORMAT_VERSION = Ok nb ->
        exists model,
          _file_from_array os_sep reads mark_trusted_cells validate_notebook_model
            path true format w = (Ok (validate_notebook_model model), w') /\
          Dict.get "content" model = Some (mark_trusted_cells nb path)).
Proof.
  intros Huri Ha Hsize.
  exists (log_call (CallOpen uri false) (log_call (CallArrayInfo uri) w)).
  unfold _file_from_array, try_except, bind, lift, ret, Cloud.array_info,
    ask_reply, Tiledb.open.
  rewrite Huri. cbv beta iota zeta. rewrite Ha. cbv beta iota zeta.
  cbn [arrays log_call]. rewrite Ha. cbv beta iota zeta.
  rewrite Hsize. cbn [Tiledb.read_contents]. cbv beta iota zeta. cbn [fst snd].
  split.
  - intros Hty. destruct (meta a !! "type") as [ty|].
    + rewrite Hty. eexists. split; [reflexivity|]. apply dict_get_set_eq.
    + eexists. split; [reflexivity|]. apply dict_get_set_eq.
  - intros ty nb Hty Hnb Hreads. rewrite Hty, Hnb, Hreads.
    eexists. split; [reflexivity|]. apply dict_get_set_eq.
Qed.

(** C8, as amended: for every byte sequence [B] and every path resolving
    to an existing array, a write that is not flagged as a first save
    ([_is_new] false) succeeds on that array; afterwards [file_size] is
    [len(B)], the slice [[0, file_size)] yields exactly [B], and
    [_file_from_array] on the same path returns [B] as content, or the
    notebook decoded from [B] when the type metadata is [notebook]. *)
Theorem write_then_read_roundtrip (os_sep : ascii)
    (reads : list Byte.byte -> Z -> outcome pyval)
    (mark_trusted_cells : pyval -> string -> pyval)
    (validate_notebook_model : list (string * pyval) -> list (string * pyval))
    (fuel : nat) (path : string) (B : list Byte.byte)
    (mimetype format type read_format : pyval) (w : World) (uri : string)
    (a : BackendArray) :
  tiledb_uri_from_path os_sep path = Ok uri ->
  arrays w !! uri = Some a ->
  exists w1 a1 w2,
    _write_bytes_to_array os_sep fuel false path (PBytes B) mimetype format type w
    = (Ok None, w1) /\
    arrays w1 !! uri = Some a1 /\
    meta a1 !! "file_size" = Some (PInt (Z.of_nat (length B))) /\
    meta a1 !! "type" = (if is_none type then meta a !! "type" else Some type) /\
    Tiledb.read_contents a1 (PInt (Z.of_nat (length B))) = Ok B /\
    (match meta a1 !! "type" with
     | Some ty => py_eq_str ty "notebook" = false
     | None => True
     end ->
     exists model,
       _file_from_array os_sep reads mark_trusted_cells validate_notebook_model
         path true read_format w1 = (Ok model, w2) /\
       Dict.get "content" model = Some (PBytes B)) /\
    (forall ty nb,
        meta a1 !! "type" = Some ty -> py_eq_str ty "notebook" = true ->
        reads B NBFORMAT_VERSION = Ok nb ->
        exists model,
          _file_from_array os_sep reads mark_trusted_cells validate_notebook_model
            path true read_format w1 = (Ok (validate_notebook_model model), w2) /\
          Dict.get "content" model = Some (mark_trusted_cells nb path)).
Proof.
  intros Huri Ha.
  destruct (write_existing_spec os_sep fuel path B mimetype format type w uri a Huri Ha)
    as (w1 & a1 & Hw & Ha1 & Hc & _ & Hsize & _ & _ & Hty).
  destruct (file_from_array_bytes os_sep reads mark_trusted_cells
              validate_notebook_model path read_format w1 uri a1 _ Huri Ha1 Hsize)
    as (w2 & Hbytes & Hnb).
  rewrite Hc, read_range_write in Hbytes, Hnb.
  exists w1, a1, w2.
  split; [exact Hw|]. split; [exact Ha1|]. split; [exact Hsize|].
  split; [exact Hty|].
  split. { cbn [Tiledb.read_contents]. now rewrite Hc, read_range_write. }
  split; [exact Hbytes | exact Hnb].
Qed.

Lemma write_then_read_roundtrip_witness :
  exists w1,
    _write_bytes_to_array "/" 0 false "cloud/owned/alice/x"
      (PBytes [Byte.x02; Byte.x03]) PNone PNone (PStr "file") Sample.one_file
    = (Ok None, w1) /\
    content_of
      (fst (_file_from_array "/" Sample.reads Sample.mark_trusted_cells
              Sample.validate_notebook_model "cloud/owned/alice/x" true PNone w1))
    = Some (PBytes [Byte.x02; Byte.x03]).
Proof.
  destruct (write_then_read_roundtrip "/" Sample.reads Sample.mark_trusted_cells
              Sample.validate_notebook_model 0 "cloud/owned/alice/x"
              [Byte.x02; Byte.x03] PNone PNone (PStr "file") PNone Sample.one_file
              "tiledb://alice/x" (Sample.stored "x" [Byte.x01] "file")
              eq_refl eq_refl)
    as (w1 & a1 & w2 & Hw & _ & _ & Hty & _ & Hbytes & _).
  exists w1. split; [exact Hw|].
  destruct Hbytes as (model & Hread & Hcontent).
  - rewrite Hty. reflexivity.
  - rewrite Hread. exact Hcontent.
Defined.

(** C8, as stated, fails: a write flagged as a first save on a path whose
    array already exists creates [x-1] and writes there; reading the
    path written to still returns the old byte, and [file_size] of the
    existing array is still 1. *)
Lemma write_as_new_leaves_existing_array :
  is_Some (arrays Sample.one_file !! "tiledb://alice/x") /\
  fst (_write_bytes_to_array "/" 3 true "cloud/owned/alice/x"
         (PBytes [Byte.x02; Byte.x03]) PNone PNone (PStr "file") Sample.one_file)
  = Ok (Some "x-1") /\
  content_of
    (fst (_file_from_array "/" Sample.reads Sample.mark_trusted_cells
            Sample.validate_notebook_model "cloud/owned/alice/x" true PNone
            (snd (_write_bytes_to_array "/" 3 true "cloud/owned/alice/x"
                    (PBytes [Byte.x02; Byte.x03]) PNone PNone (PStr "file")
                    Sample.one_file))))
  = Some (PBytes [Byte.x01]) /\
  (arrays (snd (_write_bytes_to_array "/" 3 true "cloud/owned/alice/x"
                  (PBytes [Byte.x02; Byte.x03]) PNone PNone (PStr "file")
                  Sample.one_file))
     !! "tiledb://alice/x") ≫= (fun a => meta a !! "file_size")
  = Some (PInt 1).
Proof.
  split; [vm_compute; eexists; reflexivity|].
  split; [vm_compute; reflexivity|].
  split; vm_compute; reflexivity.
Qed.

(** ** Error codes of the read paths *)

(** C6: the status an error carries is not the one [http_error] is
    given.  A catalog failure during a read is re-raised with status 500
    by [_notebook_from_array], which passes 400, and by
    [_file_from_array], which passes 500, as the claim requires of every
    read.  But a caller input error, such as a model saved without a
    type, carries status 500 as well, where the claim reserves 400 for
    it: no error built by [http_error] carries 400. *)
Theorem caller_input_errors_carry_status_500 (os_sep : ascii)
    (reads : list Byte.byte -> Z -> outcome pyval)
    (mark_trusted_cells : pyval -> string -> pyval)
    (validate_notebook_model : list (string * pyval) -> list (string * pyval))
    (from_dict : pyval -> pyval)
    (check_and_sign : pyval -> string -> outcome unit)
    (json_dumps : pyval -> outcome (list Byte.byte))
    (run_pre_save_hook :
       list (string * pyval) -> string -> outcome (list (string * pyval)))
    (super_get : string -> bool -> pyval -> pyval -> outcome (list (string * pyval)))
    (super_save : list (string * pyval) -> string -> outcome (list (string * pyval)))
    (super_dir_model : string -> bool -> outcome (list (string * pyval)))
    (super_dir_exists : string -> bool)
    (fuel : nat) (model model' : list (string * pyval)) (path read_path : string)
    (format : pyval) (w : World) (uri : string) :
  run_pre_save_hook model path = Ok model' ->
  Dict.has "type" model' = false ->
  tiledb_uri_from_path os_sep read_path = Ok uri ->
  arrays w !! uri = None ->
  save os_sep reads mark_trusted_cells validate_notebook_model from_dict
    check_and_sign json_dumps run_pre_save_hook super_get super_save
    super_dir_model super_dir_exists fuel model path w
  = (Raise (HTTPError 500 "No file type provided"), w) /\
  fst (_notebook_from_array os_sep reads mark_trusted_cells validate_notebook_model
         read_path true w)
  = Raise (HTTPError 500 ("Error fetching notebook info: " +:+ Cloud.not_found)) /\
  fst (_file_from_array os_sep reads mark_trusted_cells validate_notebook_model
         read_path true format w)
  = Raise (HTTPError 500 ("Error fetching file info: " +:+ Cloud.not_found)) /\
  (forall code message, http_error code message = HTTPError 500 message).
Proof.
  intros Hhook Hty Huri Ha. split; [|split; [|split]].
  - unfold save. unfold bind at 1. unfold lift at 1. rewrite Hhook, Hty. reflexivity.
  - unfold _notebook_from_array, try_except, bind, lift, Cloud.array_info, ask_reply.
    rewrite Huri. cbv beta iota zeta. rewrite Ha. reflexivity.
  - unfold _file_from_array, try_except, bind, lift, Cloud.array_info, ask_reply.
    rewrite Huri. cbv beta iota zeta. rewrite Ha. reflexivity.
  - reflexivity.
Qed.

Lemma caller_input_errors_carry_status_500_witness :
  save "/" Sample.reads Sample.mark_trusted_cells Sample.validate_notebook_model
    Sample.from_dict Sample.check_and_sign Sample.json_dumps Sample.run_pre_save_hook
    Sample.super_get Sample.super_save Sample.super_dir_model Sample.super_exists 0
    [("content", PStr "hello")] "cloud/owned/alice/a.txt" Sample.one_file
  = (Raise (HTTPError 500 "No file type provided"), Sample.one_file) /\
  fst (_notebook_from_array "/" Sample.reads Sample.mark_trusted_cells
         Sample.validate_notebook_model "cloud/owned/alice/missing" true
         Sample.one_file)
  = Raise (HTTPError 500 "Error fetching notebook info: Array or Namespace Not found").
Proof.
  destruct (caller_input_errors_carry_status_500 "/" Sample.reads
              Sample.mark_trusted_cells Sample.validate_notebook_model
              Sample.from_dict Sample.check_and_sign Sample.json_dumps
              Sample.run_pre_save_hook Sample.super_get Sample.super_save
              Sample.super_dir_model Sample.super_exists 0
              [("content", PStr "hello")] [("content", PStr "hello")]
              "cloud/owned/alice/a.txt" "cloud/owned/alice/missing" PNone
              Sample.one_file "tiledb://alice/missing") as (H1 & H2 & _);
    try reflexivity.
  split; [exact H1 | exact H2].
Defined.

(** The other sites that wrap a catalog failure use status 500. *)
Lemma delete_reports_catalog_failure_as_500 (os_sep : ascii)
    (super_delete_file : string -> outcome unit) (path : string) (w : World)
    (uri : string) :
  _is_remote_path os_sep (PyStr.strip "/" path) = true ->
  tiledb_uri_from_path os_sep
    (strip_notebook_ext (PyStr.strip "/" path)) = Ok uri ->
  arrays w !! uri = None ->
  fst (delete_file os_sep super_delete_file path w)
  = Raise (HTTPError 500 ("Error deregistering " +:+ uri +:+ ": ")).
Proof.
  intros Hr Huri Ha.
  unfold delete_file, try_except, bind, lift, Cloud.array_deregister_array.
  rewrite Hr, Huri. cbv beta iota zeta. cbn [arrays log_call]. rewrite Ha. reflexivity.
Qed.

Lemma get_type_reports_storage_failure_as_500 (uri : string) (w : World) :
  arrays w !! uri = None ->
  fst (_get_type uri w) = Raise (HTTPError 500 (Tiledb.no_such_array uri)).
Proof.
  intros Ha. unfold _get_type, try_except, bind, Tiledb.open.
  cbn [arrays log_call]. rewrite Ha. reflexivity.
Qed.

(** ** Type classification *)

(** C7, as amended: for every remote path that is not a remote
    directory, [guess_type] strips a trailing [.ipynb], resolves the URI
    and returns the backend metadata's [type] value when the array can
    be opened ([None] when the metadata has no [type] key), and
    [directory] when the query fails.  No branch of the remote case
    returns [notebook] on account of the extension. *)
Theorem guess_type_remote_leaf (os_sep : ascii) (super_dir_exists : string -> bool)
    (path : string) (allow_directory : bool) (w : World) :
  _is_remote_path os_sep (PyStr.strip "/" path) = true ->
  _is_remote_dir os_sep (PyStr.strip "/" path) = false ->
  exists uri,
    tiledb_uri_from_path os_sep (strip_notebook_ext (PyStr.strip "/" path)) = Ok uri /\
    fst (guess_type os_sep super_dir_exists path allow_directory w)
    = Ok match arrays w !! uri with
         | Some a =>
             match meta a !! "type" with
             | Some v => v
             | None => PNone
             end
         | None => PStr "directory"
         end.
Proof.
  intros Hr Hd.
  destruct (tiledb_uri_from_path_total os_sep
              (strip_notebook_ext (PyStr.strip "/" path))) as [uri Huri].
  exists uri. split; [exact Huri|].
  unfold guess_type. rewrite Hr, Hd.
  unfold try_except, bind, lift, _get_type, try_except, bind, Tiledb.open.
  rewrite Huri. cbv beta iota zeta. cbn [arrays log_call].
  destruct (arrays w !! uri) as [a|]; [|reflexivity].
  destruct (meta a !! "type"); reflexivity.
Qed.

Lemma guess_type_remote_leaf_witness :
  exists uri,
    tiledb_uri_from_path "/"
      (strip_notebook_ext (PyStr.strip "/" "cloud/owned/alice/x.ipynb")) = Ok uri /\
    fst (guess_type "/" Sample.super_exists "cloud/owned/alice/x.ipynb" true
           Sample.one_file)
    = Ok match arrays Sample.one_file !! uri with
         | Some a =>
             match meta a !! "type" with
             | Some v => v
             | None => PNone
             end
         | None => PStr "directory"
         end.
Proof.
  apply (guess_type_remote_leaf "/" Sample.super_exists "cloud/owned/alice/x.ipynb"
           true Sample.one_file); reflexivity.
Defined.

(** C7, as stated, fails: for a remote [.ipynb] path whose array has no
    [type] metadata the result is [None], and for one whose array cannot
    be opened it is [directory]; neither is [notebook]. *)
Lemma guess_type_ignores_notebook_extension :
  _is_remote_path "/" "cloud/owned/alice/nb.ipynb" = true /\
  _is_remote_dir "/" "cloud/owned/alice/nb.ipynb" = false /\
  fst (guess_type "/" Sample.super_exists "cloud/owned/alice/nb.ipynb" true
         Sample.blank_notebook) = Ok PNone /\
  fst (guess_type "/" Sample.super_exists "cloud/owned/alice/missing.ipynb" true
         Sample.blank_notebook) = Ok (PStr "directory").
Proof.
  split; [reflexivity|]. split; [reflexivity|].
  split; vm_compute; reflexivity.
Qed.

(** ** Directory listings *)

Lemma dict_set_tagged {V} (f : string -> V) (k : string) (ks : list string) :
  Dict.set k (f k) (map (fun x => (x, f x)) ks)
  = map (fun x => (x, f x)) (if existsb (String.eqb k) ks then ks else ks ++ [k]).
Proof.
  induction ks as [|x ks IH]; [reflexivity|].
  cbn [map Dict.set existsb]. rewrite (String.eqb_sym k x).
  destruct (String.eqb_spec x k) as [->|Hne]; [reflexivity|].
  cbn [orb]. rewrite IH. destruct (existsb (String.eqb k) ks); reflexivity.
Qed.

Lemma add_record_namespaces_distinct (category : string) (records : list ArrayInfo)
    (ks : list string) :
  add_record_namespaces category records
    (map (fun ns => (ns, namespace_node category ns false)) ks)
  = map (fun ns => (ns, namespace_node category ns false))
      (distinct ks (map namespace records)).
Proof.
  revert ks. induction records as [|r records IH]; intros ks; [reflexivity|].
  cbn [add_record_namespaces map distinct].
  rewrite (dict_set_tagged (fun ns => namespace_node category ns false)).
  apply IH.
Qed.

Lemma existsb_eqb_elem_of (x : string) (l : list string) :
  existsb (String.eqb x) l = true <-> x ∈ l.
Proof.
  rewrite existsb_exists. split.
  - intros (y & Hin & Heq). apply String.eqb_eq in Heq as ->.
    now apply list_elem_of_In.
  - intros Hin. exists x. split; [now apply list_elem_of_In|apply String.eqb_refl].
Qed.

Lemma distinct_NoDup (seen l : list string) : NoDup seen -> NoDup (distinct seen l).
Proof.
  revert seen. induction l as [|x l IH]; intros seen Hnd; [exact Hnd|].
  cbn [distinct]. apply IH.
  destruct (existsb (String.eqb x) seen) eqn:E; [exact Hnd|].
  apply NoDup_app. split; [exact Hnd|]. split; [|apply NoDup_singleton].
  intros y Hy Hx. apply list_elem_of_singleton in Hx as ->.
  apply existsb_eqb_elem_of in Hy. congruence.
Qed.

Lemma distinct_elem_of (seen l : list string) (y : string) :
  y ∈ distinct seen l <-> y ∈ seen \/ y ∈ l.
Proof.
  revert seen. induction l as [|x l IH]; intros seen; cbn [distinct].
  - split; [auto|]. intros [H|H]; [exact H|]. now apply elem_of_nil in H.
  - rewrite IH, elem_of_cons.
    destruct (existsb (String.eqb x) seen) eqn:E.
    + apply existsb_eqb_elem_of in E. split; [tauto|].
      intros [H|[->|H]]; auto.
    + rewrite elem_of_app, list_elem_of_singleton. tauto.
Qed.

Lemma list_category_shared_groups (records : list ArrayInfo) (w : World) :
  list_shared_arrays w None = Reply (Some records) ->
  exists model,
    __list_category "shared" true w
    = (Ok model, log_call (CallListSharedArrays None) w) /\
    Dict.get "content" model
    = Some (PList (map (fun ns => PDict (namespace_node "shared" ns false))
                     (distinct [] (map namespace records)))).
Proof.
  intros Hl. unfold __list_category, try_except, bind.
  change (String.eqb "shared" "shared") with true. cbv beta iota.
  unfold Cloud.client_list_shared_arrays, ask_reply. rewrite Hl.
  change (String.eqb "shared" "owned") with false. rewrite andb_false_r.
  cbv beta iota. unfold ret.
  eexists. split; [reflexivity|].
  rewrite dict_get_set_eq. do 2 f_equal.
  pose proof (add_record_namespaces_distinct "shared" records []) as Hd.
  cbn [map] in Hd. rewrite Hd.
  unfold Dict.values. rewrite !map_map. reflexivity.
Qed.

Lemma list_category_public_groups (records : list ArrayInfo) (w : World) :
  list_public_arrays w None = Reply (Some records) ->
  exists model,
    __list_category "public" true w
    = (Ok model, log_call (CallListPublicArrays None) w) /\
    Dict.get "content" model
    = Some (PList (map (fun ns => PDict (namespace_node "public" ns false))
                     (distinct [] (map namespace records)))).
Proof.
  intros Hl. unfold __list_category, try_except, bind.
  change (String.eqb "public" "shared") with false.
  change (String.eqb "public" "public") with true. cbv beta iota.
  unfold Cloud.client_list_public_arrays, ask_reply. rewrite Hl.
  change (String.eqb "public" "owned") with false. rewrite andb_false_r.
  cbv beta iota. unfold ret.
  eexists. split; [reflexivity|].
  rewrite dict_get_set_eq. do 2 f_equal.
  pose proof (add_record_namespaces_distinct "public" records []) as Hd.
  cbn [map] in Hd. rewrite Hd.
  unfold Dict.values. rewrite !map_map. reflexivity.
Qed.

(** [__list_namespace] does ask the catalog for the owned category. *)
Lemma list_namespace_owned_lists_owned (ns : string) (content : bool) (w : World) :
  calls (snd (__list_namespace "owned" ns content w))
  = CallListArrays (Some ns) :: calls w.
Proof.
  unfold __list_namespace, try_except, bind.
  change (String.eqb "owned" "owned") with true. cbv beta iota.
  unfold Cloud.client_list_arrays, ask_reply.
  destruct (list_arrays w (Some ns)) as [[records|]|msg]; [| |reflexivity];
    destruct content; reflexivity.
Qed.

(** C2: for the category [owned], [__list_category] issues no catalog
    listing call at all (only the profile call, when content is asked
    for), so its nodes never come from the owned records.  With one owned
    record in namespace [alice], listing [cloud/owned] yields the nodes
    [alice], [orgA] and [orgB] of the profile. *)
Theorem list_category_owned_never_lists_owned (content : bool) (w : World) :
  calls (snd (__list_category "owned" content w))
  = (if content then CallUserProfile :: calls w else calls w) /\
  list_arrays Sample.listed None = Reply (Some [Sample.record "alice" "nb1"]) /\
  node_names (fst (__list_category "owned" true Sample.listed))
  = ["alice"; "orgA"; "orgB"] /\
  calls (snd (__list_category "owned" true Sample.listed)) = [CallUserProfile].
Proof.
  split; [|split; [reflexivity|split; vm_compute; reflexivity]].
  unfold __list_category, try_except, bind.
  change (String.eqb "owned" "shared") with false.
  change (String.eqb "owned" "public") with false. cbv beta iota.
  unfold ret at 1. cbv beta iota.
  destruct content; [|reflexivity].
  cbn [length Nat.eqb andb]. change (String.eqb "owned" "owned") with true.
  cbv beta iota. unfold Cloud.client_user_profile, ask_reply.
  destruct (user_profile w); reflexivity.
Qed.

Lemma namespace_node_fields (category ns : string) :
  Dict.get "type" (namespace_node category ns true) = Some (PStr "directory") /\
  Dict.get "content" (namespace_node category ns true) = Some PNone /\
  Dict.get "path" (namespace_node category ns true)
  = Some (PStr ("cloud/" +:+ category +:+ "/" +:+ ns)).
Proof. repeat split. Qed.

(** C3, as amended: listing [cloud/owned] when the owned listing is
    empty and the user belongs to [orgA] and [orgB] (neither named
    [public], both different from the user name) yields a directory whose
    content is exactly three synthetic namespace nodes, in this order:
    the user's own namespace, [orgA], [orgB]; each is a directory with no
    content, so there are zero leaves. *)
Theorem list_owned_fallback_includes_user (w : World) (p : UserProfile)
    (orgA orgB : string) :
  list_arrays w None = Reply (Some []) \/ list_arrays w None = Reply None ->
  user_profile w = Reply p ->
  organizations p = [mkOrganization orgA; mkOrganization orgB] ->
  orgA <> "public" -> orgB <> "public" -> orgA <> orgB ->
  username p <> orgA -> username p <> orgB ->
  exists model,
    __list_category "owned" true w = (Ok model, log_call CallUserProfile w) /\
    Dict.get "type" model = Some (PStr "directory") /\
    Dict.get "content" model
    = Some (PList [ PDict (namespace_node "owned" (username p) true);
                    PDict (namespace_node "owned" orgA true);
                    PDict (namespace_node "owned" orgB true) ]) /\
    (forall ns,
        Dict.get "type" (namespace_node "owned" ns true) = Some (PStr "directory") /\
        Dict.get "content" (namespace_node "owned" ns true) = Some PNone).
Proof.
  intros _ Hp Horgs HA HB HAB HuA HuB.
  apply String.eqb_neq in HA, HB, HAB, HuA, HuB.
  unfold __list_category, try_except, bind.
  change (String.eqb "owned" "shared") with false.
  change (String.eqb "owned" "public") with false. cbv beta iota.
  unfold ret at 1. cbv beta iota.
  cbn [length Nat.eqb andb]. change (String.eqb "owned" "owned") with true.
  cbv beta iota. unfold Cloud.client_user_profile, ask_reply. rewrite Hp.
  unfold ret. rewrite Horgs.
  cbn [add_organizations organization_name Dict.set]. rewrite HA.
  cbn [add_organizations organization_name Dict.set]. rewrite HuA, HB.
  cbn [add_organizations organization_name Dict.set]. rewrite HuB, HAB.
  eexists. split; [reflexivity|].
  split; [reflexivity|]. split; [reflexivity|].
  intros ns. split; reflexivity.
Qed.

Lemma list_owned_fallback_includes_user_witness :
  exists model,
    __list_category "owned" true Sample.fresh_user
    = (Ok model, log_call CallUserProfile Sample.fresh_user) /\
    Dict.get "content" model
    = Some (PList [ PDict (namespace_node "owned" "alice" true);
                    PDict (namespace_node "owned" "orgA" true);
                    PDict (namespace_node "owned" "orgB" true) ]).
Proof.
  destruct (list_owned_fallback_includes_user Sample.fresh_user Sample.alice
              "orgA" "orgB") as (model & Hrun & _ & Hcontent & _);
    try reflexivity; try discriminate.
  - left. reflexivity.
  - exists model. split; [exact Hrun | exact Hcontent].
Defined.

(** C3, as stated, fails: with an empty owned listing and the
    organizations [orgA] and [orgB], the listing of [cloud/owned] has
    three nodes, the first being the user's own namespace. *)
Lemma list_owned_fallback_has_three_nodes :
  list_arrays Sample.fresh_user None = Reply (Some []) /\
  map organization_name (organizations Sample.alice) = ["orgA"; "orgB"] /\
  node_names (fst (__list_category "owned" true Sample.fresh_user))
  = ["alice"; "orgA"; "orgB"] /\
  fst (get "/" Sample.reads Sample.mark_trusted_cells Sample.validate_notebook_model
         Sample.super_get Sample.super_dir_model Sample.super_exists
         "cloud/owned" true PNone PNone Sample.fresh_user)
  = match fst (__list_category "owned" true Sample.fresh_user) with
    | Ok model => Ok (Some model)
    | Raise e => Raise e
    | OutOfFuel => OutOfFuel
    end.
Proof.
  split; [reflexivity|]. split; [reflexivity|].
  split; vm_compute; reflexivity.
Qed.

(** ** Saving *)

Lemma newness_flag_unfit (model : list (string * pyval)) :
  content_unfit model = true -> exists e, newness_flag model = Raise e.
Proof.
  unfold content_unfit, newness_flag. cbn [py_getitem].
  destruct (Dict.get "content" model) as [content|]; [|eexists; reflexivity].
  destruct content; cbn [py_getitem]; try (eexists; reflexivity).
  destruct (Dict.get "metadata" d) as [metadata|]; [|eexists; reflexivity].
  destruct metadata; cbn [py_contains]; intros H;
    try discriminate; eexists; reflexivity.
Qed.

Lemma newness_flag_mapping (model d md : list (string * pyval)) :
  Dict.get "content" model = Some (PDict d) ->
  Dict.get "metadata" d = Some (PDict md) ->
  newness_flag model = Ok (negb (Dict.has "language_info" md)).
Proof.
  intros Hc Hm. unfold newness_flag. cbn [py_getitem].
  rewrite Hc. cbn [py_getitem]. rewrite Hm. reflexivity.
Qed.

Lemma newness_flag_has_content (model : list (string * pyval)) (b : bool) :
  newness_flag model = Ok b -> Dict.has "content" model = true.
Proof.
  unfold newness_flag, Dict.has. cbn [py_getitem].
  destruct (Dict.get "content" model); [reflexivity|discriminate].
Qed.

Section SaveProperties.

Variable os_sep : ascii.
Variable reads : list Byte.byte -> Z -> outcome pyval.
Variable mark_trusted_cells : pyval -> string -> pyval.
Variable validate_notebook_model : list (string * pyval) -> list (string * pyval).
Variable from_dict : pyval -> pyval.
Variable check_and_sign : pyval -> string -> outcome unit.
Variable json_dumps : pyval -> outcome (list Byte.byte).
Variable run_pre_save_hook :
  list (string * pyval) -> string -> outcome (list (string * pyval)).
Variable super_get : string -> bool -> pyval -> pyval -> outcome (list (string * pyval)).
Variable super_save : list (string * pyval) -> string -> outcome (list (string * pyval)).
Variable super_dir_model : string -> bool -> outcome (list (string * pyval)).
Variable super_dir_exists : string -> bool.

(** C4, as amended: on a remote path [save] evaluates
    [model['content']['metadata']] and tests it for ['language_info']
    before it dispatches on the type; [_is_new] is false exactly when
    that key is in the metadata mapping.  A save whose content is not a
    dict, or is a dict without [metadata], or whose [metadata] is neither
    a dict, a string nor a list, raises before any backend call: the
    world, call log included, is unchanged.  Every save of type [file]
    with plain string content is such a save. *)
Theorem save_probes_metadata_before_dispatch (fuel : nat)
    (model model' : list (string * pyval)) (path : string) (w : World) :
  run_pre_save_hook model path = Ok model' ->
  _is_remote_path os_sep (fix_path path) = true ->
  (forall d md,
      Dict.get "content" model' = Some (PDict d) ->
      Dict.get "metadata" d = Some (PDict md) ->
      newness_flag model' = Ok (negb (Dict.has "language_info" md))) /\
  (forall _is_new,
      newness_flag model' = Ok _is_new ->
      Dict.has "type" model' = true ->
      py_eq_str (dict_get_default "type" model') "directory"
        || py_eq_str (dict_get_default "type" model') "file"
        || py_eq_str (dict_get_default "type" model') "notebook" = true ->
      save os_sep reads mark_trusted_cells validate_notebook_model from_dict
        check_and_sign json_dumps run_pre_save_hook super_get super_save
        super_dir_model super_dir_exists fuel model path w
      = (saved <-
           save_dispatch os_sep validate_notebook_model from_dict check_and_sign
             json_dumps fuel _is_new model' (dict_get_default "type" model') path
             (strip_notebook_ext (fix_path path));;
         save_finish os_sep reads mark_trusted_cells validate_notebook_model
           super_get super_dir_model super_dir_exists saved) w) /\
  (content_unfit model' = true ->
   exists e,
     save os_sep reads mark_trusted_cells validate_notebook_model from_dict
       check_and_sign json_dumps run_pre_save_hook super_get super_save
       super_dir_model super_dir_exists fuel model path w
     = (Raise e, w)) /\
  (forall s, Dict.get "content" model' = Some (PStr s) -> content_unfit model' = true).
Proof.
  intros Hhook Hremote.
  split; [intros d md; apply newness_flag_mapping|].
  split; [|split].
  - intros b Hflag Htype Hvalid.
    unfold save. unfold bind at 1. unfold lift at 1. rewrite Hhook.
    rewrite Htype, (newness_flag_has_content _ _ Hflag), Hvalid, Hremote.
    cbn [negb andb]. unfold bind at 1. unfold lift at 1. rewrite Hflag.
    reflexivity.
  - intros Hunfit. destruct (newness_flag_unfit _ Hunfit) as [e He].
    unfold save. unfold bind at 1. unfold lift at 1. rewrite Hhook.
    destruct (negb (Dict.has "type" model')); [eexists; reflexivity|].
    destruct (_ && _); [eexists; reflexivity|].
    destruct (negb _); [eexists; reflexivity|].
    rewrite Hremote. cbn [negb]. unfold bind at 1. unfold lift at 1. rewrite He.
    eexists. reflexivity.
  - intros s Hs. unfold content_unfit. now rewrite Hs.
Qed.

End SaveProperties.

Lemma save_probes_metadata_before_dispatch_witness :
  exists e,
    save "/" Sample.reads Sample.mark_trusted_cells Sample.validate_notebook_model
      Sample.from_dict Sample.check_and_sign Sample.json_dumps
      Sample.run_pre_save_hook Sample.super_get Sample.super_save
      Sample.super_dir_model Sample.super_exists 5 Sample.text_file
      "cloud/owned/alice/new" Sample.one_file
    = (Raise e, Sample.one_file).
Proof.
  destruct (save_probes_metadata_before_dispatch "/" Sample.reads
              Sample.mark_trusted_cells Sample.validate_notebook_model
              Sample.from_dict Sample.check_and_sign Sample.json_dumps
              Sample.run_pre_save_hook Sample.super_get Sample.super_save
              Sample.super_dir_model Sample.super_exists 5 Sample.text_file
              Sample.text_file "cloud/owned/alice/new" Sample.one_file
              eq_refl eq_refl) as (_ & _ & Hraise & Hstr).
  apply Hraise. apply (Hstr "hello"). reflexivity.
Defined.

(** C4, as stated, fails: the content [{"metadata": []}] is a mapping
    whose [metadata] is not a mapping, yet the membership test on the
    list succeeds, [_is_new] stays true and the save of type [file]
    creates the backend array [tiledb://alice/new]. *)
Lemma save_with_list_metadata_creates_array :
  Dict.get "content" Sample.file_with_list_metadata
  = Some (PDict [("metadata", PList [])]) /\
  newness_flag Sample.file_with_list_metadata = Ok true /\
  arrays Sample.one_file !! "tiledb://alice/new" = None /\
  is_Some
    (arrays
       (snd (save "/" Sample.reads Sample.mark_trusted_cells
               Sample.validate_notebook_model Sample.from_dict Sample.check_and_sign
               Sample.json_dumps Sample.run_pre_save_hook Sample.super_get
               Sample.super_save Sample.super_dir_model Sample.super_exists 5
               Sample.file_with_list_metadata "cloud/owned/alice/new"
               Sample.one_file))
       !! "tiledb://alice/new") /\
  create_calls
    (calls
       (snd (save "/" Sample.reads Sample.mark_trusted_cells
               Sample.validate_notebook_model Sample.from_dict Sample.check_and_sign
               Sample.json_dumps Sample.run_pre_save_hook Sample.super_get
               Sample.super_save Sample.super_dir_model Sample.super_exists 5
               Sample.file_with_list_metadata "cloud/owned/alice/new"
               Sample.one_file)))
  = 1%nat.
Proof.
  split; [reflexivity|]. split; [reflexivity|]. split; [reflexivity|].
  split; [vm_compute; eexists; reflexivity|vm_compute; reflexivity].
Qed.

(** * Further properties of the contents manager *)

(** ** Path classification *)

Lemma split_first sep (s : string) :
  exists hd tl,
    PyStr.split sep s = hd :: tl /\ free_of sep hd = true /\
    ((tl = [] /\ s = hd) \/ exists r, s = hd +:+ String sep r).
Proof.
  induction s as [|c s IH].
  - exists EmptyString, []. repeat split. now left.
  - destruct IH as (hd & tl & Hs & Hfree & Hshape).
    cbn [PyStr.split]. rewrite Hs.
    destruct (Ascii.eqb_spec c sep) as [->|Hne].
    + exists EmptyString, (hd :: tl). repeat split. right. now exists s.
    + exists (String c hd), tl. split; [reflexivity|]. split.
      * cbn [free_of]. rewrite Hfree.
        now destruct (Ascii.eqb_spec c sep).
      * destruct Hshape as [[-> ->]|[r ->]]; [now left|].
        right. now exists r.
Qed.

Lemma split_head_eq sep (t s : string) :
  free_of sep t = true ->
  (hd EmptyString (PyStr.split sep s) = t <->
   s = t \/ exists r, s = t +:+ String sep r).
Proof.
  intros Ht. split.
  - destruct (split_first sep s) as (h & tl & Hs & _ & Hshape).
    rewrite Hs. cbn [hd]. intros ->.
    destruct Hshape as [[_ ->]|[r ->]]; [now left|right; now exists r].
  - intros [->|[r ->]].
    + now rewrite split_free.
    + now rewrite split_app_sep.
Qed.

Lemma is_remote_path_heads (os_sep : ascii) (path : string) :
  _is_remote_path os_sep path
  = String.eqb (hd EmptyString (PyStr.split os_sep path)) "cloud"
    || String.eqb (hd EmptyString (PyStr.split "/" path)) "cloud".
Proof.
  unfold _is_remote_path.
  pose proof (split_nonempty os_sep path). pose proof (split_nonempty "/" path).
  destruct (PyStr.split os_sep path); [congruence|].
  destruct (PyStr.split "/" path); [congruence|]. reflexivity.
Qed.

(** A path is remote exactly when it is [cloud] or starts with [cloud]
    followed by ["/"] or by [os.sep]. *)
Theorem is_remote_path_iff_cloud_prefix (os_sep : ascii) (path : string) :
  free_of os_sep "cloud" = true ->
  (_is_remote_path os_sep path = true <->
   path = "cloud" \/
   (exists rest, path = "cloud" +:+ String "/" rest) \/
   (exists rest, path = "cloud" +:+ String os_sep rest)).
Proof.
  intros Hsep. rewrite is_remote_path_heads, orb_true_iff, !String.eqb_eq.
  rewrite (split_head_eq os_sep "cloud" path Hsep).
  rewrite (split_head_eq "/" "cloud" path eq_refl). tauto.
Qed.

Lemma is_remote_path_iff_cloud_prefix_witness :
  _is_remote_path "\" "cloud/owned/alice/nb.ipynb" = true <->
  "cloud/owned/alice/nb.ipynb" = "cloud" \/
  (exists rest, "cloud/owned/alice/nb.ipynb" = "cloud" +:+ String "/" rest) \/
  (exists rest, "cloud/owned/alice/nb.ipynb" = "cloud" +:+ String "\" rest).
Proof.
  apply (is_remote_path_iff_cloud_prefix "\" "cloud/owned/alice/nb.ipynb").
  reflexivity.
Defined.

Lemma remote_dir_splits_head (splits : list string) :
  remote_dir_splits splits = true -> hd EmptyString splits = "cloud".
Proof.
  destruct splits as [|a [|b rest]]; cbn [remote_dir_splits hd].
  - discriminate.
  - apply String.eqb_eq.
  - rewrite !andb_true_iff. intros [[_ Ha] _]. now apply String.eqb_eq.
Qed.

(** Whatever the platform separator, a path classified as a remote
    directory is classified as remote. *)
Theorem remote_dir_is_remote_path (os_sep : ascii) (path : string) :
  _is_remote_dir os_sep path = true -> _is_remote_path os_sep path = true.
Proof.
  unfold _is_remote_dir. cbn [existsb]. rewrite orb_false_r, orb_true_iff.
  rewrite is_remote_path_heads, orb_true_iff, !String.eqb_eq.
  intros [H|H]; [left|right]; now apply remote_dir_splits_head.
Qed.

Lemma remote_dir_is_remote_path_witness :
  _is_remote_path "/" "cloud/shared/bob" = true.
Proof.
  apply (remote_dir_is_remote_path "/" "cloud/shared/bob"). reflexivity.
Defined.

Lemma split_join sep (segs : list string) :
  segs <> [] -> Forall (fun p => free_of sep p = true) segs ->
  PyStr.split sep (PyStr.join (String sep EmptyString) segs) = segs.
Proof.
  intros Hne Hall. induction Hall as [|p rest Hp Hrest IH]; [congruence|].
  destruct rest as [|q rest].
  - cbn [PyStr.join]. now apply split_free.
  - rewrite join_cons by discriminate.
    change (p +:+ String sep EmptyString +:+ PyStr.join (String sep EmptyString) (q :: rest))
      with (p +:+ String sep (PyStr.join (String sep EmptyString) (q :: rest))).
    rewrite split_app_sep by assumption. f_equal. apply IH. discriminate.
Qed.

(** With ["/"] as separator, a path made of segments is a remote
    directory exactly when it is [cloud], or [cloud/<category>] with at
    most one more segment, the category being [owned], [public] or
    [shared]: nothing deeper, and no backend state, is consulted. *)
Theorem is_remote_dir_iff_depth (segs : list string) :
  segs <> [] -> Forall (fun p => free_of "/" p = true) segs ->
  (_is_remote_dir "/" (PyStr.join "/" segs) = true <->
   segs = ["cloud"] \/
   exists category rest,
     segs = "cloud" :: category :: rest /\ (length rest <= 1)%nat /\
     (category = "owned" \/ category = "public" \/ category = "shared")).
Proof.
  intros Hne Hall. unfold _is_remote_dir. cbn [existsb].
  rewrite (split_join "/" segs Hne Hall), orb_false_r, orb_diag.
  destruct segs as [|a [|b rest]]; [congruence| |]; cbn [remote_dir_splits].
  - rewrite String.eqb_eq. split.
    + intros ->. now left.
    + intros [H|(c & r & H & _)]; [now injection H|discriminate].
  - rewrite !andb_true_iff, !orb_true_iff, !String.eqb_eq, Nat.leb_le. split.
    + intros [[Hlen ->] Hcat]. right. exists b, rest.
      split; [reflexivity|]. split; [exact Hlen|tauto].
    + intros [H|(c & r & H & Hlen & Hcat)]; [discriminate|].
      injection H as -> -> ->. tauto.
Qed.

Lemma is_remote_dir_iff_depth_witness :
  _is_remote_dir "/" (PyStr.join "/" ["cloud"; "owned"; "alice"; "nb.ipynb"]) = true <->
  ["cloud"; "owned"; "alice"; "nb.ipynb"] = ["cloud"] \/
  exists category rest,
    ["cloud"; "owned"; "alice"; "nb.ipynb"] = "cloud" :: category :: rest /\
    (length rest <= 1)%nat /\
    (category = "owned" \/ category = "public" \/ category = "shared").
Proof.
  apply (is_remote_dir_iff_depth ["cloud"; "owned"; "alice"; "nb.ipynb"]).
  - discriminate.
  - repeat constructor.
Defined.

(** ** Creating: the retry budget and the storage prefix *)

Lemma no_collision_messages_tail (m : string) (msgs : list string) :
  Forall (fun m => PyStr.contains "already exists" m = false) (m :: msgs) ->
  PyStr.contains "already exists" m = false /\
  Forall (fun m => PyStr.contains "already exists" m = false) msgs.
Proof. intros H. inversion H; subst. now split. Qed.

Lemma create_after_faults (msgs : list string) (retry : Z) (ns nm pre : string)
    (w : World) (p : UserProfile) :
  free_of "/" ns = true -> free_of "/" nm = true ->
  user_profile w = Reply p -> username p = ns ->
  s3_path_of (notebook_settings p) = Some (pre +:+ "/") ->
  create_faults w = msgs ->
  Forall (fun m => PyStr.contains "already exists" m = false) msgs ->
  arrays w !! array_uri ns nm = None ->
  Z.of_nat (length msgs) <= retry ->
  exists w',
    _create_array (S (length msgs)) (array_uri ns nm) retry w
    = (Ok (Some (array_uri ns nm, nm)), w') /\
    create_calls (calls w') = (create_calls (calls w) + length msgs + 1)%nat.
Proof.
  revert retry w.
  induction msgs as [|m msgs IH]; intros retry w Hns Hnm Hp Hu Hs Hf Hmsgs Ha Hle.
  - eexists. split.
    + apply (create_succeeds 0 ns nm pre retry w p); assumption.
    + cbn [calls set_arrays log_call create_calls List.filter is_create_call length].
      unfold create_calls. lia.
  - apply no_collision_messages_tail in Hmsgs as [Hm Hmsgs].
    cbn [length] in Hle |- *.
    rewrite (create_fault_spends_budget (S (length msgs)) ns nm pre m msgs retry w p)
      by assumption.
    cbv zeta. replace (retry =? 0) with false by (symmetry; apply Z.eqb_neq; lia).
    set (w1 := set_create_faults _ _).
    destruct (IH (retry - 1) w1) as (w' & Hrun & Hcalls); try assumption;
      try reflexivity; [lia|].
    exists w'. split; [exact Hrun|]. rewrite Hcalls. subst w1.
    cbn [calls set_create_faults log_call create_calls List.filter is_create_call length].
    unfold create_calls. lia.
Qed.

Lemma create_gives_up_after_budget (msgs : list string) (retry : Z)
    (ns nm pre : string) (w : World) (p : UserProfile) :
  free_of "/" ns = true -> free_of "/" nm = true ->
  user_profile w = Reply p -> username p = ns ->
  s3_path_of (notebook_settings p) = Some (pre +:+ "/") ->
  create_faults w = msgs ->
  Forall (fun m => PyStr.contains "already exists" m = false) msgs ->
  0 <= retry < Z.of_nat (length msgs) ->
  exists w',
    _create_array (S (Z.to_nat retry)) (array_uri ns nm) retry w = (Ok None, w') /\
    arrays w' = arrays w /\
    create_calls (calls w') = (create_calls (calls w) + Z.to_nat retry + 1)%nat.
Proof.
  revert retry w.
  induction msgs as [|m msgs IH]; intros retry w Hns Hnm Hp Hu Hs Hf Hmsgs Hlt.
  - cbn [length] in Hlt. lia.
  - apply no_collision_messages_tail in Hmsgs as [Hm Hmsgs].
    cbn [length] in Hlt.
    rewrite (create_fault_spends_budget (Z.to_nat retry) ns nm pre m msgs retry w p)
      by assumption.
    cbv zeta. set (w1 := set_create_faults _ _).
    destruct (Z.eqb_spec retry 0) as [->|Hne].
    + exists w1. split; [reflexivity|]. split; [reflexivity|]. subst w1.
      cbn [calls set_create_faults log_call create_calls List.filter is_create_call length].
      unfold create_calls. simpl. lia.
    + destruct (IH (retry - 1) w1) as (w' & Hrun & Harr & Hcalls); try assumption;
        try reflexivity; [lia|].
      replace (Z.to_nat retry) with (S (Z.to_nat (retry - 1))) by lia.
      exists w'. split; [exact Hrun|]. split; [exact Harr|]. rewrite Hcalls. subst w1.
      cbn [calls set_create_faults log_call create_calls List.filter is_create_call length].
      unfold create_calls. lia.
Qed.

(** Storage errors other than a name collision are what the retry budget
    pays for: with [n] such errors ahead and a free name, the create
    succeeds under the requested name after [n + 1] attempts when
    [n <= retry]; when [n > retry >= 0] it stops after [retry + 1]
    attempts, returns [None] and leaves the arrays as they were. *)
Theorem create_budget_bounds_fault_retries (msgs : list string) (retry : Z)
    (ns nm pre : string) (w : World) (p : UserProfile) :
  free_of "/" ns = true -> free_of "/" nm = true ->
  user_profile w = Reply p -> username p = ns ->
  s3_path_of (notebook_settings p) = Some (pre +:+ "/") ->
  create_faults w = msgs ->
  Forall (fun m => PyStr.contains "already exists" m = false) msgs ->
  arrays w !! array_uri ns nm = None ->
  0 <= retry ->
  (Z.of_nat (length msgs) <= retry ->
   exists w',
     _create_array (S (length msgs)) (array_uri ns nm) retry w
     = (Ok (Some (array_uri ns nm, nm)), w') /\
     create_calls (calls w') = (create_calls (calls w) + length msgs + 1)%nat) /\
  (retry < Z.of_nat (length msgs) ->
   exists w',
     _create_array (S (Z.to_nat retry)) (array_uri ns nm) retry w = (Ok None, w') /\
     arrays w' = arrays w /\
     create_calls (calls w') = (create_calls (calls w) + Z.to_nat retry + 1)%nat).
Proof.
  intros Hns Hnm Hp Hu Hs Hf Hmsgs Ha Hretry. split.
  - intros Hle. now apply (create_after_faults msgs retry ns nm pre w p).
  - intros Hlt. apply (create_gives_up_after_budget msgs retry ns nm pre w p);
      try assumption. lia.
Qed.

Lemma create_budget_bounds_fault_retries_witness :
  (Z.of_nat 2 <= 5 ->
   exists w',
     _create_array 3 "tiledb://alice/nb" 5 Sample.flaky
     = (Ok (Some ("tiledb://alice/nb", "nb")), w') /\
     create_calls (calls w') = 3%nat) /\
  (5 < Z.of_nat 2 ->
   exists w',
     _create_array 6 "tiledb://alice/nb" 5 Sample.flaky = (Ok None, w') /\
     arrays w' = arrays Sample.flaky /\
     create_calls (calls w') = 6%nat).
Proof.
  apply (create_budget_bounds_fault_retries ["connection reset"; "connection reset"]
           5 "alice" "nb" "s3://bucket/notebooks" Sample.flaky Sample.alice);
    try reflexivity.
  - repeat constructor.
  - lia.
Defined.

Lemma get_s3_prefix_outcome (ns : string) (w : World) :
  ((exists o, fst (get_s3_prefix ns w) = Ok o) \/
   (exists msg,
       fst (get_s3_prefix ns w)
       = Raise (HTTPError 500
                  ("Error fetching user default s3 path for new notebooks " +:+ msg)))) /\
  arrays (snd (get_s3_prefix ns w)) = arrays w /\
  create_calls (calls (snd (get_s3_prefix ns w))) = create_calls (calls w).
Proof.
  unfold get_s3_prefix, try_except, bind,
    Cloud.client_user_profile, Cloud.client_organization, ask_reply, ret, raise.
  destruct (user_profile w) as [p|msg]; cbn [fst snd].
  - destruct (String.eqb ns (username p)); cbn [fst snd].
    + repeat apply conj;
        first [reflexivity | left; eexists; reflexivity | right; eexists; reflexivity].
    + cbn [organization log_call].
      destruct (organization w ns) as [o|msg]; cbn [fst snd]; repeat apply conj;
        first [reflexivity | left; eexists; reflexivity | right; eexists; reflexivity].
  - repeat apply conj;
      first [reflexivity | left; eexists; reflexivity | right; eexists; reflexivity].
Qed.

(** [get_s3_prefix] and [get_cloud_enabled] answer, or wrap the
    catalog's failure in an HTTP error.  Both pass 400 to [http_error],
    yet the error they raise carries status 500; a catalog failure never
    escapes in another form, and neither function changes the arrays or
    asks the storage engine to create. *)
Theorem profile_helpers_wrap_catalog_failure (ns : string) (w : World) :
  ((exists o, fst (get_s3_prefix ns w) = Ok o) \/
   (exists msg,
       fst (get_s3_prefix ns w)
       = Raise (HTTPError 500
                  ("Error fetching user default s3 path for new notebooks " +:+ msg)))) /\
  arrays (snd (get_s3_prefix ns w)) = arrays w /\
  create_calls (calls (snd (get_s3_prefix ns w))) = create_calls (calls w) /\
  ((exists b, fst (get_cloud_enabled w) = Ok b) \/
   (exists msg,
       fst (get_cloud_enabled w)
       = Raise (HTTPError 500
                  ("Error fetching user default s3 path for new notebooks " +:+ msg)))) /\
  arrays (snd (get_cloud_enabled w)) = arrays w.
Proof.
  unfold get_s3_prefix, get_cloud_enabled, try_except, bind,
    Cloud.client_user_profile, Cloud.client_organization, ask_reply, ret, raise.
  destruct (user_profile w) as [p|msg]; cbn [fst snd].
  - destruct (String.eqb ns (username p)); cbn [fst snd].
    + repeat apply conj;
        first [reflexivity | left; eexists; reflexivity | right; eexists; reflexivity].
    + cbn [organization log_call].
      destruct (organization w ns) as [o|msg]; cbn [fst snd]; repeat apply conj;
        first [reflexivity | left; eexists; reflexivity | right; eexists; reflexivity].
  - repeat apply conj;
      first [reflexivity | left; eexists; reflexivity | right; eexists; reflexivity].
Qed.

(** Without a configured storage prefix for the namespace, or when the
    profile cannot be fetched, [_create_array] raises an HTTP error
    before asking the storage engine for anything: no array is created.
    The error carries status 500, although the code passes 400. *)
Theorem create_requires_storage_prefix (fuel : nat) (retry : Z) (ns nm : string)
    (w : World) :
  free_of "/" ns = true -> free_of "/" nm = true ->
  (forall pfx, fst (get_s3_prefix ns w) <> Ok (Some pfx)) ->
  exists msg w',
    _create_array (S fuel) (array_uri ns nm) retry w = (Raise (HTTPError 500 msg), w') /\
    arrays w' = arrays w /\
    create_calls (calls w') = create_calls (calls w).
Proof.
  intros Hns Hnm Hnone.
  destruct (get_s3_prefix_outcome ns w) as (Hout & Harr & Hcalls).
  cbn [_create_array]. unfold try_except at 1.
  rewrite split_array_uri by assumption. cbn [length].
  unfold bind at 1. unfold lift at 1.
  change (py_index ["tiledb:"; ""; ns; nm] (Z.of_nat 4 - 2)) with (Ok ns).
  cbv beta iota.
  unfold bind at 1. unfold lift at 1.
  change (py_index ["tiledb:"; ""; ns; nm] (Z.of_nat 4 - 1)) with (Ok nm).
  cbv beta iota.
  unfold bind at 1.
  destruct (get_s3_prefix ns w) as [o w'] eqn:E. cbn [fst snd] in *.
  destruct Hout as [[[pfx|] ->]|[msg ->]].
  - exfalso. now apply (Hnone pfx).
  - eexists _, w'. split; [reflexivity|]. now split.
  - eexists _, w'. split; [reflexivity|]. now split.
Qed.

Lemma create_requires_storage_prefix_witness :
  exists msg w',
    _create_array 1 "tiledb://alice/nb" 5 Sample.no_prefix
    = (Raise (HTTPError 500 msg), w') /\
    arrays w' = arrays Sample.no_prefix /\
    create_calls (calls w') = create_calls (calls Sample.no_prefix).
Proof.
  apply (create_requires_storage_prefix 0 5 "alice" "nb" Sample.no_prefix);
    try reflexivity.
  intros pfx. vm_compute. discriminate.
Defined.

(** ** Writing: what a write keeps *)

Lemma merge_meta_lookup (key k : string) (v : pyval) (m : gmap string pyval) :
  merge_meta key v m !! k
  = if decide (k = key) then (if is_none v then m !! k else Some v) else m !! k.
Proof.
  unfold merge_meta. destruct (is_none v), (decide (k = key)) as [->|Hne];
    try reflexivity.
  - apply lookup_insert_eq.
  - now apply lookup_insert_ne.
Qed.

Lemma set_meta_if_given_arrays (uri key : string) (v : pyval) (w : World)
    (a : BackendArray) (m0 : gmap string BackendArray) :
  arrays w = <[uri := a]> m0 ->
  exists w',
    set_meta_if_given uri key v w = (Ok tt, w') /\
    arrays w'
    = <[uri := mkBackendArray (cells a) (merge_meta key v (meta a)) (info a)]> m0.
Proof.
  intros Hw. unfold set_meta_if_given, merge_meta. destruct (is_none v).
  - exists w. split; [reflexivity|]. rewrite Hw. now destruct a.
  - assert (Ha : arrays w !! uri = Some a) by (rewrite Hw; apply lookup_insert_eq).
    rewrite (set_meta_spec _ _ _ _ _ Ha). eexists. split; [reflexivity|].
    cbn [arrays set_arrays log_call]. rewrite Hw. apply insert_insert_eq.
Qed.

(** The statements of [_write_bytes_to_array] after the target is chosen. *)
Lemma write_steps (uri : string) (B : list Byte.byte) (mimetype format type : pyval)
    (final_array_name : option string) (w : World) (a : BackendArray) :
  arrays w !! uri = Some a ->
  exists w',
    (Tiledb.open uri true;;;
     n <- lift (py_len (PBytes B));;
     Tiledb.write_cells uri (PBytes B);;;
     Tiledb.set_meta uri "file_size" (PInt n);;;
     set_meta_if_given uri "mimetype" mimetype;;;
     set_meta_if_given uri "format" format;;;
     set_meta_if_given uri "type" type;;;
     ret final_array_name)%py w
    = (Ok final_array_name, w') /\
    arrays w'
    = <[uri := mkBackendArray (Tiledb.write_from 0 B (cells a))
                 (merge_meta "type" type
                    (merge_meta "format" format
                       (merge_meta "mimetype" mimetype
                          (<["file_size" := PInt (Z.of_nat (length B))]> (meta a)))))
                 (info a)]> (arrays w).
Proof.
  intros Ha.
  unfold bind at 1. unfold Tiledb.open. cbn [arrays log_call]. rewrite Ha.
  unfold bind at 1. unfold lift at 1. cbn [py_len].
  unfold bind at 1. unfold Tiledb.write_cells. cbn [arrays log_call]. rewrite Ha.
  set (w1 := set_arrays _ _).
  assert (H1 : arrays w1 !! uri
               = Some (mkBackendArray (Tiledb.write_from 0 B (cells a)) (meta a) (info a))).
  { subst w1. cbn [arrays set_arrays log_call]. apply lookup_insert_eq. }
  unfold bind at 1. rewrite (set_meta_spec _ _ _ _ _ H1).
  set (w2 := set_arrays _ _).
  assert (H2 : arrays w2
               = <[uri := mkBackendArray (Tiledb.write_from 0 B (cells a))
                            (<["file_size" := PInt (Z.of_nat (length B))]> (meta a))
                            (info a)]> (arrays w)).
  { subst w2 w1. cbn [arrays set_arrays log_call cells meta info].
    apply insert_insert_eq. }
  destruct (set_meta_if_given_arrays uri "mimetype" mimetype w2 _ _ H2) as (w3 & E3 & H3).
  destruct (set_meta_if_given_arrays uri "format" format w3 _ _ H3) as (w4 & E4 & H4).
  destruct (set_meta_if_given_arrays uri "type" type w4 _ _ H4) as (w5 & E5 & H5).
  cbn [cells meta info] in *.
  unfold bind at 1. rewrite E3.
  unfold bind at 1. rewrite E4.
  unfold bind at 1. rewrite E5.
  exists w5. split; [reflexivity|exact H5].
Qed.

(** A write overwrites the content and [file_size] only: a metadata
    value it is not given ([None]) keeps its stored value, every other
    metadata key, the catalog record of the array and every other array
    are left as they were. *)
Theorem write_keeps_what_it_is_not_given (os_sep : ascii) (fuel : nat)
    (path : string) (B : list Byte.byte) (mimetype format type : pyval)
    (w : World) (uri : string) (a : BackendArray) :
  tiledb_uri_from_path os_sep path = Ok uri ->
  arrays w !! uri = Some a ->
  exists w' a',
    _write_bytes_to_array os_sep fuel false path (PBytes B) mimetype format type w
    = (Ok None, w') /\
    arrays w' !! uri = Some a' /\
    info a' = info a /\
    (forall uri', uri' <> uri -> arrays w' !! uri' = arrays w !! uri') /\
    meta a' !! "mimetype"
    = (if is_none mimetype then meta a !! "mimetype" else Some mimetype) /\
    meta a' !! "format" = (if is_none format then meta a !! "format" else Some format) /\
    meta a' !! "type" = (if is_none type then meta a !! "type" else Some type) /\
    (forall k, k <> "file_size" -> k <> "mimetype" -> k <> "format" -> k <> "type" ->
               meta a' !! k = meta a !! k).
Proof.
  intros Huri Ha. unfold _write_bytes_to_array.
  unfold bind at 1. unfold lift at 1. rewrite Huri.
  unfold bind at 1. unfold ret at 1. cbn [fst snd].
  destruct (write_steps uri B mimetype format type None w a Ha) as (w' & Hrun & Harr).
  rewrite Hrun. eexists w', _. split; [reflexivity|].
  rewrite Harr. split; [apply lookup_insert_eq|]. cbn [info meta].
  split; [reflexivity|].
  split; [intros uri' Hne; now apply lookup_insert_ne|].
  rewrite !merge_meta_lookup.
  repeat (destruct (decide _) as [?|?]; try congruence; try discriminate).
  rewrite !lookup_insert_ne by discriminate.
  repeat split.
  intros k H1 H2 H3 H4. rewrite !merge_meta_lookup.
  repeat (destruct (decide _) as [?|?]; try congruence).
  now rewrite lookup_insert_ne by congruence.
Qed.

Lemma write_keeps_what_it_is_not_given_witness :
  exists w' a',
    _write_bytes_to_array "/" 0 false "cloud/owned/alice/x"
      (PBytes [Byte.x02; Byte.x03]) PNone PNone PNone Sample.one_file
    = (Ok None, w') /\
    arrays w' !! "tiledb://alice/x" = Some a' /\
    meta a' !! "type" = Some (PStr "file").
Proof.
  destruct (write_keeps_what_it_is_not_given "/" 0 "cloud/owned/alice/x"
              [Byte.x02; Byte.x03] PNone PNone PNone Sample.one_file
              "tiledb://alice/x" (Sample.stored "x" [Byte.x01] "file")
              eq_refl eq_refl)
    as (w' & a' & Hrun & Ha' & _ & _ & _ & _ & Hty & _).
  exists w', a'. split; [exact Hrun|]. split; [exact Ha'|].
  rewrite Hty. reflexivity.
Defined.

(** ** Reading *)

(** An array that was created but never written (no [file_size]
    metadata) can be read as a file only.  [_file_from_array] returns a
    model with empty content, whatever the type metadata: nothing is
    sliced, and neither the notebook decoder nor the validator is
    involved.  [_notebook_from_array] hands the empty list to the
    validator and fails with an [AttributeError], which none of its
    handlers turns into an HTTP error. *)
Theorem unwritten_array_reads_as_file_only (os_sep : ascii)
    (reads : list Byte.byte -> Z -> outcome pyval)
    (mark_trusted_cells : pyval -> string -> pyval)
    (validate_notebook_model : list (string * pyval) -> list (string * pyval))
    (path : string) (format : pyval) (w : World) (uri : string) (a : BackendArray) :
  tiledb_uri_from_path os_sep path = Ok uri ->
  arrays w !! uri = Some a ->
  meta a !! "file_size" = None ->
  (exists model,
      _file_from_array os_sep reads mark_trusted_cells validate_notebook_model
        path true format w
      = (Ok model, log_call (CallOpen uri false) (log_call (CallArrayInfo uri) w)) /\
      Dict.get "content" model = Some (PList []) /\
      Dict.get "type" model
      = Some (match meta a !! "type" with Some ty => ty | None => PStr "file" end) /\
      Dict.get "path" model = Some (PStr path)) /\
  _notebook_from_array os_sep reads mark_trusted_cells validate_notebook_model
    path true w
  = (Raise (AttributeError "'list' object has no attribute 'get'"),
     log_call (CallOpen uri false) (log_call (CallArrayInfo uri) w)).
Proof.
  intros Huri Ha Hsize. split.
  - unfold _file_from_array, try_except, bind, lift, ret, Cloud.array_info,
      ask_reply, Tiledb.open.
    rewrite Huri. cbv beta iota zeta. rewrite Ha. cbv beta iota zeta.
    cbn [arrays log_call]. rewrite Ha. cbv beta iota zeta.
    rewrite Hsize. cbv beta iota zeta. cbn [fst snd].
    destruct (meta a !! "type") as [ty|]; eexists; (split; [reflexivity|]).
    + split; [apply dict_get_set_eq|].
      rewrite dict_get_set_ne by reflexivity. split; [apply dict_get_set_eq|].
      rewrite !dict_get_set_ne by reflexivity.
      destruct (meta a !! "format"), (meta a !! "mimetype"),
        (negb (existsb (String.eqb "write") (allowed_actions (info a))));
        rewrite ?dict_get_set_ne by reflexivity; reflexivity.
    + split; [apply dict_get_set_eq|].
      rewrite !dict_get_set_ne by reflexivity.
      destruct (meta a !! "format"), (meta a !! "mimetype"),
        (negb (existsb (String.eqb "write") (allowed_actions (info a))));
        rewrite ?dict_get_set_ne by reflexivity; split; reflexivity.
  - unfold _notebook_from_array, try_except, bind, lift, ret, raise,
      Cloud.array_info, ask_reply, Tiledb.open.
    rewrite Huri. cbv beta iota zeta. rewrite Ha. cbv beta iota zeta.
    cbn [arrays log_call]. rewrite Ha. cbv beta iota zeta.
    rewrite Hsize. reflexivity.
Qed.

Lemma unwritten_array_reads_as_file_only_witness :
  (exists model,
      _file_from_array "/" Sample.reads Sample.mark_trusted_cells
        Sample.validate_notebook_model "cloud/owned/alice/nb" true PNone
        Sample.blank_notebook
      = (Ok model,
         log_call (CallOpen "tiledb://alice/nb" false)
           (log_call (CallArrayInfo "tiledb://alice/nb") Sample.blank_notebook)) /\
      Dict.get "content" model = Some (PList []) /\
      Dict.get "type" model = Some (PStr "file") /\
      Dict.get "path" model = Some (PStr "cloud/owned/alice/nb")) /\
  _notebook_from_array "/" Sample.reads Sample.mark_trusted_cells
    Sample.validate_notebook_model "cloud/owned/alice/nb" true Sample.blank_notebook
  = (Raise (AttributeError "'list' object has no attribute 'get'"),
     log_call (CallOpen "tiledb://alice/nb" false)
       (log_call (CallArrayInfo "tiledb://alice/nb") Sample.blank_notebook)).
Proof.
  apply (unwritten_array_reads_as_file_only "/" Sample.reads
           Sample.mark_trusted_cells Sample.validate_notebook_model
           "cloud/owned/alice/nb" PNone Sample.blank_notebook "tiledb://alice/nb"
           (Tiledb.new_array "alice" "nb"));
    reflexivity.
Defined.

(** The model of a file read carries the catalog's view of the array:
    [writable] is true exactly when ["write"] is among the allowed
    actions, [last_modified] is the record's [last_accessed], and
    [created] stays the fixed dummy date. *)
Theorem file_model_reports_catalog_record (os_sep : ascii)
    (reads : list Byte.byte -> Z -> outcome pyval)
    (mark_trusted_cells : pyval -> string -> pyval)
    (validate_notebook_model : list (string * pyval) -> list (string * pyval))
    (path : string) (format : pyval) (w : World) (uri : string) (a : BackendArray) :
  tiledb_uri_from_path os_sep path = Ok uri ->
  arrays w !! uri = Some a ->
  (forall v, meta a !! "file_size" = Some v -> exists n, v = PInt n) ->
  (forall ty, meta a !! "type" = Some ty -> py_eq_str ty "notebook" = false) ->
  exists model w',
    _file_from_array os_sep reads mark_trusted_cells validate_notebook_model
      path true format w = (Ok model, w') /\
    Dict.get "writable" model
    = Some (PBool (existsb (String.eqb "write") (allowed_actions (info a)))) /\
    Dict.get "last_modified" model = Some (PDate (last_accessed (info a))) /\
    Dict.get "created" model = Some (PDate DUMMY_CREATED_DATE) /\
    Dict.get "path" model = Some (PStr path).
Proof.
  intros Huri Ha Hsize Hty.
  unfold _file_from_array, try_except, bind, lift, ret, Cloud.array_info,
    ask_reply, Tiledb.open.
  rewrite Huri. cbv beta iota zeta. rewrite Ha. cbv beta iota zeta.
  cbn [arrays log_call]. rewrite Ha. cbv beta iota zeta.
  destruct (meta a !! "file_size") as [v|] eqn:Ev.
  - destruct (Hsize v eq_refl) as [n ->]. cbn [Tiledb.read_contents].
    cbv beta iota zeta. cbn [fst snd].
    destruct (meta a !! "type") as [ty|] eqn:Et.
    + rewrite (Hty ty eq_refl).
      destruct (meta a !! "mimetype"), (meta a !! "format"),
        (existsb (String.eqb "write") (allowed_actions (info a)));
        eexists _, _; repeat apply conj; reflexivity.
    + destruct (meta a !! "mimetype"), (meta a !! "format"),
        (existsb (String.eqb "write") (allowed_actions (info a)));
        eexists _, _; repeat apply conj; reflexivity.
  - cbv beta iota zeta. cbn [fst snd].
    destruct (meta a !! "type"), (meta a !! "mimetype"), (meta a !! "format"),
      (existsb (String.eqb "write") (allowed_actions (info a)));
      eexists _, _; repeat apply conj; reflexivity.
Qed.

Lemma file_model_reports_catalog_record_witness :
  exists model w',
    _file_from_array "/" Sample.reads Sample.mark_trusted_cells
      Sample.validate_notebook_model "cloud/owned/alice/x" true PNone
      Sample.one_file = (Ok model, w') /\
    Dict.get "writable" model = Some (PBool true) /\
    Dict.get "last_modified" model = Some (PDate 1000).
Proof.
  destruct (file_model_reports_catalog_record "/" Sample.reads
              Sample.mark_trusted_cells Sample.validate_notebook_model
              "cloud/owned/alice/x" PNone Sample.one_file "tiledb://alice/x"
              (Sample.stored "x" [Byte.x01] "file") eq_refl eq_refl)
    as (model & w' & Hrun & Hw & Hm & _).
  - intros v Hv. vm_compute in Hv. injection Hv as <-. now eexists.
  - intros ty Hv. vm_compute in Hv. injection Hv as <-. reflexivity.
  - exists model, w'. split; [exact Hrun|]. split; [exact Hw|exact Hm].
Defined.

(** ** Writes and reads composed *)

(** A first save ([_is_new] true) on a free name creates the array
    under the requested name, reports that name, and a read of the same
    path returns the bytes just written. *)
Theorem first_write_creates_then_round_trips (os_sep : ascii)
    (reads : list Byte.byte -> Z -> outcome pyval)
    (mark_trusted_cells : pyval -> string -> pyval)
    (validate_notebook_model : list (string * pyval) -> list (string * pyval))
    (fuel : nat) (path : string) (B : list Byte.byte)
    (mimetype format read_format : pyval) (ns nm pre : string) (w : World)
    (p : UserProfile) :
  tiledb_uri_from_path os_sep path = Ok (array_uri ns nm) ->
  free_of "/" ns = true -> free_of "/" nm = true ->
  user_profile w = Reply p -> username p = ns ->
  s3_path_of (notebook_settings p) = Some (pre +:+ "/") ->
  create_faults w = [] ->
  arrays w !! array_uri ns nm = None ->
  exists w1 model w2,
    _write_bytes_to_array os_sep (S fuel) true path (PBytes B) mimetype format
      (PStr "file") w = (Ok (Some nm), w1) /\
    _file_from_array os_sep reads mark_trusted_cells validate_notebook_model
      path true read_format w1 = (Ok model, w2) /\
    Dict.get "content" model = Some (PBytes B).
Proof.
  intros Huri Hns Hnm Hp Hu Hs Hf Ha.
  unfold _write_bytes_to_array.
  unfold bind at 1. unfold lift at 1. rewrite Huri.
  unfold bind at 1. unfold bind at 1.
  rewrite (create_succeeds fuel ns nm pre 5 w p) by assumption.
  unfold ret at 1. cbn [fst snd].
  set (w0 := set_arrays _ _).
  assert (H0 : arrays w0 !! array_uri ns nm
               = Some (mkBackendArray ∅ ∅
                         (mkArrayInfo nm ns 0 ["read"; "write"] [TAG_JUPYTER_NOTEBOOK]))).
  { subst w0. cbn [arrays set_arrays log_call]. apply lookup_insert_eq. }
  destruct (write_steps (array_uri ns nm) B mimetype format (PStr "file") (Some nm)
              w0 _ H0) as (w1 & Hrun & Harr).
  rewrite Hrun.
  assert (H1 : arrays w1 !! array_uri ns nm
               = Some (mkBackendArray (Tiledb.write_from 0 B ∅)
                         (merge_meta "type" (PStr "file")
                            (merge_meta "format" format
                               (merge_meta "mimetype" mimetype
                                  (<["file_size" := PInt (Z.of_nat (length B))]> ∅))))
                         (mkArrayInfo nm ns 0 ["read"; "write"] [TAG_JUPYTER_NOTEBOOK]))).
  { rewrite Harr. apply lookup_insert_eq. }
  destruct (file_from_array_bytes os_sep reads mark_trusted_cells
              validate_notebook_model path read_format w1 _ _
              (Z.of_nat (length B)) Huri H1) as (w2 & Hbytes & _).
  { cbn [meta]. rewrite !merge_meta_lookup.
    repeat (destruct (decide _) as [?|?]; try discriminate).
    apply lookup_insert_eq. }
  destruct Hbytes as (model & Hread & Hcontent).
  { cbn [meta]. rewrite merge_meta_lookup.
    destruct (decide _) as [?|?]; [reflexivity|congruence]. }
  cbn [cells] in Hcontent. rewrite read_range_write in Hcontent.
  exists w1, model, w2. split; [reflexivity|]. split; [exact Hread|exact Hcontent].
Qed.

Lemma first_write_creates_then_round_trips_witness :
  exists w1 model w2,
    _write_bytes_to_array "/" 1 true "cloud/owned/alice/fresh"
      (PBytes [Byte.x02; Byte.x03]) PNone PNone (PStr "file") Sample.one_file
    = (Ok (Some "fresh"), w1) /\
    _file_from_array "/" Sample.reads Sample.mark_trusted_cells
      Sample.validate_notebook_model "cloud/owned/alice/fresh" true PNone w1
    = (Ok model, w2) /\
    Dict.get "content" model = Some (PBytes [Byte.x02; Byte.x03]).
Proof.
  apply (first_write_creates_then_round_trips "/" Sample.reads
           Sample.mark_trusted_cells Sample.validate_notebook_model 0
           "cloud/owned/alice/fresh" [Byte.x02; Byte.x03] PNone PNone PNone
           "alice" "fresh" "s3://bucket/notebooks" Sample.one_file Sample.alice);
    reflexivity.
Defined.

(** Saves overwrite wholesale: after two writes to the same existing
    array a read returns the bytes of the second write only, also when
    it is shorter than the first. *)
Theorem last_write_wins (os_sep : ascii)
    (reads : list Byte.byte -> Z -> outcome pyval)
    (mark_trusted_cells : pyval -> string -> pyval)
    (validate_notebook_model : list (string * pyval) -> list (string * pyval))
    (fuel : nat) (path : string) (B1 B2 : list Byte.byte)
    (mimetype1 format1 type1 mimetype2 format2 read_format : pyval)
    (w : World) (uri : string) (a : BackendArray) :
  tiledb_uri_from_path os_sep path = Ok uri ->
  arrays w !! uri = Some a ->
  exists w1 w2 model w3,
    _write_bytes_to_array os_sep fuel false path (PBytes B1) mimetype1 format1 type1 w
    = (Ok None, w1) /\
    _write_bytes_to_array os_sep fuel false path (PBytes B2) mimetype2 format2
      (PStr "file") w1 = (Ok None, w2) /\
    _file_from_array os_sep reads mark_trusted_cells validate_notebook_model
      path true read_format w2 = (Ok model, w3) /\
    Dict.get "content" model = Some (PBytes B2).
Proof.
  intros Huri Ha.
  destruct (write_existing_spec os_sep fuel path B1 mimetype1 format1 type1 w uri a
              Huri Ha) as (w1 & a1 & Hw1 & Ha1 & _).
  destruct (write_existing_spec os_sep fuel path B2 mimetype2 format2 (PStr "file")
              w1 uri a1 Huri Ha1)
    as (w2 & a2 & Hw2 & Ha2 & Hc2 & _ & Hsize2 & _ & _ & Hty2).
  destruct (file_from_array_bytes os_sep reads mark_trusted_cells
              validate_notebook_model path read_format w2 uri a2 _ Huri Ha2 Hsize2)
    as (w3 & Hbytes & _).
  destruct Hbytes as (model & Hread & Hcontent).
  { rewrite Hty2. reflexivity. }
  rewrite Hc2, read_range_write in Hcontent.
  exists w1, w2, model, w3. repeat apply conj; assumption.
Qed.

Lemma last_write_wins_witness :
  exists w1 w2 model w3,
    _write_bytes_to_array "/" 0 false "cloud/owned/alice/x"
      (PBytes [Byte.x02; Byte.x03; Byte.x04]) PNone PNone PNone Sample.one_file
    = (Ok None, w1) /\
    _write_bytes_to_array "/" 0 false "cloud/owned/alice/x"
      (PBytes [Byte.x05]) PNone PNone (PStr "file") w1 = (Ok None, w2) /\
    _file_from_array "/" Sample.reads Sample.mark_trusted_cells
      Sample.validate_notebook_model "cloud/owned/alice/x" true PNone w2
    = (Ok model, w3) /\
    Dict.get "content" model = Some (PBytes [Byte.x05]).
Proof.
  apply (last_write_wins "/" Sample.reads Sample.mark_trusted_cells
           Sample.validate_notebook_model 0 "cloud/owned/alice/x"
           [Byte.x02; Byte.x03; Byte.x04] [Byte.x05] PNone PNone PNone PNone PNone
           PNone Sample.one_file "tiledb://alice/x"
           (Sample.stored "x" [Byte.x01] "file"));
    reflexivity.
Defined.

(** ** Deleting, renaming, existence *)

Lemma py_index_last {A} (l : list A) (d : A) :
  l <> [] -> py_index l (Z.of_nat (length l) - 1) = Ok (List.last l d).
Proof.
  intros Hne. destruct (exists_last Hne) as [pre [x ->]].
  rewrite last_last. apply py_index_lookup.
  - rewrite length_app. simpl. lia.
  - rewrite length_app. simpl length.
    replace (Z.to_nat (Z.of_nat (length pre + 1) - 1)) with (length pre + 0)%nat by lia.
    rewrite lookup_app_r by lia.
    now replace (length pre + 0 - length pre)%nat with 0%nat by lia.
Qed.

Lemma file_exists_remote (os_sep : ascii) (super_file_exists : string -> bool)
    (path : string) (w : World) (uri : string) :
  _is_remote_path os_sep (PyStr.strip "/" path) = true ->
  tiledb_uri_from_path os_sep (strip_notebook_ext (PyStr.strip "/" path)) = Ok uri ->
  fst (file_exists os_sep super_file_exists path w)
  = Ok (match arrays w !! uri with Some _ => true | None => false end).
Proof.
  intros Hr Huri. unfold file_exists. rewrite Hr.
  unfold _array_exists, try_except, bind, lift, Cloud.array_info, ask_reply.
  rewrite Huri. cbv beta iota zeta.
  destruct (arrays w !! uri); reflexivity.
Qed.

(** Deleting a remote leaf deregisters exactly the array its path
    resolves to: every other array stays, the path no longer exists
    afterwards, and deleting it a second time fails with status 500. *)
Theorem delete_deregisters_only_that_array (os_sep : ascii)
    (super_delete_file : string -> outcome unit)
    (super_file_exists : string -> bool) (path : string) (w : World)
    (uri : string) (a : BackendArray) :
  _is_remote_path os_sep (PyStr.strip "/" path) = true ->
  tiledb_uri_from_path os_sep (strip_notebook_ext (PyStr.strip "/" path)) = Ok uri ->
  arrays w !! uri = Some a ->
  exists w',
    delete_file os_sep super_delete_file path w = (Ok tt, w') /\
    arrays w' = delete uri (arrays w) /\
    fst (file_exists os_sep super_file_exists path w) = Ok true /\
    fst (file_exists os_sep super_file_exists path w') = Ok false /\
    fst (delete_file os_sep super_delete_file path w')
    = Raise (HTTPError 500 ("Error deregistering " +:+ uri +:+ ": ")).
Proof.
  intros Hr Huri Ha.
  exists (set_arrays (delete uri) (log_call (CallDeregisterArray uri) w)).
  split.
  { unfold delete_file, try_except, bind, lift, Cloud.array_deregister_array.
    rewrite Hr, Huri. cbv beta iota zeta. cbn [arrays log_call]. now rewrite Ha. }
  split; [reflexivity|].
  split. { rewrite (file_exists_remote _ _ _ _ uri Hr Huri). now rewrite Ha. }
  split.
  { rewrite (file_exists_remote _ _ _ _ uri Hr Huri).
    cbn [arrays set_arrays log_call]. now rewrite lookup_delete_eq. }
  apply delete_reports_catalog_failure_as_500; try assumption.
  cbn [arrays set_arrays log_call]. apply lookup_delete_eq.
Qed.

Lemma delete_deregisters_only_that_array_witness :
  exists w',
    delete_file "/" (fun _ => Ok tt) "/cloud/owned/alice/x.ipynb" Sample.one_file
    = (Ok tt, w') /\
    arrays w' = delete "tiledb://alice/x" (arrays Sample.one_file) /\
    fst (file_exists "/" Sample.super_exists "/cloud/owned/alice/x.ipynb"
           Sample.one_file) = Ok true /\
    fst (file_exists "/" Sample.super_exists "/cloud/owned/alice/x.ipynb" w')
    = Ok false /\
    fst (delete_file "/" (fun _ => Ok tt) "/cloud/owned/alice/x.ipynb" w')
    = Raise (HTTPError 500 "Error deregistering tiledb://alice/x: ").
Proof.
  apply (delete_deregisters_only_that_array "/" (fun _ => Ok tt) Sample.super_exists
           "/cloud/owned/alice/x.ipynb" Sample.one_file "tiledb://alice/x"
           (Sample.stored "x" [Byte.x01] "file"));
    reflexivity.
Defined.

(** Of the new path, a rename uses the last ["/"]-segment only, taken
    verbatim (a trailing [.ipynb] is kept, whereas it is stripped from
    the old path): the catalog is asked to rename the old path's array
    to that segment, and new paths that agree on it are interchangeable. *)
Theorem rename_uses_last_segment_only (os_sep : ascii)
    (super_rename : string -> string -> outcome unit)
    (old_path new_path : string) (w : World) (uri : string) :
  _is_remote_path os_sep (PyStr.strip "/" old_path) = true ->
  tiledb_uri_from_path os_sep (strip_notebook_ext (PyStr.strip "/" old_path)) = Ok uri ->
  calls (snd (rename_file os_sep super_rename old_path new_path w))
  = CallRenameNotebook uri (List.last (PyStr.split "/" new_path) EmptyString)
      :: calls w /\
  (forall new_path',
      List.last (PyStr.split "/" new_path') EmptyString
      = List.last (PyStr.split "/" new_path) EmptyString ->
      rename_file os_sep super_rename old_path new_path' w
      = rename_file os_sep super_rename old_path new_path w).
Proof.
  intros Hr Huri.
  assert (Heval : forall np,
             rename_file os_sep super_rename old_path np w
             = try_except
                 (notebook_rename_notebook uri
                    (List.last (PyStr.split "/" np) EmptyString))
                 (fun e =>
                    match e with
                    | TileDBCloudError msg =>
                        raise (http_error 500 ("Error renaming " +:+ uri +:+ ": "))
                    | TileDBError msg => raise (http_error 500 msg)
                    | _ => raise e
                    end) w).
  { intros np. unfold rename_file. rewrite Hr.
    unfold bind at 1. unfold lift at 1. rewrite Huri.
    unfold bind at 1. unfold lift at 1.
    rewrite (py_index_last _ EmptyString (split_nonempty "/" np)). reflexivity. }
  split.
  - rewrite Heval. unfold try_except, notebook_rename_notebook.
    cbn [arrays log_call]. destruct (arrays w !! uri); reflexivity.
  - intros np Hlast. rewrite !Heval, Hlast. reflexivity.
Qed.

Lemma rename_uses_last_segment_only_witness :
  calls (snd (rename_file "/" (fun _ _ => Ok tt) "cloud/owned/alice/x.ipynb"
                "cloud/shared/bob/y.ipynb" Sample.one_file))
  = [CallRenameNotebook "tiledb://alice/x" "y.ipynb"].
Proof.
  apply (rename_uses_last_segment_only "/" (fun _ _ => Ok tt)
           "cloud/owned/alice/x.ipynb" "cloud/shared/bob/y.ipynb" Sample.one_file
           "tiledb://alice/x"); reflexivity.
Defined.

Lemma guess_type_remote_value (os_sep : ascii) (super_dir_exists : string -> bool)
    (path : string) (allow_directory : bool) (w : World) (uri : string) :
  _is_remote_path os_sep (PyStr.strip "/" path) = true ->
  _is_remote_dir os_sep (PyStr.strip "/" path) = false ->
  tiledb_uri_from_path os_sep (strip_notebook_ext (PyStr.strip "/" path)) = Ok uri ->
  fst (guess_type os_sep super_dir_exists path allow_directory w)
  = Ok match arrays w !! uri with
       | Some a =>
           match meta a !! "type" with
           | Some v => v
           | None => PNone
           end
       | None => PStr "directory"
       end.
Proof.
  intros Hr Hd Huri. unfold guess_type. rewrite Hr, Hd.
  unfold try_except, bind, lift, _get_type, try_except, bind, Tiledb.open.
  rewrite Huri. cbv beta iota zeta. cbn [arrays log_call].
  destruct (arrays w !! uri) as [a|]; [|reflexivity].
  destruct (meta a !! "type"); reflexivity.
Qed.

(** After a write that records a type, [guess_type] on any leaf path
    resolving to the same array answers that type, and [_get_mimetype]
    answers the mimetype the write was given. *)
Theorem classification_follows_last_write (os_sep : ascii)
    (super_dir_exists : string -> bool) (fuel : nat) (write_path path : string)
    (B : list Byte.byte) (mimetype format type : pyval) (allow_directory : bool)
    (w : World) (uri : string) (a : BackendArray) :
  tiledb_uri_from_path os_sep write_path = Ok uri ->
  _is_remote_path os_sep (PyStr.strip "/" path) = true ->
  _is_remote_dir os_sep (PyStr.strip "/" path) = false ->
  tiledb_uri_from_path os_sep (strip_notebook_ext (PyStr.strip "/" path)) = Ok uri ->
  arrays w !! uri = Some a ->
  is_none type = false -> is_none mimetype = false ->
  exists w',
    _write_bytes_to_array os_sep fuel false write_path (PBytes B) mimetype format
      type w = (Ok None, w') /\
    fst (guess_type os_sep super_dir_exists path allow_directory w') = Ok type /\
    fst (_get_mimetype uri w') = Ok mimetype.
Proof.
  intros Hw Hr Hd Huri Ha Hty Hmt.
  destruct (write_existing_spec os_sep fuel write_path B mimetype format type w uri a
              Hw Ha) as (w' & a' & Hrun & Ha' & _ & _ & _ & Hm & _ & Ht).
  exists w'. split; [exact Hrun|]. split.
  - rewrite (guess_type_remote_value _ _ _ _ _ uri Hr Hd Huri), Ha', Ht, Hty.
    reflexivity.
  - unfold _get_mimetype, try_except, bind, Tiledb.open.
    cbn [arrays log_call]. rewrite Ha'. cbv beta iota. rewrite Hm, Hmt. reflexivity.
Qed.

Lemma classification_follows_last_write_witness :
  exists w',
    _write_bytes_to_array "/" 0 false "cloud/owned/alice/x"
      (PBytes [Byte.x7b; Byte.x7d]) (PStr NOTEBOOK_MIME) PNone (PStr "notebook")
      Sample.one_file = (Ok None, w') /\
    fst (guess_type "/" Sample.super_exists "/cloud/owned/alice/x.ipynb" true w')
    = Ok (PStr "notebook") /\
    fst (_get_mimetype "tiledb://alice/x" w') = Ok (PStr NOTEBOOK_MIME).
Proof.
  apply (classification_follows_last_write "/" Sample.super_exists 0
           "cloud/owned/alice/x" "/cloud/owned/alice/x.ipynb" [Byte.x7b; Byte.x7d]
           (PStr NOTEBOOK_MIME) PNone (PStr "notebook") true Sample.one_file
           "tiledb://alice/x" (Sample.stored "x" [Byte.x01] "file"));
    reflexivity.
Defined.

(** ** Namespace listings *)

Lemma all_writable_negb (records : list ArrayInfo) :
  negb (existsb (fun nb => negb (existsb (String.eqb "write") (allowed_actions nb)))
          records)
  = forallb (fun nb => existsb (String.eqb "write") (allowed_actions nb)) records.
Proof.
  induction records as [|r records IH]; [reflexivity|].
  cbn [existsb forallb]. rewrite negb_orb, negb_involutive, IH. reflexivity.
Qed.

(** A namespace listing has exactly one leaf per catalog record, in the
    catalog's order and without merging equal names; each leaf is a
    notebook whose path is [cloud/<category>/<namespace>/<name>.ipynb],
    and the directory is writable only if every record allows ["write"]. *)
Theorem list_namespace_one_leaf_per_record (category ns : string)
    (records : list ArrayInfo) (w : World) :
  category = "owned" \/ category = "shared" \/ category = "public" ->
  listing_of category w (Some ns) = Reply (Some records) ->
  exists model w',
    __list_namespace category ns true w = (Ok model, w') /\
    Dict.get "content" model
    = Some (PList (map (fun nb => PDict (namespace_entry category ns nb)) records)) /\
    Dict.get "writable" model
    = Some (PBool (forallb (fun nb => existsb (String.eqb "write") (allowed_actions nb))
                     records)) /\
    Dict.get "path" model = Some (PStr ("cloud/" +:+ category +:+ "/" +:+ ns)) /\
    (forall nb,
        Dict.get "path" (namespace_entry category ns nb)
        = Some (PStr ("cloud/" +:+ category +:+ "/" +:+ ns +:+ "/" +:+ name nb
                        +:+ ".ipynb")) /\
        Dict.get "type" (namespace_entry category ns nb) = Some (PStr "notebook") /\
        Dict.get "last_modified" (namespace_entry category ns nb)
        = Some (PDate (last_accessed nb))).
Proof.
  intros Hcat Hl.
  assert (Hrun : exists w',
             __list_namespace category ns true w
             = (Ok (Dict.set "content"
                      (PList (map (fun nb => PDict (namespace_entry category ns nb))
                                records))
                      (if existsb
                            (fun nb => negb (existsb (String.eqb "write")
                                               (allowed_actions nb))) records
                       then Dict.set "writable" (PBool false)
                              (Dict.set "content" (PList [])
                                 (Dict.set "format" (PStr "json")
                                    (Dict.set "path"
                                       (PStr ("cloud/" +:+ category +:+ "/" +:+ ns))
                                       (base_directory_model ns))))
                       else Dict.set "content" (PList [])
                              (Dict.set "format" (PStr "json")
                                 (Dict.set "path"
                                    (PStr ("cloud/" +:+ category +:+ "/" +:+ ns))
                                    (base_directory_model ns))))), w')).
  { unfold __list_namespace, try_except, bind, ret.
    destruct Hcat as [-> | [-> | ->]]; unfold listing_of in Hl; cbn in Hl;
      unfold Cloud.client_list_arrays, Cloud.client_list_shared_arrays,
        Cloud.client_list_public_arrays, ask_reply;
      cbn [String.eqb Ascii.eqb Bool.eqb]; cbv beta iota; rewrite Hl;
      eexists; reflexivity. }
  destruct Hrun as [w' Hrun]. eexists _, w'. split; [exact Hrun|].
  split; [apply dict_get_set_eq|].
  split.
  { rewrite <- all_writable_negb.
    destruct (existsb _ records); reflexivity. }
  split.
  { destruct (existsb _ records); reflexivity. }
  intros nb. repeat apply conj; reflexivity.
Qed.

Lemma list_namespace_one_leaf_per_record_witness :
  exists model w',
    __list_namespace "shared" "bob" true Sample.listed = (Ok model, w') /\
    Dict.get "content" model
    = Some (PList (map (fun nb => PDict (namespace_entry "shared" "bob" nb))
                     [Sample.record "bob" "a"; Sample.record "carol" "b";
                      Sample.record "bob" "c"])) /\
    Dict.get "writable" model = Some (PBool false).
Proof.
  destruct (list_namespace_one_leaf_per_record "shared" "bob"
              [Sample.record "bob" "a"; Sample.record "carol" "b";
               Sample.record "bob" "c"] Sample.listed)
    as (model & w' & Hrun & Hc & Hw & _).
  - right. left. reflexivity.
  - reflexivity.
  - exists model, w'. split; [exact Hrun|]. split; [exact Hc|exact Hw].
Defined.

Lemma string_length_app (a b : string) :
  String.length (a +:+ b) = (String.length a + String.length b)%nat.
Proof. induction a as [|x a IH]; simpl; [reflexivity|]. now rewrite IH. Qed.

Lemma substring_app_suffix (a b : string) :
  String.substring (String.length a) (String.length b) (a +:+ b) = b.
Proof.
  induction a as [|x a IH]; simpl.
  - induction b as [|y b IHb]; simpl; [reflexivity|]. now rewrite IHb.
  - exact IH.
Qed.

Lemma substring_app_prefix (a b : string) :
  String.substring 0 (String.length a) (a +:+ b) = a.
Proof.
  induction a as [|x a IH]; simpl.
  - now destruct b.
  - now rewrite IH.
Qed.

(** Stripping the notebook extension undoes appending it. *)
Lemma strip_notebook_ext_app (s : string) :
  strip_notebook_ext (s +:+ ".ipynb") = s.
Proof.
  unfold strip_notebook_ext, PyStr.endswith, PyStr.drop_last, NOTEBOOK_EXT.
  rewrite string_length_app.
  replace (String.length s + String.length ".ipynb" - String.length ".ipynb")%nat
    with (String.length s) by lia.
  rewrite substring_app_suffix, substring_app_prefix.
  replace (String.length ".ipynb" <=? String.length s + String.length ".ipynb")%nat
    with true by (symmetry; apply Nat.leb_le; lia).
  reflexivity.
Qed.

Lemma split_cloud_path (category ns nm : string) :
  free_of "/" category = true -> free_of "/" ns = true -> free_of "/" nm = true ->
  PyStr.split "/" ("cloud/" +:+ category +:+ "/" +:+ ns +:+ "/" +:+ nm)
  = ["cloud"; category; ns; nm].
Proof.
  intros Hc Hns Hnm.
  change ("cloud/" +:+ category +:+ "/" +:+ ns +:+ "/" +:+ nm)
    with ("cloud" +:+ String "/" (category +:+ String "/" (ns +:+ String "/" nm))).
  rewrite split_app_sep by reflexivity.
  rewrite split_app_sep by assumption.
  rewrite split_app_sep by assumption.
  now rewrite split_free by assumption.
Qed.

(** The path a namespace listing reports for a record leads back to the
    record: with its [.ipynb] stripped, as [get], [delete_file] and
    [rename_file] do, it resolves to [tiledb://<namespace>/<name>]. *)
Theorem listed_leaf_path_resolves_to_record (category ns : string) (nb : ArrayInfo) :
  free_of "/" category = true -> free_of "/" ns = true ->
  free_of "/" (name nb) = true ->
  exists leaf_path,
    Dict.get "path" (namespace_entry category ns nb) = Some (PStr leaf_path) /\
    _is_remote_dir "/" (strip_notebook_ext leaf_path) = false /\
    tiledb_uri_from_path "/" (strip_notebook_ext leaf_path)
    = Ok (array_uri ns (name nb)).
Proof.
  intros Hc Hns Hnm.
  exists (("cloud/" +:+ category +:+ "/" +:+ ns +:+ "/" +:+ name nb) +:+ ".ipynb").
  split.
  { cbn [namespace_entry]. unfold namespace_entry.
    rewrite dict_get_set_ne by reflexivity.
    rewrite dict_get_set_ne by reflexivity.
    rewrite dict_get_set_eq. unfold NOTEBOOK_EXT.
    do 2 f_equal. now rewrite !append_assoc. }
  rewrite strip_notebook_ext_app. split.
  - unfold _is_remote_dir. cbn [existsb].
    now rewrite (split_cloud_path _ _ _ Hc Hns Hnm).
  - apply (tiledb_uri_from_segments "/" _ ["cloud"; category]).
    + now apply split_cloud_path.
    + now left.
Qed.

Lemma listed_leaf_path_resolves_to_record_witness :
  exists leaf_path,
    Dict.get "path" (namespace_entry "shared" "bob" (Sample.record "bob" "a"))
    = Some (PStr leaf_path) /\
    _is_remote_dir "/" (strip_notebook_ext leaf_path) = false /\
    tiledb_uri_from_path "/" (strip_notebook_ext leaf_path) = Ok "tiledb://bob/a".
Proof.
  apply (listed_leaf_path_resolves_to_record "shared" "bob" (Sample.record "bob" "a"));
    reflexivity.
Defined.

(** ** Listings and the catalog's answers *)

(** Every listing reports a failed catalog call as status 500.  The
    namespace listing's message names the namespace but drops the
    catalog's own message; the category and root listings keep it. *)
Theorem listings_report_catalog_failure_as_500 (category ns msg : string)
    (content : bool) (w : World) :
  category = "owned" \/ category = "shared" \/ category = "public" ->
  (listing_of category w (Some ns) = CloudFailure msg ->
   fst (__list_namespace category ns content w)
   = Raise (HTTPError 500 ("Error listing notebooks in " +:+ ns +:+ ": "))) /\
  (category <> "owned" -> listing_of category w None = CloudFailure msg ->
   fst (__list_category category content w)
   = Raise (HTTPError 500
              ("Error listing notebooks in " +:+ category +:+ ": " +:+ msg))) /\
  (list_arrays w None = CloudFailure msg ->
   fst (__build_cloud_notebook_lists w)
   = Raise (HTTPError 500 ("Error building cloud notebook info: " +:+ msg))).
Proof.
  intros Hcat. split; [|split].
  - intros Hl. unfold __list_namespace, try_except, bind.
    destruct Hcat as [-> | [-> | ->]]; unfold listing_of in Hl; cbn in Hl;
      unfold Cloud.client_list_arrays, Cloud.client_list_shared_arrays,
        Cloud.client_list_public_arrays, ask_reply;
      cbn [String.eqb Ascii.eqb Bool.eqb]; cbv beta iota; rewrite Hl; reflexivity.
  - intros Hne Hl. unfold __list_category, try_except, bind.
    destruct Hcat as [-> | [-> | ->]]; [congruence| |]; unfold listing_of in Hl;
      cbn in Hl;
      unfold Cloud.client_list_shared_arrays, Cloud.client_list_public_arrays,
        ask_reply;
      cbn [String.eqb Ascii.eqb Bool.eqb]; cbv beta iota; rewrite Hl; reflexivity.
  - intros Hl. unfold __build_cloud_notebook_lists, try_except, bind,
      Cloud.client_list_arrays, ask_reply. rewrite Hl. reflexivity.
Qed.

Lemma listings_report_catalog_failure_as_500_witness :
  fst (__list_namespace "shared" "bob" true Sample.outage)
  = Raise (HTTPError 500 "Error listing notebooks in bob: ") /\
  fst (__list_category "shared" true Sample.outage)
  = Raise (HTTPError 500 "Error listing notebooks in shared: unreachable") /\
  fst (__build_cloud_notebook_lists Sample.outage)
  = Raise (HTTPError 500 "Error building cloud notebook info: unreachable").
Proof.
  destruct (listings_report_catalog_failure_as_500 "shared" "bob" "unreachable" true
              Sample.outage) as (H1 & H2 & H3).
  - right. left. reflexivity.
  - split; [apply H1; reflexivity|].
    split; [apply H2; [discriminate|reflexivity] | apply H3; reflexivity].
Defined.

(** When the catalog answers [None] instead of a list, the namespace
    listing shows an empty directory, but the category listing of
    [shared] or [public] iterates over it and raises an unwrapped
    [TypeError]; asked without content, it returns normally. *)
Theorem none_listing_breaks_category_listing (category ns : string) (w : World) :
  category = "shared" \/ category = "public" ->
  listing_of category w (Some ns) = Reply None ->
  listing_of category w None = Reply None ->
  (exists model w',
      __list_namespace category ns true w = (Ok model, w') /\
      Dict.get "content" model = Some (PList [])) /\
  fst (__list_category category true w)
  = Raise (TypeError "'NoneType' object is not iterable") /\
  (exists model, fst (__list_category category false w) = Ok model).
Proof.
  intros Hcat Hns Hl. split; [|split].
  - unfold __list_namespace, try_except, bind, ret.
    destruct Hcat as [-> | ->]; unfold listing_of in Hns; cbn in Hns;
      unfold Cloud.client_list_shared_arrays, Cloud.client_list_public_arrays,
        ask_reply;
      cbn [String.eqb Ascii.eqb Bool.eqb]; cbv beta iota; rewrite Hns;
      eexists _, _; (split; [reflexivity|]); apply dict_get_set_eq.
  - unfold __list_category, try_except, bind, ret.
    destruct Hcat as [-> | ->]; unfold listing_of in Hl; cbn in Hl;
      unfold Cloud.client_list_shared_arrays, Cloud.client_list_public_arrays,
        ask_reply;
      cbn [String.eqb Ascii.eqb Bool.eqb andb]; cbv beta iota; rewrite Hl;
      reflexivity.
  - unfold __list_category, try_except, bind, ret.
    destruct Hcat as [-> | ->]; unfold listing_of in Hl; cbn in Hl;
      unfold Cloud.client_list_shared_arrays, Cloud.client_list_public_arrays,
        ask_reply;
      cbn [String.eqb Ascii.eqb Bool.eqb andb]; cbv beta iota; rewrite Hl;
      eexists; reflexivity.
Qed.

Lemma none_listing_breaks_category_listing_witness :
  fst (__list_category "public" true Sample.none_listed)
  = Raise (TypeError "'NoneType' object is not iterable").
Proof.
  destruct (none_listing_breaks_category_listing "public" "bob" Sample.none_listed)
    as (_ & H & _); [right; reflexivity | reflexivity | reflexivity | exact H].
Defined.

(** ** Category listings *)

(** Listing [cloud/shared] or [cloud/public] yields one read-only node
    per namespace that occurs among the catalog's records: a namespace
    with several records is listed once, and no other node appears. *)
Theorem category_listing_groups_by_namespace (category : string)
    (records : list ArrayInfo) (w : World) :
  category = "shared" \/ category = "public" ->
  listing_of category w None = Reply (Some records) ->
  exists model nss,
    fst (__list_category category true w) = Ok model /\
    Dict.get "content" model
    = Some (PList (map (fun ns => PDict (namespace_node category ns false)) nss)) /\
    NoDup nss /\
    (forall ns, ns ∈ nss <-> exists r, r ∈ records /\ namespace r = ns) /\
    (forall ns,
        Dict.get "writable" (namespace_node category ns false) = Some (PBool false) /\
        Dict.get "path" (namespace_node category ns false)
        = Some (PStr ("cloud/" +:+ category +:+ "/" +:+ ns))).
Proof.
  intros Hcat Hl.
  assert (Hrun : exists model,
             fst (__list_category category true w) = Ok model /\
             Dict.get "content" model
             = Some (PList (map (fun ns => PDict (namespace_node category ns false))
                              (distinct [] (map namespace records))))).
  { destruct Hcat as [-> | ->]; unfold listing_of in Hl; cbn in Hl.
    - destruct (list_category_shared_groups records w Hl) as (model & Hrun & Hc).
      exists model. now rewrite Hrun.
    - destruct (list_category_public_groups records w Hl) as (model & Hrun & Hc).
      exists model. now rewrite Hrun. }
  destruct Hrun as (model & Hrun & Hc).
  exists model, (distinct [] (map namespace records)).
  split; [exact Hrun|]. split; [exact Hc|].
  split; [apply distinct_NoDup, NoDup_nil_2|].
  split.
  - intros ns. rewrite distinct_elem_of. split.
    + intros [H|H]; [now apply elem_of_nil in H|].
      apply list_elem_of_In, in_map_iff in H as (r & Hr & Hin).
      exists r. split; [now apply list_elem_of_In|exact Hr].
    + intros (r & Hin & Hr). right. apply list_elem_of_In, in_map_iff.
      exists r. split; [exact Hr|now apply list_elem_of_In].
  - intros ns. split; reflexivity.
Qed.

Lemma category_listing_groups_by_namespace_witness :
  exists model nss,
    fst (__list_category "shared" true Sample.listed) = Ok model /\
    Dict.get "content" model
    = Some (PList (map (fun ns => PDict (namespace_node "shared" ns false)) nss)) /\
    NoDup nss /\
    (forall ns, ns ∈ nss <->
                exists r, r ∈ [Sample.record "bob" "a"; Sample.record "carol" "b";
                               Sample.record "bob" "c"] /\ namespace r = ns).
Proof.
  destruct (category_listing_groups_by_namespace "shared"
              [Sample.record "bob" "a"; Sample.record "carol" "b"; Sample.record "bob" "c"]
              Sample.listed) as (model & nss & H1 & H2 & H3 & H4 & _).
  - left. reflexivity.
  - reflexivity.
  - exists model, nss. repeat apply conj; assumption.
Defined.

Lemma add_organizations_distinct (category : string) (orgs : list Organization)
    (ks : list string) :
  add_organizations category orgs
    (map (fun ns => (ns, namespace_node category ns true)) ks)
  = map (fun ns => (ns, namespace_node category ns true))
      (distinct ks
         (List.filter (fun n => negb (String.eqb n "public"))
            (map organization_name orgs))).
Proof.
  revert ks. induction orgs as [|org orgs IH]; intros ks; [reflexivity|].
  cbn [add_organizations map List.filter].
  destruct (String.eqb (organization_name org) "public"); cbn [negb].
  - apply IH.
  - cbn [distinct].
    rewrite (dict_set_tagged (fun ns => namespace_node category ns true)).
    apply IH.
Qed.

Lemma distinct_head (x : string) (seen l : list string) :
  head (distinct (x :: seen) l) = Some x.
Proof.
  revert seen. induction l as [|y l IH]; intros seen; [reflexivity|].
  cbn [distinct]. destruct (existsb (String.eqb y) (x :: seen)); apply IH.
Qed.

(** Listing [cloud/owned] is built from the profile alone: the user's
    own namespace comes first (whatever its name), followed by one
    writable node per organization not named [public], each namespace
    once.  What the catalog holds for the user plays no part. *)
Theorem owned_listing_comes_from_profile (w : World) (p : UserProfile) :
  user_profile w = Reply p ->
  exists model nss,
    __list_category "owned" true w = (Ok model, log_call CallUserProfile w) /\
    Dict.get "content" model
    = Some (PList (map (fun ns => PDict (namespace_node "owned" ns true)) nss)) /\
    head nss = Some (username p) /\
    NoDup nss /\
    (forall ns,
        ns ∈ nss <->
        ns = username p \/
        (ns <> "public" /\
         exists org, org ∈ organizations p /\ organization_name org = ns)).
Proof.
  intros Hp.
  exists (Dict.set "content"
            (PList (map (fun ns => PDict (namespace_node "owned" ns true))
                      (distinct [username p]
                         (List.filter (fun n => negb (String.eqb n "public"))
                            (map organization_name (organizations p))))))
            (Dict.set "content" (PList [])
               (Dict.set "format" (PStr "json")
                  (Dict.set "path" (PStr "cloud/owned") (base_directory_model "owned"))))),
    (distinct [username p]
       (List.filter (fun n => negb (String.eqb n "public"))
          (map organization_name (organizations p)))).
  split.
  { unfold __list_category, try_except, bind.
    change (String.eqb "owned" "shared") with false.
    change (String.eqb "owned" "public") with false. cbv beta iota.
    unfold ret at 1. cbv beta iota.
    cbn [length Nat.eqb andb]. change (String.eqb "owned" "owned") with true.
    cbv beta iota. unfold Cloud.client_user_profile, ask_reply. rewrite Hp.
    unfold ret.
    pose proof (add_organizations_distinct "owned" (organizations p) [username p])
      as Hd.
    cbn [map] in Hd. cbn [Dict.set]. rewrite Hd.
    unfold Dict.values. rewrite !map_map. reflexivity. }
  split; [apply dict_get_set_eq|].
  split; [apply distinct_head|].
  split; [apply distinct_NoDup, NoDup_singleton|].
  intros ns. rewrite distinct_elem_of, list_elem_of_singleton. split.
  - intros [H|H]; [now left|right].
    apply list_elem_of_In, filter_In in H as [H Hne].
    apply in_map_iff in H as (org & Ho & Hin).
    apply negb_true_iff, String.eqb_neq in Hne.
    split; [exact Hne|]. exists org. split; [now apply list_elem_of_In|exact Ho].
  - intros [H|[Hne (org & Hin & Ho)]]; [now left|right].
    apply list_elem_of_In, filter_In. split.
    + apply in_map_iff. exists org. split; [exact Ho|now apply list_elem_of_In].
    + now apply negb_true_iff, String.eqb_neq.
Qed.

Lemma owned_listing_comes_from_profile_witness :
  exists model nss,
    __list_category "owned" true Sample.listed
    = (Ok model, log_call CallUserProfile Sample.listed) /\
    Dict.get "content" model
    = Some (PList (map (fun ns => PDict (namespace_node "owned" ns true)) nss)) /\
    head nss = Some "alice" /\
    NoDup nss.
Proof.
  destruct (owned_listing_comes_from_profile Sample.listed Sample.alice)
    as (model & nss & H1 & H2 & H3 & H4 & _).
  - reflexivity.
  - exists model, nss. repeat apply conj; assumption.
Defined.

(** ** The root listing *)

Lemma rstrip_app_kept (c : ascii) (s t : string) :
  PyStr.rstrip c t = t -> t <> EmptyString -> PyStr.rstrip c (s +:+ t) = s +:+ t.
Proof.
  intros Ht Hne. induction s as [|a s IH]; [exact Ht|].
  cbn [String.append PyStr.rstrip]. rewrite IH.
  destruct (s +:+ t) eqn:E; [|reflexivity].
  destruct s; [cbn in E; congruence|discriminate].
Qed.

Lemma strip_cloud_leaf (rest : string) :
  PyStr.strip "/" (("cloud/" +:+ rest) +:+ ".ipynb") = ("cloud/" +:+ rest) +:+ ".ipynb".
Proof.
  unfold PyStr.strip.
  change (PyStr.lstrip "/" (("cloud/" +:+ rest) +:+ ".ipynb"))
    with (("cloud/" +:+ rest) +:+ ".ipynb").
  apply rstrip_app_kept; [reflexivity|discriminate].
Qed.

Lemma split_cloud_category (category nm : string) :
  free_of "/" category = true -> free_of "/" nm = true ->
  PyStr.split "/" ("cloud/" +:+ category +:+ "/" +:+ nm) = ["cloud"; category; nm].
Proof.
  intros Hc Hnm.
  change ("cloud/" +:+ category +:+ "/" +:+ nm)
    with ("cloud" +:+ String "/" (category +:+ String "/" nm)).
  rewrite split_app_sep by reflexivity.
  rewrite split_app_sep by assumption.
  now rewrite split_free by assumption.
Qed.

(** The leaves of the root listing carry the path
    [cloud/<category>/<name>.ipynb], without the namespace.  Such a path
    does not lead back to the record: it resolves to the array
    [tiledb://<category>/<name>], and [get] without a type takes it for
    the directory of a namespace called [<name>] and lists that. *)
Theorem root_listing_leaf_opens_as_namespace
    (reads : list Byte.byte -> Z -> outcome pyval)
    (mark_trusted_cells : pyval -> string -> pyval)
    (validate_notebook_model : list (string * pyval) -> list (string * pyval))
    (super_get : string -> bool -> pyval -> pyval -> outcome (list (string * pyval)))
    (super_dir_model : string -> bool -> outcome (list (string * pyval)))
    (super_dir_exists : string -> bool)
    (category : string) (nb : ArrayInfo) (records : list ArrayInfo)
    (content : bool) (format : pyval) (w : World) :
  category = "owned" \/ category = "public" \/ category = "shared" ->
  free_of "/" (name nb) = true ->
  In nb records ->
  exists leaves leaf leaf_path,
    Dict.get "content" (category_listing category (Some records)) = Some (PList leaves) /\
    In (PDict leaf) leaves /\
    Dict.get "type" leaf = Some (PStr "notebook") /\
    Dict.get "path" leaf = Some (PStr leaf_path) /\
    tiledb_uri_from_path "/" (strip_notebook_ext leaf_path)
    = Ok (array_uri category (name nb)) /\
    get "/" reads mark_trusted_cells validate_notebook_model super_get super_dir_model
      super_dir_exists leaf_path content PNone format w
    = (model <- __list_namespace category (name nb) content;; ret (Some model)) w.
Proof.
  intros Hcat Hnm Hin.
  assert (Hfc : free_of "/" category = true)
    by (destruct Hcat as [-> | [-> | ->]]; reflexivity).
  assert (Hcb : String.eqb category "owned" || String.eqb category "public"
                || String.eqb category "shared" = true)
    by (destruct Hcat as [-> | [-> | ->]]; reflexivity).
  set (f := fun notebook : ArrayInfo =>
              PDict (Dict.set "path"
                       (PStr ("cloud/" +:+ category +:+ "/" +:+ name notebook
                                +:+ NOTEBOOK_EXT))
                       (Dict.set "last_modified" (PDate (last_accessed notebook))
                          (Dict.set "type" (PStr "notebook")
                             (base_model (name notebook)))))).
  exists (map f records),
    (Dict.set "path"
       (PStr ("cloud/" +:+ category +:+ "/" +:+ name nb +:+ NOTEBOOK_EXT))
       (Dict.set "last_modified" (PDate (last_accessed nb))
          (Dict.set "type" (PStr "notebook") (base_model (name nb))))),
    (("cloud/" +:+ category +:+ "/" +:+ name nb) +:+ ".ipynb").
  split.
  { destruct records as [|r rest]; [destruct Hin|].
    unfold category_listing. now rewrite dict_get_set_eq. }
  split; [exact (in_map f records nb Hin)|].
  split; [reflexivity|].
  split.
  { rewrite dict_get_set_eq. unfold NOTEBOOK_EXT. do 2 f_equal.
    now rewrite !append_assoc. }
  pose proof (split_cloud_category category (name nb) Hfc Hnm) as Hsplit.
  assert (Hsplit' :
            PyStr.split "/" (("cloud/" +:+ category +:+ "/" +:+ name nb) +:+ ".ipynb")
            = ["cloud"; category; name nb +:+ ".ipynb"]).
  { rewrite <- (split_cloud_category category (name nb +:+ ".ipynb") Hfc).
    - now rewrite !append_assoc.
    - rewrite free_of_app, Hnm. reflexivity. }
  split.
  { rewrite strip_notebook_ext_app.
    apply (tiledb_uri_from_segments "/" _ ["cloud"]); [exact Hsplit|now left]. }
  unfold get, fix_path.
  change ("cloud/" +:+ category +:+ "/" +:+ name nb)
    with ("cloud/" +:+ (category +:+ "/" +:+ name nb)).
  rewrite strip_cloud_leaf.
  change (String.eqb (("cloud/" +:+ (category +:+ "/" +:+ name nb)) +:+ ".ipynb") "")
    with false.
  cbv beta iota zeta.
  change ("cloud/" +:+ (category +:+ "/" +:+ name nb))
    with ("cloud/" +:+ category +:+ "/" +:+ name nb).
  assert (Hremote : _is_remote_path "/"
                      (("cloud/" +:+ category +:+ "/" +:+ name nb) +:+ ".ipynb") = true).
  { unfold _is_remote_path. now rewrite Hsplit'. }
  rewrite Hremote. cbn [negb].
  rewrite strip_notebook_ext_app.
  assert (Hdir : _is_remote_dir "/" ("cloud/" +:+ category +:+ "/" +:+ name nb) = true).
  { unfold _is_remote_dir. cbn [existsb]. rewrite Hsplit.
    cbn [remote_dir_splits length Nat.leb]. rewrite Hcb. reflexivity. }
  assert (Hremote2 : _is_remote_path "/" ("cloud/" +:+ category +:+ "/" +:+ name nb)
                     = true).
  { unfold _is_remote_path. now rewrite Hsplit. }
  cbn [is_none]. rewrite Hdir.
  unfold bind at 1. unfold ret at 1.
  change (py_eq_str (PStr "directory") "notebook") with false.
  change (py_eq_str (PStr "directory") "file") with false.
  change (py_eq_str (PStr "directory") "directory") with true.
  cbv beta iota.
  unfold __directory_model_from_path, __category_from_path, __namespace_from_path.
  rewrite Hremote2, Hdir, Hsplit. cbn [negb andb length Nat.eqb].
  change (String.eqb ("cloud/" +:+ category +:+ "/" +:+ name nb) "cloud") with false.
  change (String.eqb "cloud" "cloud") with true.
  reflexivity.
Qed.

Lemma root_listing_leaf_opens_as_namespace_witness :
  exists leaves leaf leaf_path,
    Dict.get "content" (category_listing "owned" (Some [Sample.record "alice" "nb1"]))
    = Some (PList leaves) /\
    In (PDict leaf) leaves /\
    Dict.get "type" leaf = Some (PStr "notebook") /\
    Dict.get "path" leaf = Some (PStr leaf_path) /\
    tiledb_uri_from_path "/" (strip_notebook_ext leaf_path) = Ok "tiledb://owned/nb1" /\
    get "/" Sample.reads Sample.mark_trusted_cells Sample.validate_notebook_model
      Sample.super_get Sample.super_dir_model Sample.super_exists leaf_path true
      PNone PNone Sample.listed
    = (model <- __list_namespace "owned" "nb1" true;; ret (Some model)) Sample.listed.
Proof.
  apply (root_listing_leaf_opens_as_namespace Sample.reads Sample.mark_trusted_cells
           Sample.validate_notebook_model Sample.super_get Sample.super_dir_model
           Sample.super_exists "owned" (Sample.record "alice" "nb1")
           [Sample.record "alice" "nb1"] true PNone Sample.listed).
  - left. reflexivity.
  - reflexivity.
  - left. reflexivity.
Defined.

(** ** Saving and reading notebooks *)

(** Saving a notebook over an existing array and reading it back hands
    the decoder exactly the bytes the encoder produced: the model read
    holds the decoded notebook, marked trusted for that path, and the
    array is typed [notebook] from then on. *)
Theorem notebook_save_then_read_decodes_what_was_encoded (os_sep : ascii)
    (reads : list Byte.byte -> Z -> outcome pyval)
    (mark_trusted_cells : pyval -> string -> pyval)
    (validate_notebook_model : list (string * pyval) -> list (string * pyval))
    (from_dict : pyval -> pyval)
    (check_and_sign : pyval -> string -> outcome unit)
    (json_dumps : pyval -> outcome (list Byte.byte))
    (fuel : nat) (model : list (string * pyval)) (path : string) (content nb : pyval)
    (B : list Byte.byte) (w : World) (uri : string) (a : BackendArray) :
  tiledb_uri_from_path os_sep path = Ok uri ->
  arrays w !! uri = Some a ->
  Dict.get "content" model = Some content ->
  check_and_sign (from_dict content) path = Ok tt ->
  json_dumps content = Ok B ->
  reads B NBFORMAT_VERSION = Ok nb ->
  exists w1 a1 m w2,
    _save_notebook_tiledb os_sep validate_notebook_model from_dict check_and_sign
      json_dumps fuel false model path w
    = (Ok (None, dict_get_default "message" (validate_notebook_model model),
           validate_notebook_model model), w1) /\
    arrays w1 !! uri = Some a1 /\
    meta a1 !! "type" = Some (PStr "notebook") /\
    _notebook_from_array os_sep reads mark_trusted_cells validate_notebook_model
      path true w1 = (Ok (validate_notebook_model m), w2) /\
    Dict.get "content" m = Some (mark_trusted_cells nb path) /\
    Dict.get "type" m = Some (PStr "notebook").
Proof.
  intros Huri Ha Hc Hsign Hjson Hreads.
  destruct (write_existing_spec os_sep fuel path B (dict_get_default "mimetype" model)
              (dict_get_default "format" model) (PStr "notebook") w uri a Huri Ha)
    as (w1 & a1 & Hrun & Ha1 & Hcells & _ & Hsize & _ & _ & Hty).
  exists w1, a1.
  eexists. exists (log_call (CallOpen uri false) (log_call (CallArrayInfo uri) w1)).
  split.
  { unfold _save_notebook_tiledb.
    unfold bind at 1. unfold lift at 1. cbn [py_getitem]. rewrite Hc.
    unfold bind at 1. unfold lift at 1. rewrite Hsign.
    unfold bind at 1. unfold lift at 1. rewrite Hjson.
    unfold bind at 1. rewrite Hrun. reflexivity. }
  split; [exact Ha1|]. split; [exact Hty|].
  split.
  { unfold _notebook_from_array, try_except, bind, lift, ret, Cloud.array_info,
      ask_reply, Tiledb.open.
    rewrite Huri. cbv beta iota zeta. rewrite Ha1. cbv beta iota zeta.
    cbn [arrays log_call]. rewrite Ha1. cbv beta iota zeta.
    rewrite Hsize. cbn [Tiledb.read_contents]. cbv beta iota zeta.
    rewrite Hcells, read_range_write, Hreads. cbv beta iota zeta. cbn [fst snd].
    reflexivity. }
  split; [apply dict_get_set_eq|].
  rewrite dict_get_set_ne by reflexivity.
  rewrite dict_get_set_ne by reflexivity.
  destruct (negb (existsb (String.eqb "write") (allowed_actions (info a1))));
    [rewrite dict_get_set_ne by reflexivity|];
    rewrite dict_get_set_ne by reflexivity; reflexivity.
Qed.

Lemma notebook_save_then_read_decodes_what_was_encoded_witness :
  exists w1 a1 m w2,
    _save_notebook_tiledb "/" Sample.validate_notebook_model Sample.from_dict
      Sample.check_and_sign Sample.json_dumps 0 false
      [("type", PStr "notebook"); ("content", PDict [("metadata", PDict [])])]
      "cloud/owned/alice/x" Sample.one_file
    = (Ok (None, PNone,
           [("type", PStr "notebook"); ("content", PDict [("metadata", PDict [])])]),
       w1) /\
    arrays w1 !! "tiledb://alice/x" = Some a1 /\
    meta a1 !! "type" = Some (PStr "notebook") /\
    _notebook_from_array "/" Sample.reads Sample.mark_trusted_cells
      Sample.validate_notebook_model "cloud/owned/alice/x" true w1 = (Ok m, w2) /\
    Dict.get "content" m
    = Some (PDict [("nbformat", PInt 4); ("source", PBytes [Byte.x7b; Byte.x7d])]) /\
    Dict.get "type" m = Some (PStr "notebook").
Proof.
  apply (notebook_save_then_read_decodes_what_was_encoded "/" Sample.reads
           Sample.mark_trusted_cells Sample.validate_notebook_model Sample.from_dict
           Sample.check_and_sign Sample.json_dumps 0
           [("type", PStr "notebook"); ("content", PDict [("metadata", PDict [])])]
           "cloud/owned/alice/x" (PDict [("metadata", PDict [])])
           (PDict [("nbformat", PInt 4); ("source", PBytes [Byte.x7b; Byte.x7d])])
           [Byte.x7b; Byte.x7d] Sample.one_file "tiledb://alice/x"
           (Sample.stored "x" [Byte.x01] "file"));
    reflexivity.
Defined.

(** ** What [save] refuses *)

Lemma newness_flag_returns (model : list (string * pyval)) :
  newness_flag model <> OutOfFuel.
Proof.
  unfold newness_flag. cbn [py_getitem].
  destruct (Dict.get "content" model) as [content|]; [|discriminate].
  destruct content; cbn [py_getitem]; try discriminate.
  destruct (Dict.get "metadata" d) as [metadata|]; [|discriminate].
  destruct metadata; cbn [py_contains]; discriminate.
Qed.

Section SaveRejections.

Variable os_sep : ascii.
Variable reads : list Byte.byte -> Z -> outcome pyval.
Variable mark_trusted_cells : pyval -> string -> pyval.
Variable validate_notebook_model : list (string * pyval) -> list (string * pyval).
Variable from_dict : pyval -> pyval.
Variable check_and_sign : pyval -> string -> outcome unit.
Variable json_dumps : pyval -> outcome (list Byte.byte).
Variable run_pre_save_hook :
  list (string * pyval) -> string -> outcome (list (string * pyval)).
Variable super_get : string -> bool -> pyval -> pyval -> outcome (list (string * pyval)).
Variable super_save : list (string * pyval) -> string -> outcome (list (string * pyval)).
Variable super_dir_model : string -> bool -> outcome (list (string * pyval)).
Variable super_dir_exists : string -> bool.

(** The model is checked before the path is looked at: a model without
    a type, without content (unless a directory), or whose type is an
    unknown string is refused on local and remote paths alike, and
    neither the backend nor the parent class's [save] is reached.  The
    code passes 400 to [http_error]; the error raised carries status
    500. *)
Theorem save_validates_model_before_path (fuel : nat)
    (model model' : list (string * pyval)) (path : string) (w : World) :
  run_pre_save_hook model path = Ok model' ->
  (Dict.has "type" model' = false ->
   save os_sep reads mark_trusted_cells validate_notebook_model from_dict
     check_and_sign json_dumps run_pre_save_hook super_get super_save
     super_dir_model super_dir_exists fuel model path w
   = (Raise (HTTPError 500 "No file type provided"), w)) /\
  (forall type,
      Dict.get "type" model' = Some type ->
      Dict.has "content" model' = false ->
      py_eq_str type "directory" = false ->
      save os_sep reads mark_trusted_cells validate_notebook_model from_dict
        check_and_sign json_dumps run_pre_save_hook super_get super_save
        super_dir_model super_dir_exists fuel model path w
      = (Raise (HTTPError 500 "No file content provided"), w)) /\
  (forall type,
      Dict.get "type" model' = Some (PStr type) ->
      Dict.has "content" model' = true ->
      type <> "directory" -> type <> "file" -> type <> "notebook" ->
      save os_sep reads mark_trusted_cells validate_notebook_model from_dict
        check_and_sign json_dumps run_pre_save_hook super_get super_save
        super_dir_model super_dir_exists fuel model path w
      = (Raise (HTTPError 500 ("Unhandled contents type: " +:+ type)), w)).
Proof.
  intros Hhook. split; [|split].
  - intros Hty. unfold save. unfold bind at 1. unfold lift at 1.
    rewrite Hhook, Hty. reflexivity.
  - intros type Hty Hc Hd. unfold save. unfold bind at 1. unfold lift at 1.
    rewrite Hhook. unfold Dict.has, dict_get_default in *. rewrite Hty.
    cbn [negb]. destruct (Dict.get "content" model'); [discriminate|].
    rewrite Hd. reflexivity.
  - intros type Hty Hc Hd Hf Hn. apply String.eqb_neq in Hd, Hf, Hn.
    unfold save. unfold bind at 1. unfold lift at 1.
    rewrite Hhook. unfold Dict.has, dict_get_default in *. rewrite Hty.
    cbn [negb py_eq_str]. destruct (Dict.get "content" model'); [|discriminate].
    rewrite Hd, Hf, Hn. reflexivity.
Qed.

(** No save creates a directory in the cloud: a model of type
    [directory] saved to a remote path always raises and leaves the
    world as it was.  The error is the intended HTTP error (raised with
    400, carrying status 500) only when the model carries content with
    metadata; a directory model without content fails earlier, on the
    lookup of ['content']. *)
Theorem save_never_creates_cloud_directory (fuel : nat)
    (model model' : list (string * pyval)) (path : string) (w : World) :
  run_pre_save_hook model path = Ok model' ->
  _is_remote_path os_sep (fix_path path) = true ->
  _is_remote_path os_sep (strip_notebook_ext (fix_path path)) = true ->
  Dict.get "type" model' = Some (PStr "directory") ->
  exists e,
    save os_sep reads mark_trusted_cells validate_notebook_model from_dict
      check_and_sign json_dumps run_pre_save_hook super_get super_save
      super_dir_model super_dir_exists fuel model path w
    = (Raise e, w) /\
    (forall b, newness_flag model' = Ok b ->
               e = HTTPError 500 "Trying to create unsupported type: directory in cloud") /\
    (Dict.has "content" model' = false -> e = KeyError "content").
Proof.
  intros Hhook Hr Hr' Hty.
  unfold save. unfold bind at 1. unfold lift at 1. rewrite Hhook.
  unfold Dict.has at 1, dict_get_default. rewrite Hty.
  change (py_eq_str (PStr "directory") "directory") with true.
  cbn [negb andb orb]. rewrite andb_false_r, Hr. cbn [negb].
  unfold bind at 1. unfold lift at 1.
  destruct (newness_flag model') as [b|e|] eqn:Hflag.
  - unfold bind at 1. unfold save_dispatch.
    change (py_eq_str (PStr "directory") "notebook") with false.
    change (py_eq_str (PStr "directory") "file") with false.
    cbv beta iota. rewrite Hr'. unfold raise.
    eexists. split; [reflexivity|]. split; [reflexivity|].
    intros Hc. exfalso. unfold newness_flag, Dict.has in *. cbn [py_getitem] in Hflag.
    destruct (Dict.get "content" model'); discriminate.
  - exists e. split; [reflexivity|]. split; [discriminate|].
    intros Hc. unfold newness_flag, Dict.has in *. cbn [py_getitem] in Hflag.
    destruct (Dict.get "content" model'); [discriminate|congruence].
  - exfalso. exact (newness_flag_returns _ Hflag).
Qed.

End SaveRejections.

Lemma save_validates_model_before_path_witness :
  save "/" Sample.reads Sample.mark_trusted_cells Sample.validate_notebook_model
    Sample.from_dict Sample.check_and_sign Sample.json_dumps Sample.run_pre_save_hook
    Sample.super_get Sample.super_save Sample.super_dir_model Sample.super_exists 0
    [("content", PStr "hello")] "notes/a.txt" Sample.fresh_user
  = (Raise (HTTPError 500 "No file type provided"), Sample.fresh_user).
Proof.
  destruct (save_validates_model_before_path "/" Sample.reads Sample.mark_trusted_cells
              Sample.validate_notebook_model Sample.from_dict Sample.check_and_sign
              Sample.json_dumps Sample.run_pre_save_hook Sample.super_get
              Sample.super_save Sample.super_dir_model Sample.super_exists 0
              [("content", PStr "hello")] [("content", PStr "hello")] "notes/a.txt"
              Sample.fresh_user) as (H & _ & _).
  - reflexivity.
  - apply H. reflexivity.
Defined.

Lemma save_never_creates_cloud_directory_witness :
  exists e,
    save "/" Sample.reads Sample.mark_trusted_cells Sample.validate_notebook_model
      Sample.from_dict Sample.check_and_sign Sample.json_dumps Sample.run_pre_save_hook
      Sample.super_get Sample.super_save Sample.super_dir_model Sample.super_exists 0
      [("type", PStr "directory")] "cloud/owned/alice/new" Sample.fresh_user
    = (Raise e, Sample.fresh_user) /\
    e = KeyError "content".
Proof.
  destruct (save_never_creates_cloud_directory "/" Sample.reads
              Sample.mark_trusted_cells Sample.validate_notebook_model Sample.from_dict
              Sample.check_and_sign Sample.json_dumps Sample.run_pre_save_hook
              Sample.super_get Sample.super_save Sample.super_dir_model
              Sample.super_exists 0 [("type", PStr "directory")]
              [("type", PStr "directory")] "cloud/owned/alice/new" Sample.fresh_user)
    as (e & Hrun & _ & He); try reflexivity.
  exists e. split; [exact Hrun|]. apply He. reflexivity.
Defined.

(** ** Local paths and the root of the tree *)

Lemma dot_is_local (os_sep : ascii) : _is_remote_path os_sep "." = false.
Proof.
  unfold _is_remote_path. cbn [PyStr.split].
  destruct (Ascii.eqb "." os_sep); reflexivity.
Qed.

Lemma fix_path_local (os_sep : ascii) (path : string) :
  _is_remote_path os_sep (PyStr.strip "/" path) = false ->
  _is_remote_path os_sep (fix_path path) = false.
Proof.
  intros H. unfold fix_path.
  destruct (String.eqb (PyStr.strip "/" path) ""); [apply dot_is_local|exact H].
Qed.

Section LocalPaths.

Variable os_sep : ascii.
Variable reads : list Byte.byte -> Z -> outcome pyval.
Variable mark_trusted_cells : pyval -> string -> pyval.
Variable validate_notebook_model : list (string * pyval) -> list (string * pyval).
Variable from_dict : pyval -> pyval.
Variable check_and_sign : pyval -> string -> outcome unit.
Variable json_dumps : pyval -> outcome (list Byte.byte).
Variable run_pre_save_hook :
  list (string * pyval) -> string -> outcome (list (string * pyval)).
Variable super_get : string -> bool -> pyval -> pyval -> outcome (list (string * pyval)).
Variable super_save : list (string * pyval) -> string -> outcome (list (string * pyval)).
Variable super_dir_model : string -> bool -> outcome (list (string * pyval)).
Variable super_dir_exists : string -> bool.
Variable super_is_hidden : string -> bool.
Variable super_file_exists : string -> bool.
Variable super_delete_file : string -> outcome unit.
Variable super_rename : string -> string -> outcome unit.

(** A path whose first segment is not [cloud] never reaches the cloud
    backend: deleting, renaming, the existence and hidden tests, type
    guessing, and any [get] other than a root listing with content hand
    the untouched path to the parent class and leave the world, call log
    included, as it was. *)
Theorem local_paths_never_reach_the_cloud (path new_path : string)
    (content allow_directory : bool) (type format : pyval) (w : World) :
  _is_remote_path os_sep (PyStr.strip "/" path) = false ->
  delete_file os_sep super_delete_file path w = (super_delete_file path, w) /\
  rename_file os_sep super_rename path new_path w = (super_rename path new_path, w) /\
  file_exists os_sep super_file_exists path w = (Ok (super_file_exists path), w) /\
  is_hidden os_sep super_is_hidden path = super_is_hidden path /\
  snd (guess_type os_sep super_dir_exists path allow_directory w) = w /\
  (fix_path path <> "." \/ content = false ->
   get os_sep reads mark_trusted_cells validate_notebook_model super_get
     super_dir_model super_dir_exists path content type format w
   = (match super_get path content type format with
      | Ok model => Ok (Some model)
      | Raise e => Raise e
      | OutOfFuel => OutOfFuel
      end, w)).
Proof.
  intros Hl.
  split; [unfold delete_file; now rewrite Hl|].
  split; [unfold rename_file; now rewrite Hl|].
  split; [unfold file_exists; now rewrite Hl|].
  split; [unfold is_hidden; now rewrite Hl|].
  split.
  { unfold guess_type. rewrite Hl.
    destruct (PyStr.endswith ".ipynb" path); [reflexivity|].
    destruct (allow_directory && dir_exists os_sep super_dir_exists path); reflexivity. }
  intros Hroot. unfold get. rewrite (fix_path_local _ _ Hl). cbn [negb].
  unfold bind at 1. unfold lift at 1.
  destruct (super_get path content type format) as [model|e|]; [|reflexivity..].
  assert (Hoff : String.eqb (fix_path path) "." && content = false).
  { destruct Hroot as [Hne | ->]; [|apply andb_false_r].
    apply String.eqb_neq in Hne. now rewrite Hne. }
  rewrite Hoff. reflexivity.
Qed.

(** A root listing with content gets one more entry when the profile
    has the feature [notebook_sharing]: a directory [cloud], appended
    after the local entries, holding the three category nodes [owned],
    [public], [shared] in this order.  Without the feature the local
    model is returned as the parent class built it. *)
Theorem root_get_appends_cloud_node (path : string) (type format : pyval)
    (model : list (string * pyval)) (entries : list pyval) (w : World)
    (p : UserProfile) (owned shared public : option (list ArrayInfo)) :
  fix_path path = "." ->
  super_get path true type format = Ok model ->
  Dict.get "content" model = Some (PList entries) ->
  user_profile w = Reply p ->
  list_arrays w None = Reply owned ->
  list_shared_arrays w None = Reply shared ->
  list_public_arrays w None = Reply public ->
  exists w',
    get os_sep reads mark_trusted_cells validate_notebook_model super_get
      super_dir_model super_dir_exists path true type format w
    = (Ok (Some
             (if existsb (String.eqb "notebook_sharing") (enabled_features p)
              then Dict.set "content"
                     (PList
                        (entries ++
                         [PDict
                            (Dict.set "content"
                               (PList [PDict (category_listing "owned" owned);
                                       PDict (category_listing "public" public);
                                       PDict (category_listing "shared" shared)])
                               (base_directory_model "cloud"))]))
                     model
              else model)), w') /\
    arrays w' = arrays w /\
    map name_of [PDict (category_listing "owned" owned);
                 PDict (category_listing "public" public);
                 PDict (category_listing "shared" shared)]
    = ["owned"; "public"; "shared"].
Proof.
  intros Hroot Hget Hc Hp Ho Hs Hpub.
  unfold get. rewrite Hroot, dot_is_local. cbn [negb].
  unfold bind at 1. unfold lift at 1. rewrite Hget.
  change (String.eqb "." ".") with true. cbn [andb].
  unfold bind at 1. unfold get_cloud_enabled, try_except.
  unfold bind at 1. unfold Cloud.client_user_profile, ask_reply. rewrite Hp.
  unfold ret at 1.
  destruct (existsb (String.eqb "notebook_sharing") (enabled_features p)).
  - unfold __build_cloud_notebook_lists, try_except, bind,
      Cloud.client_list_arrays, Cloud.client_list_shared_arrays,
      Cloud.client_list_public_arrays, ask_reply.
    cbn [list_arrays log_call]. rewrite Ho. cbv beta iota zeta.
    cbn [list_shared_arrays log_call]. rewrite Hs. cbv beta iota zeta.
    cbn [list_public_arrays log_call]. rewrite Hpub. cbv beta iota zeta.
    unfold ret. rewrite Hc.
    eexists. split; [reflexivity|]. split; [reflexivity|].
    destruct owned as [[|? ?]|], shared as [[|? ?]|], public as [[|? ?]|];
      reflexivity.
  - unfold ret. eexists. split; [reflexivity|]. split; [reflexivity|].
    destruct owned as [[|? ?]|], shared as [[|? ?]|], public as [[|? ?]|];
      reflexivity.
Qed.

End LocalPaths.

Lemma local_paths_never_reach_the_cloud_witness :
  delete_file "/" (fun _ => Ok tt) "notes/a.txt" Sample.one_file
  = (Ok tt, Sample.one_file) /\
  file_exists "/" Sample.super_exists "notes/a.txt" Sample.one_file
  = (Ok false, Sample.one_file).
Proof.
  destruct (local_paths_never_reach_the_cloud "/" Sample.reads
              Sample.mark_trusted_cells Sample.validate_notebook_model
              Sample.super_get Sample.super_dir_model Sample.super_exists
              Sample.super_exists Sample.super_exists (fun _ => Ok tt)
              (fun _ _ => Ok tt) "notes/a.txt" "notes/b.txt" true true PNone PNone
              Sample.one_file) as (H1 & _ & H3 & _).
  - reflexivity.
  - split; [exact H1 | exact H3].
Defined.

Lemma root_get_appends_cloud_node_witness :
  exists w',
    get "/" Sample.reads Sample.mark_trusted_cells Sample.validate_notebook_model
      (fun _ _ _ _ => Ok (Dict.set "content" (PList []) (base_directory_model "")))
      Sample.super_dir_model Sample.super_exists "/" true PNone PNone Sample.listed
    = (Ok (Some
             (Dict.set "content"
                (PList
                   [PDict
                      (Dict.set "content"
                         (PList
                            [PDict (category_listing "owned"
                                      (Some [Sample.record "alice" "nb1"]));
                             PDict (category_listing "public" (Some []));
                             PDict (category_listing "shared"
                                      (Some [Sample.record "bob" "a";
                                             Sample.record "carol" "b";
                                             Sample.record "bob" "c"]))])
                         (base_directory_model "cloud"))])
                (Dict.set "content" (PList []) (base_directory_model "")))), w') /\
    arrays w' = arrays Sample.listed.
Proof.
  destruct (root_get_appends_cloud_node "/" Sample.reads Sample.mark_trusted_cells
              Sample.validate_notebook_model
              (fun _ _ _ _ => Ok (Dict.set "content" (PList []) (base_directory_model "")))
              Sample.super_dir_model Sample.super_exists "/" PNone PNone
              (Dict.set "content" (PList []) (base_directory_model "")) []
              Sample.listed Sample.alice (Some [Sample.record "alice" "nb1"])
              (Some [Sample.record "bob" "a"; Sample.record "carol" "b";
                     Sample.record "bob" "c"])
              (Some [])) as (w' & Hrun & Harr & _); try reflexivity.
  exists w'. split; [exact Hrun | exact Harr].
Defined.
